(** * AnythingLLM agent providers: native tool calling and its fallbacks

    A shallow embedding of the tool-calling normalisation layer of the
    server (the shared helpers of [helpers/tooled.js], the provider
    adapters built on them, the native and the prompt-emulated path of
    the Ollama adapter, and the native path of the Bedrock adapter),
    together with the properties the specification states about it. *)

From Stdlib Require Import ZArith Lia Ascii String.
From stdpp Require Import base option list strings gmap fin_maps pretty.

Set Warnings "-register-all".

Local Open Scope string_scope.
Local Open Scope list_scope.

#[local] Arguments String.append !_ _ / : simpl nomatch.

(** ** JavaScript values *)

Module Js.

(** The values that cross the interfaces modelled here: what
    [JSON.parse] can return, plus [undefined]. *)
Inductive JValue : Type :=
| JUndefined
| JNull
| JBool (b : bool)
| JNum (z : Z)
| JStr (s : string)
| JArr (items : list JValue)
| JObj (fields : list (string * JValue)).

(** JavaScript truthiness, as used by [if (x)], [!x], [x || y]. *)
Definition truthy (v : JValue) : bool :=
  match v with
  | JUndefined | JNull => false
  | JBool b => b
  | JNum z => negb (Z.eqb z 0)
  | JStr s => negb (String.eqb s EmptyString)
  | JArr _ | JObj _ => true
  end.

(** Truthiness of a possibly absent string ([undefined] or the empty
    string are falsy). *)
Definition truthy_str (o : option string) : bool :=
  match o with
  | Some s => negb (String.eqb s EmptyString)
  | None => false
  end.

(** [x || EmptyString] on a possibly absent string. *)
Definition or_empty (o : option string) : string :=
  match o with
  | Some s => s
  | None => EmptyString
  end.

(** [v === null] *)
Definition is_null (v : JValue) : bool :=
  match v with JNull => true | _ => false end.

(** [v === true] *)
Definition is_true (v : JValue) : bool :=
  match v with JBool true => true | _ => false end.

(** [String.prototype.includes] *)
Fixpoint includes (s sub : string) : bool :=
  if String.prefix sub s then true
  else match s with
       | EmptyString => false
       | String _ rest => includes rest sub
       end.

(** The double-quote character, as a one-character string. *)
Definition dquote : string := String "034"%char EmptyString.

(** [quoted s] is [s] between double quotes. *)
Definition quoted (s : string) : string := dquote +:+ s +:+ dquote.

End Js.

Export Js.

(** ** A concrete JSON reader and writer

    [JSON.parse] and [JSON.stringify] are built-ins of the runtime; the
    model below takes them as parameters.  This module gives one
    concrete pair (objects, arrays, strings with the common escapes,
    integers and the three literals) with which the parametric model is
    run on the inputs of the examples. *)

Module JsonText.

Definition is_ws (c : ascii) : bool :=
  match c with
  | " "%char | "009"%char | "010"%char | "013"%char => true
  | _ => false
  end.

Fixpoint skip_ws (s : string) : string :=
  match s with
  | String c rest => if is_ws c then skip_ws rest else s
  | EmptyString => s
  end.

Definition digit_of (c : ascii) : option Z :=
  let n := Z.of_nat (nat_of_ascii c) in
  if ((48 <=? n) && (n <=? 57))%Z then Some (n - 48)%Z else None.

Fixpoint read_digits (acc : Z) (s : string) : Z * string :=
  match s with
  | String c rest =>
      match digit_of c with
      | Some d => read_digits (10 * acc + d)%Z rest
      | None => (acc, s)
      end
  | EmptyString => (acc, s)
  end.

(** An integer: optional minus sign, then at least one digit. *)
Definition read_number (s : string) : option (Z * string) :=
  let '(neg, body) :=
    match s with
    | String "-"%char rest => (true, rest)
    | _ => (false, s)
    end in
  match body with
  | String c _ =>
      match digit_of c with
      | Some _ =>
          let '(n, rest) := read_digits 0 body in
          Some (if neg then (- n)%Z else n, rest)
      | None => None
      end
  | EmptyString => None
  end.

(** The characters of a string literal after its opening quote, up to
    and including the closing quote. *)
Fixpoint read_string_body (s : string) : option (string * string) :=
  match s with
  | EmptyString => None
  | String "034"%char rest => Some (EmptyString, rest)
  | String "\"%char (String e rest) =>
      let decoded :=
        match e with
        | "n"%char => Some "010"%char
        | "t"%char => Some "009"%char
        | "r"%char => Some "013"%char
        | "034"%char | "\"%char | "/"%char => Some e
        | _ => None
        end in
      match decoded, read_string_body rest with
      | Some c, Some (body, rest') => Some (String c body, rest')
      | _, _ => None
      end
  | String "\"%char EmptyString => None
  | String c rest =>
      match read_string_body rest with
      | Some (body, rest') => Some (String c body, rest')
      | None => None
      end
  end.

Definition read_literal (lit : string) (v : JValue) (s : string)
  : option (JValue * string) :=
  if String.prefix lit s
  then Some (v, String.substring (String.length lit)
                  (String.length s - String.length lit) s)
  else None.

Fixpoint read_value (fuel : nat) (s : string) : option (JValue * string) :=
  match fuel with
  | O => None
  | S fuel' =>
      match skip_ws s with
      | String "{"%char rest =>
          match skip_ws rest with
          | String "}"%char rest' => Some (JObj [], rest')
          | body =>
              match read_members fuel' body with
              | Some (fields, rest') => Some (JObj fields, rest')
              | None => None
              end
          end
      | String "["%char rest =>
          match skip_ws rest with
          | String "]"%char rest' => Some (JArr [], rest')
          | body =>
              match read_elements fuel' body with
              | Some (items, rest') => Some (JArr items, rest')
              | None => None
              end
          end
      | String "034"%char rest =>
          match read_string_body rest with
          | Some (str, rest') => Some (JStr str, rest')
          | None => None
          end
      | String "t"%char _ as lit => read_literal "true" (JBool true) lit
      | String "f"%char _ as lit => read_literal "false" (JBool false) lit
      | String "n"%char _ as lit => read_literal "null" JNull lit
      | other =>
          match read_number other with
          | Some (n, rest) => Some (JNum n, rest)
          | None => None
          end
      end
  end
with read_members (fuel : nat) (s : string)
  : option (list (string * JValue) * string) :=
  match fuel with
  | O => None
  | S fuel' =>
      match skip_ws s with
      | String "034"%char rest =>
          match read_string_body rest with
          | Some (key, rest1) =>
              match skip_ws rest1 with
              | String ":"%char rest2 =>
                  match read_value fuel' rest2 with
                  | Some (v, rest3) =>
                      match skip_ws rest3 with
                      | String ","%char rest4 =>
                          match read_members fuel' rest4 with
                          | Some (more, rest5) => Some ((key, v) :: more, rest5)
                          | None => None
                          end
                      | String "}"%char rest4 => Some ([(key, v)], rest4)
                      | _ => None
                      end
                  | None => None
                  end
              | _ => None
              end
          | None => None
          end
      | _ => None
      end
  end
with read_elements (fuel : nat) (s : string)
  : option (list JValue * string) :=
  match fuel with
  | O => None
  | S fuel' =>
      match read_value fuel' s with
      | Some (v, rest) =>
          match skip_ws rest with
          | String ","%char rest' =>
              match read_elements fuel' rest' with
              | Some (more, rest'') => Some (v :: more, rest'')
              | None => None
              end
          | String "]"%char rest' => Some ([v], rest')
          | _ => None
          end
      | None => None
      end
  end.

(** The whole text must be one value, surrounded by white space only.
    The text's length bounds the nesting depth, so it is fuel enough. *)
Definition json_parse (s : string) : option JValue :=
  match read_value (S (String.length s)) s with
  | Some (v, rest) =>
      match skip_ws rest with
      | EmptyString => Some v
      | _ => None
      end
  | None => None
  end.

Fixpoint escape (s : string) : string :=
  match s with
  | EmptyString => EmptyString
  | String "034"%char rest => String "\"%char (String "034"%char (escape rest))
  | String "\"%char rest => String "\"%char (String "\"%char (escape rest))
  | String "010"%char rest => String "\"%char (String "n"%char (escape rest))
  | String c rest => String c (escape rest)
  end.

Definition join (sep : string) (parts : list string) : string :=
  match parts with
  | [] => EmptyString
  | p :: ps => fold_left (fun acc q => acc +:+ sep +:+ q) ps p
  end.

Fixpoint json_stringify (v : JValue) : string :=
  match v with
  | JUndefined => "undefined"
  | JNull => "null"
  | JBool true => "true"
  | JBool false => "false"
  | JNum z => pretty z
  | JStr s => quoted (escape s)
  | JArr items => "[" +:+ join "," (map json_stringify items) +:+ "]"
  | JObj fields =>
      "{" +:+
      join "," (map (fun kv => quoted (escape (fst kv)) +:+ ":" +:+ json_stringify (snd kv))
                    fields)
      +:+ "}"
  end.

End JsonText.

(** ** Data model of the agent framework and of the OpenAI-compatible API *)

(** An aibitat function definition. *)
Record FunctionDef := {
  fn_name : string;
  fn_description : string;
  fn_parameters : JValue
}.

(** An entry of the [tools] list of a request. *)
Record Tool := {
  tool_type : string;
  tool_function : FunctionDef
}.

(** The [functions] argument of the helpers, which they test with
    [Array.isArray]. *)
Inductive FunctionsArg :=
| NotAnArray (v : JValue)
| FnArray (fns : list FunctionDef).

(** [originalFunctionCall] of a [function]-role message: the call whose
    result the message carries.  [arguments] is a string or an object. *)
Record OriginalFunctionCall := {
  ofc_id : option string;
  ofc_name : option string;
  ofc_arguments : JValue
}.

(** An entry of [tool_calls] in the message of a response; the API
    gives its [arguments] as a string. *)
Record ToolCallObj := {
  tc_id : string;
  tc_type : string;
  tc_name : option string;
  tc_arguments : string
}.

(** An entry of [tool_calls] in an assistant message of a request.  Its
    [arguments] are what the helper's ternary leaves there: a string,
    or [undefined] where it stringified [undefined]. *)
Record MessageToolCall := {
  mtc_id : string;
  mtc_type : string;
  mtc_name : option string;
  mtc_arguments : JValue
}.

(** A chat message: the fields the helpers read or write.  An absent
    key is [None]. *)
Record Message := {
  role : string;
  content : JValue;
  name : option string;
  originalFunctionCall : option OriginalFunctionCall;
  reasoning_content : option string;
  tool_calls : option (list MessageToolCall);
  tool_call_id : option string
}.

Record FormatOptions := {
  injectReasoningContent : bool
}.

(** [options = {}] *)
Definition default_options : FormatOptions :=
  {| injectReasoningContent := false |}.

(** The body of [client.chat.completions.create]; [req_tools = None]
    when the request has no [tools] key. *)
Record Request := {
  req_model : string;
  req_stream : bool;
  req_messages : list Message;
  req_tools : option (list Tool)
}.

(** One entry of [delta.tool_calls] in a streamed chunk. *)
Record ToolCallDelta := {
  d_index : option nat;
  d_id : option string;
  d_name : option string;
  d_arguments : option string
}.

(** [chunk.choices[0].delta] *)
Record Delta := {
  delta_content : option string;
  delta_tool_calls : option (list ToolCallDelta)
}.

(** A streamed chunk: its [choices], each with an optional [delta]. *)
Record Chunk := {
  chunk_choices : list (option Delta)
}.

(** A tool call under assembly, one per streaming index. *)
Record Accumulator := {
  acc_id : string;
  acc_name : string;
  acc_arguments : string
}.

(** What the event handler receives with [reportStreamEvent]. *)
Record StreamEvent := {
  ev_type : string;
  ev_uuid : string;
  ev_content : string
}.

(** The tool call handed to the agent framework. *)
Record FunctionCall := {
  fc_id : string;
  fc_name : option string;
  fc_arguments : JValue
}.

(** The value [tooledStream] resolves to. *)
Record StreamResult := {
  sr_textResponse : string;
  sr_functionCall : option FunctionCall
}.

(** [response.choices[0].message] of a non-streaming response. *)
Record Completion := {
  cm_content : option string;
  cm_tool_calls : option (list ToolCallObj)
}.

Record Response := {
  resp_choices : list Completion;
  resp_usage : JValue
}.

(** The value [tooledComplete] resolves to; an absent key is [None],
    and so is a [textResponse] of [null]. *)
Record CompleteResult := {
  cr_textResponse : option string;
  cr_functionCall : option FunctionCall;
  cr_retryWithError : option Message;
  cr_cost : Z
}.

(** The kinds of thrown values: a failure of the upstream API
    (authentication, rate limit, internal server error, or any other;
    with the OpenAI SDK these are the classes the adapters tell apart
    with [instanceof], all of which extend [APIError]), the framework's
    [RetryError], and anything else. *)
Inductive ErrorClass :=
| AuthenticationError
| RateLimitError
| InternalServerError
| OtherAPIError
| RetryError
| OtherError.

Record JsError := {
  err_class : ErrorClass;
  err_message : string
}.

(** [error instanceof OpenAI.APIError] *)
Definition instanceof_APIError (e : JsError) : bool :=
  match err_class e with
  | AuthenticationError | RateLimitError | InternalServerError
  | OtherAPIError => true
  | RetryError | OtherError => false
  end.

(** A call either returns or throws. *)
Inductive Outcome (A : Type) :=
| Returned (a : A)
| Thrown (e : JsError).
Arguments Returned {A} a.
Arguments Thrown {A} e.

(** A stream as [for await] consumes it: the chunks it yields, and the
    error it throws after them when it fails before its end. *)
Record Stream (A : Type) := {
  stream_chunks : list A;
  stream_failure : option JsError
}.
Arguments stream_chunks {A} _.
Arguments stream_failure {A} _.

(** A stream that yields its chunks and ends. *)
Definition ended {A : Type} (chunks : list A) : Stream A :=
  {| stream_chunks := chunks; stream_failure := None |}.

(** ** helpers/tooled.js *)

Section Tooled.

(** [JSON.parse], with [None] where it throws. *)
Variable JSON_parse : string -> option JValue.
(** [JSON.stringify], as the text a value is written with. *)
Variable JSON_stringify : JValue -> string.
(** The [n]-th identifier the process-wide [v4()] hands out. *)
Variable v4 : nat -> string.

(** Modelled from the spec: the helper [safeJsonParse] of [utils/http],
    whose file is not among the sources, as its callers use it: the
    text parsed as JSON, or on a parse failure the fallback the caller
    passes. *)
Definition safeJsonParse (jsonString : string) (fallback : JValue) : JValue :=
  match JSON_parse jsonString with
  | Some v => v
  | None => fallback
  end.

Definition formatFunctionsToTools (functions : FunctionsArg) : list Tool :=
  match functions with
  | NotAnArray _ => []
  | FnArray [] => []
  | FnArray fns =>
      map (fun func =>
             {| tool_type := "function";
                tool_function :=
                  {| fn_name := fn_name func;
                     fn_description := fn_description func;
                     fn_parameters := fn_parameters func |} |})
          fns
  end.

(** [typeof v === "string" ? v : JSON.stringify(v)]: the string itself,
    the text of any other value, and [undefined] for [undefined], which
    [JSON.stringify] does not turn into a text. *)
Definition string_or_stringify (v : JValue) : JValue :=
  match v with
  | JStr s => JStr s
  | JUndefined => JUndefined
  | _ => JStr (JSON_stringify v)
  end.

(** The synthesized assistant message carrying one tool call. *)
Definition assistant_call (inject : bool) (id : string)
    (fname : option string) (args : JValue) : Message :=
  {| role := "assistant";
     content := JNull;
     name := None;
     originalFunctionCall := None;
     reasoning_content := if inject then Some EmptyString else None;
     tool_calls :=
       Some [ {| mtc_id := id; mtc_type := "function";
                 mtc_name := fname; mtc_arguments := args |} ];
     tool_call_id := None |}.

(** The [tool]-role message carrying a call's result. *)
Definition tool_result (id : string) (c : JValue) : Message :=
  {| role := "tool";
     content := string_or_stringify c;
     name := None;
     originalFunctionCall := None;
     reasoning_content := None;
     tool_calls := None;
     tool_call_id := Some id |}.

(** [message.originalFunctionCall?.id], when truthy. *)
Definition truthy_call_id (message : Message) : option (string * OriginalFunctionCall) :=
  match originalFunctionCall message with
  | Some ofc =>
      match ofc_id ofc with
      | Some id => if truthy_str (Some id) then Some (id, ofc) else None
      | None => None
      end
  | None => None
  end.

(** [!prevMsg || prevMsg.role !== "assistant" || !prevMsg.tool_calls] *)
Definition needs_assistant_call (prevMsg : option Message) : bool :=
  match prevMsg with
  | None => true
  | Some p =>
      negb (String.eqb (role p) "assistant")
      || match tool_calls p with Some _ => false | None => true end
  end.

(** One turn of the loop of [formatMessagesForTools]: what is pushed
    for [message], given the messages formatted so far and the number
    of identifiers drawn from [v4]. *)
Definition formatMessage (inject : bool)
    (st : list Message * nat) (message : Message) : list Message * nat :=
  let '(formattedMessages, drawn) := st in
  if String.eqb (role message) "function" then
    match truthy_call_id message with
    | Some (id, ofc) =>
        let prevMsg := last formattedMessages in
        let call :=
          if needs_assistant_call prevMsg
          then [assistant_call inject id (ofc_name ofc)
                  (string_or_stringify (ofc_arguments ofc))]
          else [] in
        (formattedMessages ++ call ++ [tool_result id (content message)], drawn)
    | None =>
        let toolCallId := "call_" +:+ v4 drawn in
        (formattedMessages
           ++ [assistant_call inject toolCallId (name message) (JStr "{}");
               tool_result toolCallId (content message)],
         S drawn)
    end
  else if inject && String.eqb (role message) "assistant"
          && negb (bool_decide (is_Some (reasoning_content message))) then
    (formattedMessages
       ++ [ {| role := role message;
               content := content message;
               name := name message;
               originalFunctionCall := originalFunctionCall message;
               reasoning_content := Some EmptyString;
               tool_calls := tool_calls message;
               tool_call_id := tool_call_id message |} ],
     drawn)
  else (formattedMessages ++ [message], drawn).

(** [formatMessagesForTools], from a given state of the identifier
    supply; it returns the formatted history and the new state. *)
Definition formatMessagesForTools_from (messages : list Message)
    (options : FormatOptions) (drawn : nat) : list Message * nat :=
  fold_left (formatMessage (injectReasoningContent options)) messages ([], drawn).

Definition formatMessagesForTools (messages : list Message)
    (options : FormatOptions) (drawn : nat) : list Message :=
  fst (formatMessagesForTools_from messages options drawn).

(** *** Streaming driver *)

(** The request both drivers build: the [tools] key is spread in only
    when the formatted list is not empty. *)
Definition build_request (model : string) (stream : bool)
    (formattedMessages : list Message) (tools : list Tool) : Request :=
  {| req_model := model;
     req_stream := stream;
     req_messages := formattedMessages;
     req_tools := if Nat.ltb 0 (List.length tools) then Some tools else None |}.

(** The mutable state of the loop over the stream: [result.textResponse],
    [toolCallsByIndex], and the events reported so far. *)
Record StreamState := {
  st_text : string;
  st_toolCallsByIndex : gmap nat Accumulator;
  st_events : list StreamEvent
}.

Definition initial_stream_state : StreamState :=
  {| st_text := EmptyString; st_toolCallsByIndex := ∅; st_events := [] |}.

(** [if (frag) field += frag] *)
Definition append_if_truthy (field : string) (frag : option string) : string :=
  if truthy_str frag then field +:+ or_empty frag else field.

Definition assembling_event (msgUUID : string) (acc : Accumulator) : StreamEvent :=
  {| ev_uuid := msgUUID +:+ ":tool_call_invocation";
     ev_type := "toolCallInvocation";
     ev_content :=
       "Assembling Tool Call: " +:+ acc_name acc +:+ "(" +:+ acc_arguments acc +:+ ")" |}.

(** What one entry of [delta.tool_calls] does to [toolCallsByIndex]:
    an entry with an id starts the accumulator of its index afresh, an
    entry without one extends the accumulator of its index if there is
    one. *)
Definition mergeAccumulator (byIndex : gmap nat Accumulator)
    (toolCall : ToolCallDelta) : gmap nat Accumulator :=
  let idx := default 0 (d_index toolCall) in
  if truthy_str (d_id toolCall) then
    <[idx := {| acc_id := or_empty (d_id toolCall);
                acc_name := or_empty (d_name toolCall);
                acc_arguments := or_empty (d_arguments toolCall) |}]> byIndex
  else
    match byIndex !! idx with
    | Some acc =>
        <[idx := {| acc_id := acc_id acc;
                    acc_name := append_if_truthy (acc_name acc) (d_name toolCall);
                    acc_arguments :=
                      append_if_truthy (acc_arguments acc) (d_arguments toolCall) |}]>
          byIndex
    | None => byIndex
    end.

(** The body of the loop over [choice.delta.tool_calls]: the merge, then
    the progress event when the index has an accumulator. *)
Definition mergeToolCall (msgUUID : string) (st : StreamState)
    (toolCall : ToolCallDelta) : StreamState :=
  let idx := default 0 (d_index toolCall) in
  let byIndex' := mergeAccumulator (st_toolCallsByIndex st) toolCall in
  {| st_text := st_text st;
     st_toolCallsByIndex := byIndex';
     st_events :=
       match byIndex' !! idx with
       | Some acc => st_events st ++ [assembling_event msgUUID acc]
       | None => st_events st
       end |}.

(** The body of [for await (const chunk of stream)]. *)
Definition processChunk (msgUUID : string) (st : StreamState) (chunk : Chunk)
  : StreamState :=
  match chunk_choices chunk with
  | [] => st
  | choice :: _ =>
      let delta_text := choice ≫= delta_content in
      let st1 :=
        if truthy_str delta_text then
          {| st_text := st_text st +:+ or_empty delta_text;
             st_toolCallsByIndex := st_toolCallsByIndex st;
             st_events :=
               st_events st
               ++ [ {| ev_type := "textResponseChunk";
                       ev_uuid := msgUUID;
                       ev_content := or_empty delta_text |} ] |}
        else st in
      match choice ≫= delta_tool_calls with
      | Some toolCalls => fold_left (mergeToolCall msgUUID) toolCalls st1
      | None => st1
      end
  end.

Definition consume (msgUUID : string) (chunks : list Chunk) : StreamState :=
  fold_left (processChunk msgUUID) chunks initial_stream_state.

(** [Math.min(...Object.keys(toolCallsByIndex).map(Number))], when
    there is a key. *)
Definition lowest_index (byIndex : gmap nat Accumulator) : option nat :=
  match (map_to_list byIndex).*1 with
  | [] => None
  | k :: ks => Some (foldr Nat.min k ks)
  end.

(** The end of [tooledStream]: the first tool call, if any was
    assembled.  The lowest index is a key of the map, so its lookup
    succeeds. *)
Definition first_function_call (byIndex : gmap nat Accumulator)
  : option FunctionCall :=
  match lowest_index byIndex with
  | Some i =>
      match byIndex !! i with
      | Some firstToolCall =>
          Some {| fc_id := acc_id firstToolCall;
                  fc_name := Some (acc_name firstToolCall);
                  fc_arguments :=
                    safeJsonParse (acc_arguments firstToolCall) (JObj []) |}
      | None => None
      end
  | None => None
  end.

Definition stream_result (st : StreamState) : StreamResult :=
  {| sr_textResponse := st_text st;
     sr_functionCall := first_function_call (st_toolCallsByIndex st) |}.

(** What one run of a driver leaves behind besides its outcome: the
    request it sent, the events it reported and the state of the
    identifier supply. *)
Record Effects := {
  fx_request : Request;
  fx_events : list StreamEvent;
  fx_drawn : nat
}.

Definition tooledStream_request (model : string) (messages : list Message)
    (functions : FunctionsArg) (options : FormatOptions) (drawn : nat) : Request :=
  build_request model true
    (formatMessagesForTools messages options (S drawn))
    (formatFunctionsToTools functions).

(** [tooledStream]; [create] is [client.chat.completions.create], which
    throws or returns the stream.  A stream that fails while it is read
    throws out of the loop, after the events of the chunks read. *)
Definition tooledStream (create : Request -> Outcome (Stream Chunk))
    (model : string) (messages : list Message) (functions : FunctionsArg)
    (options : FormatOptions) (drawn : nat) : Outcome StreamResult * Effects :=
  let msgUUID := v4 drawn in
  let request := tooledStream_request model messages functions options drawn in
  let drawn' := snd (formatMessagesForTools_from messages options (S drawn)) in
  match create request with
  | Thrown e =>
      (Thrown e, {| fx_request := request; fx_events := []; fx_drawn := drawn' |})
  | Returned stream =>
      let st := consume msgUUID (stream_chunks stream) in
      (match stream_failure stream with
       | Some e => Thrown e
       | None => Returned (stream_result st)
       end,
       {| fx_request := request; fx_events := st_events st; fx_drawn := drawn' |})
  end.

(** *** Non-streaming driver *)

Definition tooledComplete_request (model : string) (messages : list Message)
    (functions : FunctionsArg) (options : FormatOptions) (drawn : nat) : Request :=
  build_request model false
    (formatMessagesForTools messages options drawn)
    (formatFunctionsToTools functions).

(** The synthetic message of the retry signal. *)
Definition retry_message (toolCall : ToolCallObj) : Message :=
  {| role := "function";
     name := tc_name toolCall;
     content :=
       JStr ("Failed to parse tool call arguments as JSON. Raw arguments: "
               +:+ tc_arguments toolCall);
     originalFunctionCall :=
       Some {| ofc_id := Some (tc_id toolCall);
               ofc_name := tc_name toolCall;
               ofc_arguments := JStr (tc_arguments toolCall) |};
     reasoning_content := None;
     tool_calls := None;
     tool_call_id := None |}.

(** What [tooledComplete] makes of a response, after the request. *)
Definition interpret_response (getCostFn : JValue -> Z) (response : Response)
  : Outcome CompleteResult :=
  match resp_choices response with
  | [] =>
      Thrown {| err_class := OtherError;
                err_message := "Cannot read properties of undefined (reading 'message')" |}
  | completion :: _ =>
      let cost := getCostFn (resp_usage response) in
      match cm_tool_calls completion with
      | Some (toolCall :: _) =>
          let functionArgs := safeJsonParse (tc_arguments toolCall) JNull in
          if is_null functionArgs then
            Returned {| cr_textResponse := None;
                        cr_functionCall := None;
                        cr_retryWithError := Some (retry_message toolCall);
                        cr_cost := cost |}
          else
            Returned {| cr_textResponse := None;
                        cr_functionCall :=
                          Some {| fc_id := tc_id toolCall;
                                  fc_name := tc_name toolCall;
                                  fc_arguments := functionArgs |};
                        cr_retryWithError := None;
                        cr_cost := cost |}
      | _ =>
          Returned {| cr_textResponse := cm_content completion;
                      cr_functionCall := None;
                      cr_retryWithError := None;
                      cr_cost := cost |}
      end
  end.

(** [tooledComplete]; [create] is [client.chat.completions.create]. *)
Definition tooledComplete (create : Request -> Outcome Response)
    (model : string) (messages : list Message) (functions : FunctionsArg)
    (getCostFn : JValue -> Z) (options : FormatOptions) (drawn : nat)
  : Outcome CompleteResult * Effects :=
  let request := tooledComplete_request model messages functions options drawn in
  let fx :=
    {| fx_request := request; fx_events := [];
       fx_drawn := snd (formatMessagesForTools_from messages options drawn) |} in
  match create request with
  | Thrown e => (Thrown e, fx)
  | Returned response => (interpret_response getCostFn response, fx)
  end.

End Tooled.

(** ** Provider adapters *)

(** The adapters of [providers/]. *)
Inductive Provider :=
| Lemonade
| LMStudio
| DeepSeek
| OpenRouter
| DockerModelRunner
| LocalAi
| GenericOpenAi
| Ollama
| AWSBedrock
| AzureOpenAi.

(** The instance fields the adapters' dispatch reads and writes;
    [_supportsToolCalling = None] is the [null] of the constructors. *)
Record Adapter := {
  provider : Provider;
  model : string;
  _supportsToolCalling : option JValue;
  preloaded : bool
}.

(** The adapter as its constructor leaves it. *)
Definition new_adapter (p : Provider) (m : string) : Adapter :=
  {| provider := p; model := m; _supportsToolCalling := None; preloaded := false |}.

(** What a probe can observe outside the adapter: the environment
    variable, and the [tools] entry of the capabilities the provider's
    model-listing endpoint reports for the model. *)
Record Environment := {
  PROVIDER_SUPPORTS_NATIVE_TOOL_CALLING : option string;
  capabilities_tools : JValue
}.

(** One call of a probe: its answer, the adapter afterwards, and the
    number of capability queries it sent. *)
Record ProbeRun := {
  probe_answer : JValue;
  probe_adapter : Adapter;
  probe_queries : nat
}.

Definition set_supportsToolCalling (a : Adapter) (v : JValue) : Adapter :=
  {| provider := provider a; model := model a;
     _supportsToolCalling := Some v; preloaded := preloaded a |}.

(** [process.env.PROVIDER_SUPPORTS_NATIVE_TOOL_CALLING?.includes(label)] *)
Definition env_includes (env : Environment) (label : string) : JValue :=
  match PROVIDER_SUPPORTS_NATIVE_TOOL_CALLING env with
  | Some flag => JBool (includes flag label)
  | None => JUndefined
  end.

(** The probe of the adapters that read only the environment
    (OpenRouter, LocalAI, generic OpenAI, Bedrock). *)
Definition probe_env (label : string) (env : Environment) (a : Adapter) : ProbeRun :=
  match _supportsToolCalling a with
  | Some cached =>
      {| probe_answer := cached; probe_adapter := a; probe_queries := 0 |}
  | None =>
      let supportsToolCalling := env_includes env label in
      {| probe_answer := supportsToolCalling;
         probe_adapter := set_supportsToolCalling a supportsToolCalling;
         probe_queries := 0 |}
  end.

(** The probe of the adapters that ask the provider for the model's
    capabilities (LM Studio, Docker Model Runner, Ollama). *)
Definition probe_capabilities (env : Environment) (a : Adapter) : ProbeRun :=
  match _supportsToolCalling a with
  | Some cached =>
      {| probe_answer := cached; probe_adapter := a; probe_queries := 0 |}
  | None =>
      let answer := JBool (is_true (capabilities_tools env)) in
      {| probe_answer := answer;
         probe_adapter := set_supportsToolCalling a answer;
         probe_queries := 1 |}
  end.

(** Lemonade's probe: the environment first, then the capabilities. *)
Definition probe_lemonade (env : Environment) (a : Adapter) : ProbeRun :=
  match _supportsToolCalling a with
  | Some cached =>
      {| probe_answer := cached; probe_adapter := a; probe_queries := 0 |}
  | None =>
      if truthy (env_includes env "lemonade") then
        {| probe_answer := JBool true;
           probe_adapter := set_supportsToolCalling a (JBool true);
           probe_queries := 0 |}
      else
        let answer := JBool (is_true (capabilities_tools env)) in
        {| probe_answer := answer;
           probe_adapter := set_supportsToolCalling a answer;
           probe_queries := 1 |}
  end.

(** [supportsNativeToolCalling] of each adapter; the Azure adapter has
    no such method. *)
Definition supportsNativeToolCalling (env : Environment) (a : Adapter)
  : option ProbeRun :=
  match provider a with
  | Lemonade => Some (probe_lemonade env a)
  | LMStudio | DockerModelRunner | Ollama => Some (probe_capabilities env a)
  | DeepSeek =>
      Some {| probe_answer := JBool true; probe_adapter := a; probe_queries := 0 |}
  | OpenRouter => Some (probe_env "openrouter" env a)
  | LocalAi => Some (probe_env "localai" env a)
  | GenericOpenAi => Some (probe_env "generic-openai" env a)
  | AWSBedrock => Some (probe_env "bedrock" env a)
  | AzureOpenAi => None
  end.

(** The code a call of [stream] or [complete] runs. *)
Inductive Path :=
| TooledHelpers       (* tooledStream / tooledComplete *)
| OwnNative           (* the adapter's own native tool calling *)
| UnTooledPrototype   (* UnTooled.prototype.stream / complete *)
| OwnEmulation.       (* the adapter's own prompt-based fallback *)

Definition is_native (p : Path) : bool :=
  match p with
  | TooledHelpers | OwnNative => true
  | UnTooledPrototype | OwnEmulation => false
  end.

(** The outcome of the test at the head of [stream] and [complete]. *)
Record Dispatch := {
  dispatch_path : Path;
  dispatch_adapter : Adapter;
  dispatch_queries : nat
}.

(** [functions.length > 0 && (await this.supportsNativeToolCalling())]:
    the probe runs only when there are functions.  The Azure adapter
    makes no such test. *)
Definition useNative (env : Environment) (a : Adapter) (functions : list FunctionDef)
  : bool * Adapter * nat :=
  if Nat.ltb 0 (List.length functions) then
    match supportsNativeToolCalling env a with
    | Some run => (truthy (probe_answer run), probe_adapter run, probe_queries run)
    | None => (false, a, 0)
    end
  else (false, a, 0).

Definition native_path (p : Provider) : Path :=
  match p with
  | Ollama | AWSBedrock => OwnNative
  | _ => TooledHelpers
  end.

Definition fallback_path (p : Provider) : Path :=
  match p with
  | Ollama => OwnEmulation
  | _ => UnTooledPrototype
  end.

Definition dispatch (env : Environment) (a : Adapter) (functions : list FunctionDef)
  : Dispatch :=
  match provider a with
  | AzureOpenAi =>
      {| dispatch_path := TooledHelpers; dispatch_adapter := a; dispatch_queries := 0 |}
  | p =>
      let '(native, a', queries) := useNative env a functions in
      {| dispatch_path := if native then native_path p else fallback_path p;
         dispatch_adapter := a';
         dispatch_queries := queries |}
  end.

(** Lemonade's [preloadModel], run at the head of [stream] and
    [complete]; the other adapters have none. *)
Definition preloadModel (a : Adapter) : Adapter :=
  match provider a with
  | Lemonade =>
      {| provider := provider a; model := model a;
         _supportsToolCalling := _supportsToolCalling a; preloaded := true |}
  | _ => a
  end.

(** The [catch] block around the helpers, the same in every adapter
    that uses them: what is thrown for a caught [error]. *)
Definition rethrown (error : JsError) : JsError :=
  match err_class error with
  | AuthenticationError => error
  | _ =>
      if match err_class error with RateLimitError => true | _ => false end
         || match err_class error with InternalServerError => true | _ => false end
         || instanceof_APIError error
      then {| err_class := RetryError; err_message := err_message error |}
      else error
  end.

(** [getCost], stubbed to zero by every adapter. *)
Definition getCost (_usage : JValue) : Z := 0.

(** DeepSeek's [#tooledOptions]; the other adapters pass none. *)
Definition tooledOptions (a : Adapter) : FormatOptions :=
  match provider a with
  | DeepSeek =>
      {| injectReasoningContent := String.eqb (model a) "deepseek-reasoner" |}
  | _ => default_options
  end.

Section Adapters.

Variable JSON_parse : string -> option JValue.
Variable JSON_stringify : JValue -> string.
Variable v4 : nat -> string.

(** The paths other than the shared helpers, which this section does
    not look into. *)
Variable other_complete :
  Path -> list Message -> list FunctionDef -> Outcome CompleteResult.
Variable other_stream :
  Path -> list Message -> list FunctionDef -> Outcome StreamResult.

(** A run of [complete]: its outcome ([None] when the recursion is cut
    off before it settles), the requests sent upstream in order, the
    adapter and the identifier supply afterwards. *)
Record CompleteRun := {
  run_outcome : option (Outcome CompleteResult);
  run_requests : list Request;
  run_adapter : Adapter;
  run_drawn : nat
}.

(** [complete(messages, functions)].  [create n] is the client's
    answer to the request sent after [n] earlier ones; [depth] bounds
    the number of nested invocations followed.  The caching of context
    windows some adapters await before the request is left out. *)
Fixpoint complete (depth : nat) (env : Environment)
    (create : nat -> Request -> Outcome Response) (sent : nat)
    (a : Adapter) (messages : list Message) (functions : list FunctionDef)
    (drawn : nat) : CompleteRun :=
  match depth with
  | O =>
      {| run_outcome := None; run_requests := [];
         run_adapter := a; run_drawn := drawn |}
  | S depth' =>
      let d := dispatch env (preloadModel a) functions in
      let a' := dispatch_adapter d in
      match dispatch_path d with
      | TooledHelpers =>
          let '(result, fx) :=
            tooledComplete JSON_parse JSON_stringify v4 (create sent)
              (model a') messages (FnArray functions) getCost
              (tooledOptions a') drawn in
          match result with
          | Thrown error =>
              {| run_outcome := Some (Thrown (rethrown error));
                 run_requests := [fx_request fx];
                 run_adapter := a'; run_drawn := fx_drawn fx |}
          | Returned r =>
              match cr_retryWithError r with
              | Some retryWithError =>
                  let again :=
                    complete depth' env create (S sent) a'
                      (messages ++ [retryWithError]) functions (fx_drawn fx) in
                  {| run_outcome := run_outcome again;
                     run_requests := fx_request fx :: run_requests again;
                     run_adapter := run_adapter again;
                     run_drawn := run_drawn again |}
              | None =>
                  {| run_outcome := Some (Returned r);
                     run_requests := [fx_request fx];
                     run_adapter := a'; run_drawn := fx_drawn fx |}
              end
          end
      | other =>
          {| run_outcome := Some (other_complete other messages functions);
             run_requests := [];
             run_adapter := a'; run_drawn := drawn |}
      end
  end.

(** A run of [stream]. *)
Record StreamRun := {
  srun_outcome : Outcome StreamResult;
  srun_requests : list Request;
  srun_events : list StreamEvent;
  srun_adapter : Adapter;
  srun_drawn : nat
}.

(** [stream(messages, functions, eventHandler)]. *)
Definition stream (env : Environment)
    (create : Request -> Outcome (Stream Chunk))
    (a : Adapter) (messages : list Message) (functions : list FunctionDef)
    (drawn : nat) : StreamRun :=
  let d := dispatch env (preloadModel a) functions in
  let a' := dispatch_adapter d in
  match dispatch_path d with
  | TooledHelpers =>
      let '(result, fx) :=
        tooledStream JSON_parse JSON_stringify v4 create
          (model a') messages (FnArray functions) (tooledOptions a') drawn in
      {| srun_outcome :=
           match result with
           | Thrown error => Thrown (rethrown error)
           | Returned r => Returned r
           end;
         srun_requests := [fx_request fx];
         srun_events := fx_events fx;
         srun_adapter := a'; srun_drawn := fx_drawn fx |}
  | other =>
      {| srun_outcome := other_stream other messages functions;
         srun_requests := []; srun_events := [];
         srun_adapter := a'; srun_drawn := drawn |}
  end.

End Adapters.

(** ** The prompt-emulated path of the Ollama adapter *)

(** Modelled from the spec: what the session's deduplication tracker
    keeps of an executed call, besides its pair: the wall-clock time at
    which it was recorded, in milliseconds, and the [cooldown] option
    it was tracked with. *)
Record TrackedRun := {
  run_time : Z;
  run_cooldown : bool
}.

(** Modelled from the spec: the session's deduplication tracker (the
    [Deduplicator] class behind [this.deduplicator], whose file is not
    among the sources).  It records the (name, normalized-arguments)
    pairs of the calls already executed; a call matching a recorded
    pair within the cooldown window of that run is a duplicate;
    resetting the runs empties the record. *)
Record Deduplicator := {
  runs : gmap (string * string) TrackedRun
}.

(** The result of [isDuplicate]. *)
Record DuplicateCheck := {
  isDuplicate_flag : bool;
  duplicate_reason : string
}.

(** A chunk of the Ollama SDK's chat stream; [oc_message = None] when the
    chunk has no [message] property. *)
Record OllamaMessage := {
  om_content : string;
  om_thinking : option string
}.

Record OllamaChunk := {
  oc_message : option OllamaMessage
}.

(** What [streamingFunctionCall] resolves to when it is not [null]. *)
Record FunctionCallAttempt := {
  fa_toolCall : option JValue;
  fa_text : option string;
  fa_uuid : string
}.

(** What the emulated [stream] of the Ollama adapter resolves to:
    [{result: null, functionCall, cost}] for a call, and
    [{textResponse, cost}] otherwise. *)
Record EmulatedResult := {
  er_textResponse : option string;
  er_functionCall : option (JValue * JValue);
  er_cost : Z
}.

(** The state a session carries from one turn to the next. *)
Record Session := {
  deduplicator : Deduplicator;
  chats : nat;
  drawn_ids : nat
}.

(** [obj[key]] *)
Fixpoint lookup_field (key : string) (fields : list (string * JValue)) : JValue :=
  match fields with
  | [] => JUndefined
  | (k, v) :: rest => if String.eqb k key then v else lookup_field key rest
  end.

Definition prop (v : JValue) (key : string) : JValue :=
  match v with
  | JObj fields => lookup_field key fields
  | _ => JUndefined
  end.

Section OllamaEmulation.

Variable JSON_parse : string -> option JValue.
Variable JSON_stringify : JValue -> string.
Variable v4 : nat -> string.

(** The methods of the [UnTooled] mixin the path calls, whose file is
    not among the sources. *)
Variable buildToolCallMessages : list Message -> list FunctionDef -> list Message.
Variable cleanMsgs : list Message -> list Message.
Variable validFuncCall : JValue -> list FunctionDef -> bool * string.
Variable isMCPTool : JValue -> list FunctionDef -> bool.

(** The [n]-th chat of the session with the Ollama server: it throws,
    or streams chunks. *)
Variable chat : nat -> list Message -> Outcome (list OllamaChunk).

(** The wall clock, in milliseconds, as the tracker reads it in the
    turn of the session's [n]-th chat, once the reply has been read;
    the check and the recording of one turn read the same time. *)
Variable now : nat -> Z.

(** The length of the cooldown window, in milliseconds, of a run
    tracked with the given [cooldown] option: constants of the
    tracker's class, which is not among the sources. *)
Variable cooldownInMs : bool -> Z.

(** What the tracker answers for a call whose pair is recorded once the
    cooldown window of that run has passed, on which the specification
    is silent. *)
Variable lapsed : DuplicateCheck.

(** Modelled from the spec: the normalized form under which a name or
    the arguments enter a recorded pair; a string as it is, anything
    else through [JSON.stringify]. *)
Definition normalized (v : JValue) : string :=
  match v with
  | JStr s => s
  | _ => JSON_stringify v
  end.

(** Modelled from the spec: the (name, normalized-arguments) pair of a
    call. *)
Definition run_key (name args : JValue) : string * string :=
  (normalized name, normalized args).

(** Modelled from the spec: [isDuplicate] of the tracker, consulted at
    the wall-clock time [time]; a call whose pair was recorded, and
    that comes within the cooldown window of that run, is rejected as a
    duplicate, with a reason; a call whose pair is not recorded is no
    duplicate. *)
Definition isDuplicate (d : Deduplicator) (name args : JValue) (time : Z)
  : DuplicateCheck :=
  match runs d !! run_key name args with
  | Some run =>
      if (time <=? run_time run + cooldownInMs (run_cooldown run))%Z
      then {| isDuplicate_flag := true;
              duplicate_reason :=
                "an exact duplicate of a previous run of " +:+ normalized name |}
      else lapsed
  | None => {| isDuplicate_flag := false; duplicate_reason := EmptyString |}
  end.

(** Modelled from the spec: [trackRun] of the tracker, called at the
    wall-clock time [time], records the pair of an executed call with
    that time and with the [cooldown] option of the call. *)
Definition trackRun (d : Deduplicator) (name args : JValue) (cooldown : bool)
    (time : Z) : Deduplicator :=
  {| runs :=
       <[ run_key name args := {| run_time := time; run_cooldown := cooldown |} ]>
         (runs d) |}.

(** Modelled from the spec: [reset] of the tracker; resetting the runs
    empties the record of pairs. *)
Definition reset (d : Deduplicator) (type : string) : Deduplicator :=
  if String.eqb type "runs" then {| runs := ∅ |} else d.

(** The state of the loop of [streamingFunctionCall] over the chunks. *)
Record ThinkState := {
  ts_token : string;
  ts_textResponse : string;
  ts_reasoningText : string;
  ts_events : list StreamEvent
}.

Definition status_event (uuid text : string) : StreamEvent :=
  {| ev_type := "statusResponse"; ev_uuid := uuid; ev_content := text |}.

Definition is_empty (s : string) : bool := Nat.eqb (String.length s) 0.

Definition callChunk (msgUUID : string) (st : ThinkState) (chunk : OllamaChunk)
  : ThinkState :=
  match oc_message chunk with
  | None => st
  | Some message =>
      let content := om_content message in
      let reasoningToken := om_thinking message in
      let st1 :=
        if truthy_str reasoningToken then
          if is_empty (ts_reasoningText st) then
            let reasoningText := "Thinking:" +:+ String "010"%char (String "010"%char (or_empty reasoningToken)) in
            {| ts_token := reasoningText;
               ts_textResponse := ts_textResponse st;
               ts_reasoningText := reasoningText;
               ts_events := ts_events st |}
          else
            {| ts_token := or_empty reasoningToken;
               ts_textResponse := ts_textResponse st;
               ts_reasoningText := ts_reasoningText st +:+ or_empty reasoningToken;
               ts_events := ts_events st |}
        else if negb (is_empty content) then
          if negb (is_empty (ts_reasoningText st)) then
            {| ts_token :=
                 String "010"%char (String "010"%char "Done thinking.")
                 +:+ String "010"%char (String "010"%char content);
               ts_textResponse := ts_textResponse st +:+ content;
               ts_reasoningText := EmptyString;
               ts_events := ts_events st |}
          else
            {| ts_token := content;
               ts_textResponse := ts_textResponse st +:+ content;
               ts_reasoningText := ts_reasoningText st;
               ts_events := ts_events st |}
        else st in
      {| ts_token := ts_token st1;
         ts_textResponse := ts_textResponse st1;
         ts_reasoningText := ts_reasoningText st1;
         ts_events := ts_events st1 ++ [status_event msgUUID (ts_token st1)] |}
  end.

Definition is_user_or_assistant (msg : Message) : bool :=
  String.eqb (role msg) "user" || String.eqb (role msg) "assistant".

Definition type_error (text : string) : JsError :=
  {| err_class := OtherError; err_message := text |}.

Definition ignored_event (msgUUID text : string) : StreamEvent :=
  {| ev_type := "removeStatusResponse"; ev_uuid := msgUUID; ev_content := text |}.

(** [streamingFunctionCall]: the outcome ([Returned None] is the
    [null] of the early return), the events, and the session. *)
Definition streamingFunctionCall (s : Session) (messages : list Message)
    (functions : list FunctionDef)
  : Outcome (option FunctionCallAttempt) * list StreamEvent * Session :=
  let history := filter (fun msg => is_user_or_assistant msg = true) messages in
  match last history with
  | None =>
      (Thrown (type_error "Cannot read properties of undefined (reading 'role')"), [], s)
  | Some final =>
      if negb (String.eqb (role final) "user") then (Returned None, [], s)
      else
        let msgUUID := v4 (drawn_ids s) in
        let historyMessages := buildToolCallMessages history functions in
        let s1 := {| deduplicator := deduplicator s;
                     chats := S (chats s);
                     drawn_ids := S (drawn_ids s) |} in
        match chat (chats s) historyMessages with
        | Thrown e => (Thrown e, [], s1)
        | Returned stream =>
            let thinking := status_event (v4 (drawn_ids s1)) "Agent is thinking..." in
            let s2 := {| deduplicator := deduplicator s1;
                         chats := chats s1;
                         drawn_ids := S (drawn_ids s1) |} in
            let st :=
              fold_left (callChunk msgUUID) stream
                {| ts_token := EmptyString; ts_textResponse := EmptyString;
                   ts_reasoningText := EmptyString; ts_events := [thinking] |} in
            let textResponse := ts_textResponse st in
            let call := safeJsonParse JSON_parse textResponse JNull in
            if is_null call then
              (Returned (Some {| fa_toolCall := None; fa_text := Some textResponse;
                                 fa_uuid := msgUUID |}),
               ts_events st, s2)
            else
              let '(valid, reason) := validFuncCall call functions in
              if negb valid then
                (Returned (Some {| fa_toolCall := None; fa_text := None;
                                   fa_uuid := msgUUID |}),
                 ts_events st
                 ++ [ignored_event msgUUID
                       "The model attempted to make an invalid function call - it was ignored."],
                 s2)
              else
                let check :=
                  isDuplicate (deduplicator s2) (prop call "name")
                    (prop call "arguments") (now (chats s)) in
                if isDuplicate_flag check then
                  (Returned (Some {| fa_toolCall := None; fa_text := None;
                                     fa_uuid := msgUUID |}),
                   ts_events st
                   ++ [ignored_event msgUUID
                         "The model tried to call a function with the same arguments as a previous call - it was ignored."],
                   s2)
                else
                  (Returned (Some {| fa_toolCall := Some call; fa_text := None;
                                     fa_uuid := msgUUID |}),
                   ts_events st
                   ++ [ {| ev_uuid := msgUUID +:+ ":tool_call_invocation";
                           ev_type := "toolCallInvocation";
                           ev_content :=
                             "Parsed Tool Call: " +:+ normalized (prop call "name")
                             +:+ "(" +:+ JSON_stringify (prop call "arguments") +:+ ")" |} ],
                   s2)
        end
  end.

(** The state of the loop of the plain completion over the chunks. *)
Record PlainState := {
  ps_content : string;
  ps_reasoningText : string;
  ps_token : string;
  ps_events : list StreamEvent
}.

Definition plainChunk (msgUUID : string) (st : PlainState) (chunk : OllamaChunk)
  : PlainState :=
  match oc_message chunk with
  | None => st
  | Some message =>
      let content := om_content message in
      let reasoningToken := om_thinking message in
      let '(reasoningText, token) :=
        if truthy_str reasoningToken then
          if is_empty (ps_reasoningText st) then
            ("<think>" +:+ or_empty reasoningToken, "<think>" +:+ or_empty reasoningToken)
          else
            (ps_reasoningText st +:+ or_empty reasoningToken, or_empty reasoningToken)
        else if negb (is_empty content) then
          if negb (is_empty (ps_reasoningText st)) then
            (EmptyString, "</think>" +:+ content)
          else (ps_reasoningText st, content)
        else (ps_reasoningText st, ps_token st) in
      {| ps_content := ps_content st +:+ token;
         ps_reasoningText := reasoningText;
         ps_token := token;
         ps_events :=
           ps_events st
           ++ [ {| ev_type := "textResponseChunk"; ev_uuid := msgUUID;
                   ev_content := token |} ] |}
  end.

Definition with_deduplicator (s : Session) (d : Deduplicator) : Session :=
  {| deduplicator := d; chats := chats s; drawn_ids := drawn_ids s |}.

Definition draw (s : Session) : Session :=
  {| deduplicator := deduplicator s; chats := chats s; drawn_ids := S (drawn_ids s) |}.

(** The end of the fallback: the plain completion when no content was
    kept, then the reset of the runs and the text result. *)
Definition finish_turn (s : Session) (messages : list Message)
    (content : string) (events : list StreamEvent)
  : Outcome EmulatedResult * list StreamEvent * Session :=
  if is_empty content then
    let done := status_event (v4 (drawn_ids s)) "Done thinking." in
    let msgUUID := v4 (S (drawn_ids s)) in
    let s1 := {| deduplicator := deduplicator s; chats := S (chats s);
                 drawn_ids := S (S (drawn_ids s)) |} in
    match chat (chats s) (cleanMsgs messages) with
    | Thrown e => (Thrown e, events ++ [done], s1)
    | Returned stream =>
        let st :=
          fold_left (plainChunk msgUUID) stream
            {| ps_content := EmptyString; ps_reasoningText := EmptyString;
               ps_token := EmptyString; ps_events := events ++ [done] |} in
        (Returned {| er_textResponse := Some (ps_content st);
                     er_functionCall := None; er_cost := 0 |},
         ps_events st,
         with_deduplicator s1 (reset (deduplicator s1) "runs"))
    end
  else
    (Returned {| er_textResponse := Some content;
                 er_functionCall := None; er_cost := 0 |},
     events,
     with_deduplicator s (reset (deduplicator s) "runs")).

(** The fallback branch of [OllamaProvider.stream], taken when the
    native path is not. *)
Definition stream_emulated (s : Session) (messages : list Message)
    (functions : list FunctionDef)
  : Outcome EmulatedResult * list StreamEvent * Session :=
  if Nat.ltb 0 (List.length functions) then
    match streamingFunctionCall s messages functions with
    | (Thrown e, events, s1) => (Thrown e, events, s1)
    | (Returned None, events, s1) =>
        (Thrown (type_error "Cannot destructure property 'toolCall' of null"), events, s1)
    | (Returned (Some attempt), events, s1) =>
        match fa_toolCall attempt with
        | Some toolCall =>
            let d :=
              trackRun (deduplicator s1) (prop toolCall "name")
                (prop toolCall "arguments") (isMCPTool toolCall functions)
                (now (chats s)) in
            (Returned {| er_textResponse := None;
                         er_functionCall :=
                           Some (prop toolCall "name", prop toolCall "arguments");
                         er_cost := 0 |},
             events, with_deduplicator s1 d)
        | None =>
            if truthy_str (fa_text attempt) then
              let text := or_empty (fa_text attempt) in
              let events' :=
                events
                ++ [ignored_event (fa_uuid attempt) "No tool call found in the response";
                    status_event (v4 (drawn_ids s1)) "Done thinking.";
                    {| ev_type := "fullTextResponse";
                       ev_uuid := v4 (S (drawn_ids s1));
                       ev_content := text |}] in
              finish_turn (draw (draw s1)) messages text events'
            else finish_turn s1 messages EmptyString events
        end
    end
  else finish_turn s messages EmptyString [].

End OllamaEmulation.

(** ** Concrete instances *)

(** An identifier supply for running the model: the [n]-th identifier
    is [uuid-n]. *)
Definition uuid (n : nat) : string := "uuid-" +:+ pretty n.

(** [!Array.isArray(functions) || functions.length === 0] *)
Definition no_tool_definitions (functions : FunctionsArg) : bool :=
  match functions with
  | NotAnArray _ => true
  | FnArray fns => Nat.eqb (List.length fns) 0
  end.

(** A streamed chunk whose first choice carries the given tool-call
    fragments and no text. *)
Definition tool_chunk (fragments : list ToolCallDelta) : Chunk :=
  {| chunk_choices :=
       [Some {| delta_content := None; delta_tool_calls := Some fragments |}] |}.

(** A [user] message with a text content. *)
Definition user_message (text : string) : Message :=
  {| role := "user"; content := JStr text; name := None;
     originalFunctionCall := None; reasoning_content := None;
     tool_calls := None; tool_call_id := None |}.

(** The tool-call fragments a stream carries, in arrival order. *)
Definition carried (chunks : list Chunk) : list ToolCallDelta :=
  flat_map
    (fun chunk =>
       match chunk_choices chunk with
       | choice :: _ => default [] (choice ≫= delta_tool_calls)
       | [] => []
       end)
    chunks.

(** A tool call [(id, name, arguments)] delivered in pieces at one
    index: the first fragment carries the id and the first piece of the
    name and of the arguments, each later fragment a further piece of
    either, and no id. *)
Definition fragments_of (idx : option nat) (id : string)
    (pieces : list (option string * option string)) : list ToolCallDelta :=
  match pieces with
  | [] => []
  | (name0, args0) :: rest =>
      {| d_index := idx; d_id := Some id; d_name := name0; d_arguments := args0 |}
      :: map (fun piece =>
                {| d_index := idx; d_id := None;
                   d_name := fst piece; d_arguments := snd piece |})
             rest
  end.

(** The pieces of a string put back together. *)
Definition joined (parts : list (option string)) : string :=
  foldr (fun part rest => or_empty part +:+ rest) EmptyString parts.

(** The fragments of the running example of the specification. *)
Definition search_cats_chunks : list Chunk :=
  [ tool_chunk [ {| d_index := Some 0; d_id := Some "c1";
                    d_name := Some "search"; d_arguments := None |} ];
    tool_chunk [ {| d_index := Some 0; d_id := None; d_name := None;
                    d_arguments := Some ("{" +:+ quoted "q" +:+ ":") |} ];
    tool_chunk [ {| d_index := Some 0; d_id := None; d_name := None;
                    d_arguments := Some (quoted "cats" +:+ "}") |} ] ].

(** A stream whose only tool call has arguments that are not JSON. *)
Definition malformed_call_chunks : list Chunk :=
  [ tool_chunk [ {| d_index := Some 0; d_id := Some "c1";
                    d_name := Some "search";
                    d_arguments := Some "q=cats" |} ] ].

(** The tool call of an outcome of [tooledStream], if it has one. *)
Definition function_call_of (o : Outcome StreamResult) : option FunctionCall :=
  match o with
  | Returned r => sr_functionCall r
  | Thrown _ => None
  end.

(** A whole tool call delivered in a single chunk. *)
Definition whole_call_chunks (idx : option nat) (id name args : string) : list Chunk :=
  [ tool_chunk [ {| d_index := idx; d_id := Some id;
                    d_name := Some name; d_arguments := Some args |} ] ].

(** A one-function tool list. *)
Definition search_function : FunctionDef :=
  {| fn_name := "search"; fn_description := "Search the web"; fn_parameters := JObj [] |}.

(** A response whose first tool call has arguments that [parse]
    rejects. *)
Definition malformed_first_call (parse : string -> option JValue)
    (response : Response) : Prop :=
  exists completion others toolCall rest,
    resp_choices response = completion :: others
    /\ cm_tool_calls completion = Some (toolCall :: rest)
    /\ parse (tc_arguments toolCall) = None.

(** A response with some text and the given tool calls. *)
Definition response_with_calls (text : string) (calls : list ToolCallObj) : Response :=
  {| resp_choices := [ {| cm_content := Some text; cm_tool_calls := Some calls |} ];
     resp_usage := JNull |}.

Definition call_obj (id fname args : string) : ToolCallObj :=
  {| tc_id := id; tc_type := "function"; tc_name := Some fname; tc_arguments := args |}.

(** The paths outside the shared helpers, for running the model where
    they are not reached. *)
Definition no_other_complete (_ : Path) (_ : list Message) (_ : list FunctionDef)
  : Outcome CompleteResult :=
  Returned {| cr_textResponse := Some "untooled"; cr_functionCall := None;
              cr_retryWithError := None; cr_cost := 0 |}.

Definition no_other_stream (_ : Path) (_ : list Message) (_ : list FunctionDef)
  : Outcome StreamResult :=
  Returned {| sr_textResponse := "untooled"; sr_functionCall := None |}.

(** An environment with the flag unset and a provider that reports no
    tool support. *)
Definition bare_environment : Environment :=
  {| PROVIDER_SUPPORTS_NATIVE_TOOL_CALLING := None; capabilities_tools := JBool false |}.

(** The answers a probe computes: a boolean, or [undefined]. *)
Definition probe_value (v : JValue) : Prop :=
  v = JBool true \/ v = JBool false \/ v = JUndefined.

(** The cache of an adapter holds nothing, or an answer of its probe. *)
Definition cache_from_probe (a : Adapter) : Prop :=
  match _supportsToolCalling a with
  | None => True
  | Some cached => probe_value cached
  end.

(** An assistant message that carries a tool call with the given id. *)
Definition carries_call (id : string) (m : Message) : bool :=
  String.eqb (role m) "assistant"
  && match tool_calls m with
     | Some calls => existsb (fun call => String.eqb (mtc_id call) id) calls
     | None => false
     end.

(** A message as [{ ...message, reasoning_content: EmptyString }]. *)
Definition with_empty_reasoning (m : Message) : Message :=
  {| role := role m; content := content m; name := name m;
     originalFunctionCall := originalFunctionCall m;
     reasoning_content := Some EmptyString;
     tool_calls := tool_calls m; tool_call_id := tool_call_id m |}.

(** A [function]-role message for the result of the call [id]. *)
Definition function_message (id fname result : string) : Message :=
  {| role := "function"; content := JStr result; name := Some fname;
     originalFunctionCall :=
       Some {| ofc_id := Some id; ofc_name := Some fname; ofc_arguments := JObj [] |};
     reasoning_content := None; tool_calls := None; tool_call_id := None |}.

(** An assistant message that already carries a tool call. *)
Definition assistant_with_call (id fname : string) : Message :=
  {| role := "assistant"; content := JNull; name := None;
     originalFunctionCall := None; reasoning_content := None;
     tool_calls :=
       Some [ {| mtc_id := id; mtc_type := "function"; mtc_name := Some fname;
                 mtc_arguments := JStr "{}" |} ];
     tool_call_id := None |}.

(** A plain assistant message. *)
Definition assistant_message (text : string) : Message :=
  {| role := "assistant"; content := JStr text; name := None;
     originalFunctionCall := None; reasoning_content := None;
     tool_calls := None; tool_call_id := None |}.

(** The text a chat stream of the Ollama server adds up to. *)
Definition reply_text (stream : list OllamaChunk) : string :=
  ts_textResponse
    (fold_left (callChunk EmptyString) stream
       {| ts_token := EmptyString; ts_textResponse := EmptyString;
          ts_reasoningText := EmptyString; ts_events := [] |}).

(** A chat stream that delivers a text in one chunk. *)
Definition text_stream (text : string) : list OllamaChunk :=
  [ {| oc_message := Some {| om_content := text; om_thinking := None |} |} ].

(** The text of a prompt-emulated call of [search] for cats. *)
Definition search_call_text : string :=
  "{" +:+ quoted "name" +:+ ":" +:+ quoted "search" +:+ ","
  +:+ quoted "arguments" +:+ ":{" +:+ quoted "q" +:+ ":" +:+ quoted "cats" +:+ "}}".


(** A session at its start. *)
Definition new_session : Session :=
  {| deduplicator := {| runs := ∅ |}; chats := 0; drawn_ids := 0 |}.

(** A clock that advances by a second with every chat, and a cooldown
    window of half a minute for every run. *)
Definition steady_clock (n : nat) : Z := (1000 * Z.of_nat n)%Z.

Definition half_minute (_ : bool) : Z := 30000%Z.

(** The answer of a tracker that lets a call pass. *)
Definition no_duplicate : DuplicateCheck :=
  {| isDuplicate_flag := false; duplicate_reason := EmptyString |}.


(** A model that answers every prompt with the same emulated call. *)
Definition repeating_chat (_ : nat) (_ : list Message) : Outcome (list OllamaChunk) :=
  Returned (text_stream search_call_text).

(** Stand-ins for the methods of the mixin: the history as it is, and
    every call valid. *)
Definition plain_prompt (history : list Message) (_ : list FunctionDef) : list Message :=
  history.

Definition every_call_valid (_ : JValue) (_ : list FunctionDef) : bool * string :=
  (true, EmptyString).

Definition no_mcp_tool (_ : JValue) (_ : list FunctionDef) : bool := false.

(** A provider that answers every request with the same tool call,
    whose arguments are not JSON. *)
Definition always_malformed (_ : nat) (_ : Request) : Outcome Response :=
  Returned (response_with_calls "text" [call_obj "c1" "search" "q=cats"]).

(** An environment whose flag enables native tool calling for
    Lemonade. *)
Definition lemonade_enabled : Environment :=
  {| PROVIDER_SUPPORTS_NATIVE_TOOL_CALLING := Some "lemonade,localai";
     capabilities_tools := JStr "unknown" |}.

(** ** Further notions for the helpers and the adapters *)

(** A [function]-role message for which [formatMessagesForTools] draws a
    fresh identifier: its [originalFunctionCall] has no usable id. *)
Definition needs_fresh_id (m : Message) : bool :=
  String.eqb (role m) "function"
  && match originalFunctionCall m with
     | Some ofc => negb (truthy_str (ofc_id ofc))
     | None => true
     end.

(** A [function]-role message of the emulated path, which has no call
    id. *)
Definition emulated_function_message (fname result : string) : Message :=
  {| role := "function"; content := JStr result; name := Some fname;
     originalFunctionCall :=
       Some {| ofc_id := None; ofc_name := Some fname; ofc_arguments := JObj [] |};
     reasoning_content := None; tool_calls := None; tool_call_id := None |}.

(** [chunk.choices[0].delta?.content] *)
Definition first_content (chunk : Chunk) : option string :=
  match chunk_choices chunk with
  | choice :: _ => choice ≫= delta_content
  | [] => None
  end.

(** The events that report a piece of text. *)
Definition is_text_event (e : StreamEvent) : bool :=
  String.eqb (ev_type e) "textResponseChunk".

(** The fragments of one streaming index. *)
Definition at_index (i : nat) (f : ToolCallDelta) : bool :=
  Nat.eqb (default 0 (d_index f)) i.

(** A chunk whose first choice carries a piece of text and no tool
    call. *)
Definition text_chunk (text : string) : Chunk :=
  {| chunk_choices :=
       [Some {| delta_content := Some text; delta_tool_calls := None |}] |}.

(** The capability queries a sequence of calls of [stream] or
    [complete] sends, each call with its environment and its functions,
    and the adapter after them. *)
Fixpoint dispatch_all (calls : list (Environment * list FunctionDef)) (a : Adapter)
  : nat * Adapter :=
  match calls with
  | [] => (0, a)
  | (env, functions) :: rest =>
      let d := dispatch env (preloadModel a) functions in
      let '(queries, a') := dispatch_all rest (dispatch_adapter d) in
      (dispatch_queries d + queries, a')
  end.

(** An environment whose provider reports tool support. *)
Definition capable_environment : Environment :=
  {| PROVIDER_SUPPORTS_NATIVE_TOOL_CALLING := None; capabilities_tools := JBool true |}.

(** A provider that answers the first two requests with a malformed
    tool call and the third with text. *)
Definition malformed_twice (n : nat) (_ : Request) : Outcome Response :=
  if Nat.ltb n 2
  then Returned (response_with_calls "text" [call_obj "c1" "search" "q=cats"])
  else Returned {| resp_choices := [ {| cm_content := Some "3 cats"; cm_tool_calls := None |} ];
                   resp_usage := JNull |}.

(** ** The Ollama adapter's own native tool calling *)

(** [{function: {name, arguments}}], an entry of [tool_calls] in the
    Ollama SDK's messages; [arguments] is an object, or a string. *)
Record OllamaToolCall := {
  otc_name : string;
  otc_arguments : JValue
}.

(** The messages [#formatMessagesForOllamaTools] pushes: a message of
    the history as it is, [{role: assistant, content: EmptyString,
    tool_calls: [call]}], or [{role: tool, content}]. *)
Inductive OllamaChatMessage :=
| OllamaPlain (message : Message)
| OllamaCall (call : OllamaToolCall)
| OllamaResult (content : JValue).

(** A chunk of the native chat stream, and the message of a native
    chat response. *)
Record NativeMessage := {
  nm_content : option string;
  nm_tool_calls : option (list OllamaToolCall)
}.

Record NativeChunk := {
  nc_message : option NativeMessage
}.

(** [a || b] on possibly absent strings. *)
Definition first_truthy (a b : option string) : option string :=
  if truthy_str a then a else b.

Section OllamaNative.

Variable JSON_parse : string -> option JValue.
Variable JSON_stringify : JValue -> string.
Variable v4 : nat -> string.

(** [typeof args === "string" ? safeJsonParse(args, {}) : args] *)
Definition parsed_if_string (args : JValue) : JValue :=
  match args with
  | JStr text => safeJsonParse JSON_parse text (JObj [])
  | _ => args
  end.

(** [v || {}] *)
Definition or_empty_object (v : JValue) : JValue :=
  if truthy v then v else JObj [].

(** The body of the loop of [#formatMessagesForOllamaTools]. *)
Definition formatOllamaMessage (formatted : list OllamaChatMessage)
    (message : Message) : list OllamaChatMessage :=
  if String.eqb (role message) "function" then
    let funcName :=
      or_empty
        (first_truthy (originalFunctionCall message ≫= ofc_name)
           (first_truthy (name message) (Some "unknown"))) in
    let funcArgs :=
      or_empty_object
        (default JUndefined (ofc_arguments <$> originalFunctionCall message)) in
    formatted
      ++ [OllamaCall {| otc_name := funcName;
                        otc_arguments := parsed_if_string funcArgs |};
          OllamaResult (string_or_stringify JSON_stringify (content message))]
  else formatted ++ [OllamaPlain message].

Definition formatMessagesForOllamaTools (messages : list Message)
  : list OllamaChatMessage :=
  fold_left formatOllamaMessage messages [].

(** The state of the loop of the native [stream] over the chunks. *)
Record NativeState := {
  ns_textResponse : string;
  ns_toolCalls : option (list OllamaToolCall);
  ns_events : list StreamEvent
}.

Definition nativeChunk (msgUUID : string) (st : NativeState) (chunk : NativeChunk)
  : NativeState :=
  match nc_message chunk with
  | None => st
  | Some message =>
      let st1 :=
        if truthy_str (nm_content message) then
          {| ns_textResponse := ns_textResponse st +:+ or_empty (nm_content message);
             ns_toolCalls := ns_toolCalls st;
             ns_events :=
               ns_events st
               ++ [ {| ev_type := "textResponseChunk"; ev_uuid := msgUUID;
                       ev_content := or_empty (nm_content message) |} ] |}
        else st in
      match nm_tool_calls message with
      | Some (first :: others) =>
          {| ns_textResponse := ns_textResponse st1;
             ns_toolCalls := Some (first :: others);
             ns_events :=
               ns_events st1
               ++ [ {| ev_uuid := msgUUID +:+ ":tool_call_invocation";
                       ev_type := "toolCallInvocation";
                       ev_content :=
                         "Tool Call: " +:+ otc_name first +:+ "("
                         +:+ JSON_stringify (otc_arguments first) +:+ ")" |} ] |}
      | _ => st1
      end
  end.

(** The arguments of a native call as the adapter hands them on. *)
Definition native_arguments (toolCall : OllamaToolCall) : JValue :=
  match otc_arguments toolCall with
  | JStr text => safeJsonParse JSON_parse text (JObj [])
  | other => or_empty_object other
  end.

(** The native branch of [OllamaProvider.stream], from the chat call
    on: [chat] receives the formatted history and the tools.  The
    branch is not inside a [try]: what the chat call throws, or the
    stream while it is read, is thrown by [stream]. *)
Definition ollama_stream_native
    (chat : list OllamaChatMessage -> list Tool -> Outcome (Stream NativeChunk))
    (messages : list Message) (functions : list FunctionDef) (drawn : nat)
  : Outcome StreamResult * list StreamEvent :=
  let msgUUID := v4 drawn in
  match chat (formatMessagesForOllamaTools messages)
             (formatFunctionsToTools (FnArray functions)) with
  | Thrown e => (Thrown e, [])
  | Returned stream =>
      let st :=
        fold_left (nativeChunk msgUUID) (stream_chunks stream)
          {| ns_textResponse := EmptyString; ns_toolCalls := None; ns_events := [] |} in
      match stream_failure stream with
      | Some e => (Thrown e, ns_events st)
      | None =>
          match ns_toolCalls st with
          | Some (toolCall :: _) =>
              (Returned {| sr_textResponse := ns_textResponse st;
                           sr_functionCall :=
                             Some {| fc_id := "ollama_" +:+ v4 (S drawn);
                                     fc_name := Some (otc_name toolCall);
                                     fc_arguments := native_arguments toolCall |} |},
               ns_events st)
          | _ =>
              (Returned {| sr_textResponse := ns_textResponse st;
                           sr_functionCall := None |},
               ns_events st)
          end
      end
  end.

(** The native branch of [OllamaProvider.complete], from the chat call
    on, which is not inside a [try] either; [chat] resolves to the
    [message] of the response, if it has one. *)
Definition ollama_complete_native
    (chat : list OllamaChatMessage -> list Tool -> Outcome (option NativeMessage))
    (messages : list Message) (functions : list FunctionDef) (drawn : nat)
  : Outcome CompleteResult :=
  match chat (formatMessagesForOllamaTools messages)
             (formatFunctionsToTools (FnArray functions)) with
  | Thrown e => Thrown e
  | Returned message =>
      match message ≫= nm_tool_calls with
      | Some (toolCall :: _) =>
          Returned {| cr_textResponse := None;
                      cr_functionCall :=
                        Some {| fc_id := "ollama_" +:+ v4 drawn;
                                fc_name := Some (otc_name toolCall);
                                fc_arguments := native_arguments toolCall |};
                      cr_retryWithError := None;
                      cr_cost := 0 |}
      | _ =>
          Returned {| cr_textResponse :=
                        if truthy_str (message ≫= nm_content)
                        then message ≫= nm_content else None;
                      cr_functionCall := None;
                      cr_retryWithError := None;
                      cr_cost := 0 |}
      end
  end.

End OllamaNative.

(** A native chunk with a piece of text, and one with tool calls. *)
Definition native_text (text : string) : NativeChunk :=
  {| nc_message := Some {| nm_content := Some text; nm_tool_calls := None |} |}.

Definition native_calls (calls : list OllamaToolCall) : NativeChunk :=
  {| nc_message := Some {| nm_content := None; nm_tool_calls := Some calls |} |}.

(** A chunk of the emulated chat stream with a content and no
    thinking. *)
Definition content_chunk (text : string) : OllamaChunk :=
  {| oc_message := Some {| om_content := text; om_thinking := None |} |}.

(** ** The Bedrock adapter: conversions to Langchain messages, native tool calling *)

(** An entry of [tool_calls] of an [AIMessage]. *)
Record LcToolCall := {
  lc_name : option string;
  lc_args : JValue;
  lc_id : string
}.

(** The Langchain message classes the adapter instantiates.  An
    [AIMessage] built without [tool_calls] has none. *)
Inductive LangchainMessage :=
| SystemMessage (content : JValue)
| HumanMessage (content : JValue)
| AIMessage (content : JValue) (tool_calls : list LcToolCall)
| ToolMessage (content : JValue) (tool_call_id : string).



(** [!prevMsg || !(prevMsg instanceof AIMessage) || !prevMsg.tool_calls?.length] *)
Definition needs_ai_call (prevMsg : option LangchainMessage) : bool :=
  match prevMsg with
  | Some (AIMessage _ (_ :: _)) => false
  | _ => true
  end.

(** An entry of [tool_call_chunks] of a streamed Langchain chunk; the
    adapter reads its [name]. *)
Record LcToolCallChunk := {
  tcc_name : option string
}.

(** An entry of [tool_calls] of a Langchain response; its [id] may be
    missing. *)
Record LcResponseCall := {
  rc_id : option string;
  rc_name : option string;
  rc_args : JValue
}.

(** A chunk of the Langchain stream, and the message an invocation
    resolves to: the fields the adapter reads. *)
Record LcChunk := {
  lk_content : JValue;
  lk_tool_call_chunks : option (list LcToolCallChunk);
  lk_tool_calls : option (list LcResponseCall)
}.

(** The state of the loop of the native [stream] of the Bedrock
    adapter over the chunks. *)
Record BedrockState := {
  bs_textResponse : string;
  bs_finalMessage : option LcChunk;
  bs_events : list StreamEvent
}.

Section Bedrock.

Variable JSON_parse : string -> option JValue.
Variable JSON_stringify : JValue -> string.
Variable v4 : nat -> string.

(** [concat] of Langchain's message chunks, which merges a chunk into
    the message accumulated so far. *)
Variable concat : LcChunk -> LcChunk -> LcChunk.

(** [AWSBedrockLLM.errorToHumanReadable(e, {method, model})], whose
    file is not among the sources: it throws, or it returns. *)
Variable errorToHumanReadable : JsError -> string -> string -> Outcome JValue.

(** The body of the loop of [#convertToLangchainPrototypesWithTools]. *)
Definition convertChatWithTools (st : list LangchainMessage * nat) (chat : Message)
  : list LangchainMessage * nat :=
  let '(langchainChats, drawn) := st in
  if String.eqb (role chat) "function" then
    match truthy_call_id chat with
    | Some (id, ofc) =>
        let prevMsg := last langchainChats in
        let call :=
          if needs_ai_call prevMsg
          then [AIMessage (JStr EmptyString)
                  [ {| lc_name := ofc_name ofc;
                       lc_args :=
                         match ofc_arguments ofc with
                         | JStr text => safeJsonParse JSON_parse text (JObj [])
                         | args => args
                         end;
                       lc_id := id |} ]]
          else [] in
        (langchainChats ++ call
           ++ [ToolMessage (string_or_stringify JSON_stringify (content chat)) id],
         drawn)
    | None =>
        let toolCallId := "call_" +:+ v4 drawn in
        (langchainChats
           ++ [AIMessage (JStr EmptyString)
                 [ {| lc_name := name chat; lc_args := JObj [];
                      lc_id := toolCallId |} ];
               ToolMessage (string_or_stringify JSON_stringify (content chat))
                 toolCallId],
         S drawn)
    end
  else if String.eqb (role chat) "system" then
    (langchainChats ++ [SystemMessage (content chat)], drawn)
  else if String.eqb (role chat) "user" then
    (langchainChats ++ [HumanMessage (content chat)], drawn)
  else if String.eqb (role chat) "assistant" then
    (langchainChats ++ [AIMessage (content chat) []], drawn)
  else (langchainChats, drawn).

Definition convertToLangchainPrototypesWithTools (chats : list Message) (drawn : nat)
  : list LangchainMessage * nat :=
  fold_left convertChatWithTools chats ([], drawn).

(** [#formatFunctionsToLangchainTools] *)
Definition formatFunctionsToLangchainTools (functions : FunctionsArg) : list Tool :=
  match functions with
  | NotAnArray _ => []
  | FnArray [] => []
  | FnArray fns =>
      map (fun func =>
             {| tool_type := "function";
                tool_function :=
                  {| fn_name := fn_name func;
                     fn_description := fn_description func;
                     fn_parameters := fn_parameters func |} |})
          fns
  end.

(** The [catch] block of the native branches, and of the fallbacks:
    the error goes to [errorToHumanReadable]; when that returns, the
    call resolves to [undefined]. *)
Definition bedrock_caught {A : Type} (method model : string) (e : JsError)
  : Outcome (option A) :=
  match errorToHumanReadable e method model with
  | Thrown e' => Thrown e'
  | Returned _ => Returned None
  end.

(** The body of the loop of the native [stream] over the chunks. *)
Definition bedrockChunk (msgUUID : string) (st : BedrockState) (chunk : LcChunk)
  : BedrockState :=
  let finalMessage :=
    match bs_finalMessage st with
    | None => chunk
    | Some message => concat message chunk
    end in
  let content :=
    match lk_content chunk with
    | JStr text => text
    | _ => EmptyString
    end in
  let reported :=
    if truthy_str (Some content)
    then bs_events st
         ++ [ {| ev_type := "textResponseChunk"; ev_uuid := msgUUID;
                 ev_content := content |} ]
    else bs_events st in
  {| bs_textResponse :=
       if truthy_str (Some content) then bs_textResponse st +:+ content
       else bs_textResponse st;
     bs_finalMessage := Some finalMessage;
     bs_events :=
       reported
       ++ flat_map
            (fun toolChunk =>
               if truthy_str (tcc_name toolChunk)
               then [ {| ev_uuid := msgUUID +:+ ":tool_call_invocation";
                         ev_type := "toolCallInvocation";
                         ev_content :=
                           "Assembling Tool Call: " +:+ or_empty (tcc_name toolChunk) |} ]
               else [])
            (default [] (lk_tool_call_chunks chunk)) |}.

(** The call handed on for the first tool call of a response:
    [{id: toolCall.id || `call_${v4()}`, name, arguments: toolCall.args || {}}]. *)
Definition bedrock_function_call (toolCall : LcResponseCall) (drawn : nat)
  : FunctionCall :=
  {| fc_id :=
       if truthy_str (rc_id toolCall) then or_empty (rc_id toolCall)
       else "call_" +:+ v4 drawn;
     fc_name := rc_name toolCall;
     fc_arguments := if truthy (rc_args toolCall) then rc_args toolCall else JObj [] |}.

(** The native branch of [AWSBedrockProvider.stream]: [client_stream]
    is [this.client.bindTools(tools).stream(langchainMessages)].  The
    whole branch is inside a [try]. *)
Definition bedrock_stream_native
    (client_stream : list LangchainMessage -> list Tool -> Outcome (Stream LcChunk))
    (model : string) (messages : list Message) (functions : list FunctionDef)
    (drawn : nat)
  : Outcome (option CompleteResult) * list StreamEvent :=
  let '(langchainMessages, drawn1) :=
    convertToLangchainPrototypesWithTools messages drawn in
  let tools := formatFunctionsToLangchainTools (FnArray functions) in
  match client_stream langchainMessages tools with
  | Thrown e => (bedrock_caught "stream" model e, [])
  | Returned stream =>
      let msgUUID := v4 drawn1 in
      let st :=
        fold_left (bedrockChunk msgUUID) (stream_chunks stream)
          {| bs_textResponse := EmptyString; bs_finalMessage := None;
             bs_events := [] |} in
      match stream_failure stream with
      | Some e => (bedrock_caught "stream" model e, bs_events st)
      | None =>
          match bs_finalMessage st ≫= lk_tool_calls with
          | Some (toolCall :: _) =>
              (Returned
                 (Some {| cr_textResponse := Some (bs_textResponse st);
                          cr_functionCall :=
                            Some (bedrock_function_call toolCall (S drawn1));
                          cr_retryWithError := None;
                          cr_cost := 0 |}),
               bs_events st)
          | _ =>
              (Returned
                 (Some {| cr_textResponse := Some (bs_textResponse st);
                          cr_functionCall := None;
                          cr_retryWithError := None;
                          cr_cost := 0 |}),
               bs_events st)
          end
      end
  end.

(** The native branch of [AWSBedrockProvider.complete]:
    [client_invoke] is
    [this.client.bindTools(tools).invoke(langchainMessages)]. *)
Definition bedrock_complete_native
    (client_invoke : list LangchainMessage -> list Tool -> Outcome LcChunk)
    (model : string) (messages : list Message) (functions : list FunctionDef)
    (drawn : nat)
  : Outcome (option CompleteResult) :=
  let '(langchainMessages, drawn1) :=
    convertToLangchainPrototypesWithTools messages drawn in
  let tools := formatFunctionsToLangchainTools (FnArray functions) in
  match client_invoke langchainMessages tools with
  | Thrown e => bedrock_caught "complete" model e
  | Returned response =>
      match lk_tool_calls response with
      | Some (toolCall :: _) =>
          Returned
            (Some {| cr_textResponse := None;
                     cr_functionCall := Some (bedrock_function_call toolCall drawn1);
                     cr_retryWithError := None;
                     cr_cost := 0 |})
      | _ =>
          Returned
            (Some {| cr_textResponse :=
                       match string_or_stringify JSON_stringify (lk_content response) with
                       | JStr text => Some text
                       | _ => None
                       end;
                     cr_functionCall := None;
                     cr_retryWithError := None;
                     cr_cost := 0 |})
      end
  end.

End Bedrock.

(** [chunk?.message?.content] of a native chunk. *)
Definition native_content (chunk : NativeChunk) : option string :=
  nc_message chunk ≫= nm_content.

(** A native chunk whose [tool_calls] are absent or empty. *)
Definition carries_no_call (chunk : NativeChunk) : bool :=
  match nc_message chunk ≫= nm_tool_calls with
  | Some (_ :: _) => false
  | _ => true
  end.



(** Two tool calls streamed in parallel, at the indices 0 and 1, and
    the first of them alone. *)
Definition parallel_call_chunks : list Chunk :=
  [ tool_chunk [ {| d_index := Some 0; d_id := Some "c1";
                    d_name := Some "search"; d_arguments := Some "{}" |};
                 {| d_index := Some 1; d_id := Some "c2";
                    d_name := Some "lookup"; d_arguments := Some "{}" |} ] ].

Definition single_call_chunks : list Chunk :=
  [ tool_chunk [ {| d_index := Some 0; d_id := Some "c1";
                    d_name := Some "search"; d_arguments := Some "{}" |} ] ].

(** A stream that starts a call at index 0, starts another one there,
    and goes on with the arguments. *)
Definition restarted_call_chunks : list Chunk :=
  [ tool_chunk [ {| d_index := Some 0; d_id := Some "c1";
                    d_name := Some "search"; d_arguments := Some "{" |} ];
    tool_chunk [ {| d_index := Some 0; d_id := Some "c2";
                    d_name := Some "lookup"; d_arguments := None |};
                 {| d_index := Some 0; d_id := None;
                    d_name := None; d_arguments := Some "{}" |} ] ].

(** A stream whose tool-call fragment has no id. *)
Definition idless_call_chunks : list Chunk :=
  [ text_chunk "Searching";
    tool_chunk [ {| d_index := Some 0; d_id := None;
                    d_name := Some "search"; d_arguments := Some "{}" |} ] ].

(** A native Ollama stream with text and two chunks of tool calls. *)
Definition native_two_calls : list NativeChunk :=
  [ native_text "Let me search.";
    native_calls [ {| otc_name := "search"; otc_arguments := JObj [] |} ];
    native_calls [ {| otc_name := "lookup"; otc_arguments := JStr "q=cats" |} ];
    native_text " Done." ].

(** A chat that streams the same sentence whatever it is asked. *)
Definition prose_chat (_ : nat) (_ : list Message) : Outcome (list OllamaChunk) :=
  Returned (text_stream "Cats are great.").

(** A chat that streams two pieces of text and a closing chunk. *)
Definition closing_chat (_ : nat) (_ : list Message) : Outcome (list OllamaChunk) :=
  Returned [content_chunk "Hel"; content_chunk "lo"; content_chunk EmptyString].

(** Stand-ins for the two helpers of the Bedrock path that are not
    among the sources, for running the model. *)
Definition keep_latest (_ latest : LcChunk) : LcChunk := latest.

Definition readable_error (e : JsError) (method _model : string) : Outcome JValue :=
  Thrown {| err_class := OtherError;
            err_message := "AWSBedrock:" +:+ method +:+ " " +:+ err_message e |}.

(** A rate-limit failure of the upstream API. *)
Definition slow_down : JsError :=
  {| err_class := RateLimitError; err_message := "slow down" |}.

(** The paths of the Ollama adapter, which does not use the shared
    helpers: its native branch run on the given chat call, its
    emulated branch not looked into. *)
Definition ollama_stream_paths
    (chat : list OllamaChatMessage -> list Tool -> Outcome (Stream NativeChunk))
    (drawn : nat) (path : Path) (messages : list Message)
    (functions : list FunctionDef) : Outcome StreamResult :=
  match path with
  | OwnNative =>
      fst (ollama_stream_native JsonText.json_parse JsonText.json_stringify uuid
             chat messages functions drawn)
  | other => no_other_stream other messages functions
  end.

Definition ollama_complete_paths
    (chat : list OllamaChatMessage -> list Tool -> Outcome (option NativeMessage))
    (drawn : nat) (path : Path) (messages : list Message)
    (functions : list FunctionDef) : Outcome CompleteResult :=
  match path with
  | OwnNative =>
      ollama_complete_native JsonText.json_parse JsonText.json_stringify uuid
        chat messages functions drawn
  | other => no_other_complete other messages functions
  end.

(** A formatted history whose last message is an assistant message
    that has [tool_calls]. *)
Definition ends_with_tool_calls (formatted : list Message) : Prop :=
  exists previous calls,
    last formatted = Some previous
    /\ role previous = "assistant"
    /\ tool_calls previous = Some calls.

(** The DeepSeek adapter on its thinking model. *)
Definition deepseek_reasoner : Adapter := new_adapter DeepSeek "deepseek-reasoner".

(** ** Properties of the streaming driver *)

Section StreamingProperties.

Variable JSON_parse : string -> option JValue.
Variable JSON_stringify : JValue -> string.
Variable v4 : nat -> string.

Lemma foldr_min_le (k : nat) (ks : list nat) :
  foldr Nat.min k ks <= k /\ Forall (fun j => foldr Nat.min k ks <= j) ks.
Proof.
  induction ks as [|j ks [IHk IHks]]; simpl.
  - split; [lia | constructor].
  - split; [lia |].
    constructor; [lia |].
    eapply Forall_impl; [exact IHks |].
    simpl. intros; lia.
Qed.

Lemma foldr_min_elem (k : nat) (ks : list nat) :
  foldr Nat.min k ks ∈ k :: ks.
Proof.
  induction ks as [|j ks IH]; simpl.
  - apply elem_of_cons. left. reflexivity.
  - destruct (Nat.min_spec j (foldr Nat.min k ks)) as [[_ ->] | [_ ->]].
    + rewrite !elem_of_cons. right. left. reflexivity.
    + rewrite !elem_of_cons in *. tauto.
Qed.

(** The index [Math.min] picks is a key of the map and no key is
    smaller. *)
Lemma lowest_index_spec (byIndex : gmap nat Accumulator) :
  byIndex ≠ ∅ ->
  exists i acc,
    lowest_index byIndex = Some i
    /\ byIndex !! i = Some acc
    /\ forall j, is_Some (byIndex !! j) -> i <= j.
Proof.
  intros Hne. unfold lowest_index.
  destruct (map_to_list byIndex) as [|[k x] rest] eqn:Hl.
  { apply map_to_list_empty_iff in Hl. contradiction. }
  simpl.
  assert (Hkeys : forall j, is_Some (byIndex !! j) <-> j ∈ k :: rest.*1).
  { intros j. split.
    - intros [y Hy]. apply elem_of_map_to_list in Hy. rewrite Hl in Hy.
      change (k :: rest.*1) with (((k, x) :: rest).*1).
      apply list_elem_of_fmap. exists (j, y). split; [reflexivity | exact Hy].
    - intros Hj. change (k :: rest.*1) with (((k, x) :: rest).*1) in Hj.
      apply list_elem_of_fmap in Hj as [[j' y] [-> Hy]]. simpl.
      rewrite <- Hl in Hy. apply elem_of_map_to_list in Hy. eauto. }
  pose proof (foldr_min_elem k (rest.*1)) as Hin.
  apply Hkeys in Hin as [acc Hacc].
  exists (foldr Nat.min k (rest.*1)), acc.
  split; [reflexivity |]. split; [exact Hacc |].
  intros j Hj. apply Hkeys in Hj.
  destruct (foldr_min_le k (rest.*1)) as [Hk Hrest].
  apply elem_of_cons in Hj as [-> | Hj]; [exact Hk |].
  rewrite Forall_forall in Hrest. apply Hrest. exact Hj.
Qed.

Lemma lowest_index_singleton (i : nat) (acc : Accumulator) :
  lowest_index {[ i := acc ]} = Some i.
Proof. unfold lowest_index. rewrite map_to_list_singleton. reflexivity. Qed.


Lemma append_empty_r (s : string) : s +:+ EmptyString = s.
Proof. induction s as [|c s IH]; simpl; [reflexivity | f_equal; exact IH]. Qed.

Lemma append_assoc (s t u : string) : (s +:+ t) +:+ u = s +:+ (t +:+ u).
Proof. induction s as [|c s IH]; simpl; [reflexivity | f_equal; exact IH]. Qed.

Lemma append_if_truthy_or_empty (field : string) (frag : option string) :
  append_if_truthy field frag = field +:+ or_empty frag.
Proof.
  unfold append_if_truthy, truthy_str.
  destruct frag as [s|]; simpl.
  - destruct (String.eqb_spec s EmptyString) as [-> | _]; simpl;
      [now rewrite append_empty_r | reflexivity].
  - now rewrite append_empty_r.
Qed.

Lemma mergeToolCall_byIndex (u : string) (frags : list ToolCallDelta) (st : StreamState) :
  st_toolCallsByIndex (fold_left (mergeToolCall u) frags st)
  = fold_left mergeAccumulator frags (st_toolCallsByIndex st).
Proof.
  revert st. induction frags as [|f frags IH]; intros st; simpl; [reflexivity |].
  rewrite IH. reflexivity.
Qed.

(** The accumulators at the end of the stream depend on the chunks only
    through the fragments they carry. *)
Lemma processChunk_byIndex (u : string) (chunks : list Chunk) (st : StreamState) :
  st_toolCallsByIndex (fold_left (processChunk u) chunks st)
  = fold_left mergeAccumulator (carried chunks) (st_toolCallsByIndex st).
Proof.
  revert st. induction chunks as [|c chunks IH]; intros st; simpl; [reflexivity |].
  rewrite IH, fold_left_app. f_equal.
  unfold processChunk.
  destruct (chunk_choices c) as [|choice rest]; simpl; [reflexivity |].
  destruct (choice ≫= delta_tool_calls) as [toolCalls|]; simpl.
  - rewrite mergeToolCall_byIndex.
    destruct (truthy_str (choice ≫= delta_content)); reflexivity.
  - destruct (truthy_str (choice ≫= delta_content)); reflexivity.
Qed.

Lemma consume_byIndex (u : string) (chunks : list Chunk) :
  st_toolCallsByIndex (consume u chunks)
  = fold_left mergeAccumulator (carried chunks) ∅.
Proof. unfold consume. rewrite processChunk_byIndex. reflexivity. Qed.

(** Later fragments, which carry no id, extend the one accumulator by
    concatenation. *)
Lemma continuation_fragments (idx : option nat) (rest : list (option string * option string))
    (acc : Accumulator) :
  fold_left mergeAccumulator
    (map (fun piece =>
            {| d_index := idx; d_id := None;
               d_name := fst piece; d_arguments := snd piece |}) rest)
    {[ default 0 idx := acc ]}
  = {[ default 0 idx :=
         {| acc_id := acc_id acc;
            acc_name := acc_name acc +:+ joined (map fst rest);
            acc_arguments := acc_arguments acc +:+ joined (map snd rest) |} ]}.
Proof.
  revert acc. induction rest as [|[n a] rest IH]; intros acc; simpl.
  - rewrite !append_empty_r. destruct acc; reflexivity.
  - unfold mergeAccumulator at 2. simpl.
    rewrite lookup_singleton_eq, insert_singleton_eq.
    rewrite IH. simpl.
    rewrite !append_if_truthy_or_empty, !append_assoc. reflexivity.
Qed.

(** A fragmented call assembles to the concatenation of its pieces. *)
Lemma fragments_assemble (idx : option nat) (id : string)
    (pieces : list (option string * option string)) :
  id <> EmptyString -> pieces <> [] ->
  fold_left mergeAccumulator (fragments_of idx id pieces) ∅
  = {[ default 0 idx :=
         {| acc_id := id;
            acc_name := joined (map fst pieces);
            acc_arguments := joined (map snd pieces) |} ]}.
Proof.
  intros Hid Hne. destruct pieces as [|[n0 a0] rest]; [contradiction |].
  simpl. unfold mergeAccumulator at 2. simpl.
  destruct (String.eqb_spec id EmptyString) as [-> | _]; [contradiction |]. simpl.
  rewrite insert_empty. rewrite continuation_fragments. reflexivity.
Qed.

Lemma first_function_call_singleton (i : nat) (acc : Accumulator) :
  first_function_call JSON_parse {[ i := acc ]}
  = Some {| fc_id := acc_id acc;
            fc_name := Some (acc_name acc);
            fc_arguments := safeJsonParse JSON_parse (acc_arguments acc) (JObj []) |}.
Proof.
  unfold first_function_call.
  rewrite lowest_index_singleton, lookup_singleton_eq. reflexivity.
Qed.

(** C5: for an empty or non-array tool-definition input,
    [formatFunctionsToTools] returns the empty list, and the requests
    that [tooledStream] and [tooledComplete] send have no [tools] key at
    all. *)
Theorem C5_empty_definitions_omit_tools_field
    (functions : FunctionsArg) (Hempty : no_tool_definitions functions = true) :
  formatFunctionsToTools functions = []
  /\ (forall create model messages options drawn,
        req_tools
          (fx_request
             (snd (tooledStream JSON_parse JSON_stringify v4 create model
                     messages functions options drawn)))
        = None)
  /\ (forall create model messages getCostFn options drawn,
        req_tools
          (fx_request
             (snd (tooledComplete JSON_parse JSON_stringify v4 create model
                     messages functions getCostFn options drawn)))
        = None).
Proof.
  assert (Htools : formatFunctionsToTools functions = []).
  { destruct functions as [v | [|f fns]]; simpl in *; [reflexivity .. | discriminate]. }
  split; [exact Htools |]. split.
  - intros create model messages options drawn. unfold tooledStream.
    destruct (create _); simpl; unfold build_request; rewrite Htools; reflexivity.
  - intros create model messages getCostFn options drawn. unfold tooledComplete.
    destruct (create _); simpl; unfold build_request; rewrite Htools; reflexivity.
Qed.

(** C1 (as the code has it): when the stream ends and at least one
    accumulator exists, [tooledStream] returns the call of the
    accumulator with the lowest index, with its id and name, and with
    its accumulated arguments parsed as JSON; when they do not parse,
    the call is still returned, with the empty object as its
    arguments. *)
Theorem C1_lowest_index_call_with_fallback_arguments
    (create : Request -> Outcome (Stream Chunk)) (model : string)
    (messages : list Message) (functions : FunctionsArg)
    (options : FormatOptions) (drawn : nat) (chunks : list Chunk) :
  create (tooledStream_request JSON_stringify v4 model messages functions options drawn)
  = Returned (ended chunks) ->
  st_toolCallsByIndex (consume (v4 drawn) chunks) <> ∅ ->
  exists i acc,
    st_toolCallsByIndex (consume (v4 drawn) chunks) !! i = Some acc
    /\ (forall j, is_Some (st_toolCallsByIndex (consume (v4 drawn) chunks) !! j) -> i <= j)
    /\ fst (tooledStream JSON_parse JSON_stringify v4 create model messages
              functions options drawn)
       = Returned
           {| sr_textResponse := st_text (consume (v4 drawn) chunks);
              sr_functionCall :=
                Some {| fc_id := acc_id acc;
                        fc_name := Some (acc_name acc);
                        fc_arguments :=
                          match JSON_parse (acc_arguments acc) with
                          | Some parsed => parsed
                          | None => JObj []
                          end |} |}.
Proof.
  intros Hcreate Hne.
  destruct (lowest_index_spec _ Hne) as (i & acc & Hlow & Hacc & Hmin).
  exists i, acc. split; [exact Hacc |]. split; [exact Hmin |].
  unfold tooledStream. rewrite Hcreate. simpl.
  unfold stream_result, first_function_call. rewrite Hlow, Hacc. reflexivity.
Qed.

(** A fragment whose id is absent or empty does nothing while no
    accumulator exists. *)
Lemma idless_fragments_ignored (frags : list ToolCallDelta) :
  Forall (fun f => truthy_str (d_id f) = false) frags ->
  fold_left mergeAccumulator frags ∅ = (∅ : gmap nat Accumulator).
Proof.
  induction 1 as [|f frags Hf _ IH]; cbn [fold_left]; [reflexivity |].
  unfold mergeAccumulator at 2. rewrite Hf, lookup_empty. exact IH.
Qed.

Lemma empty_id_fragments (idx : option nat)
    (pieces : list (option string * option string)) :
  fold_left mergeAccumulator (fragments_of idx EmptyString pieces) ∅
  = (∅ : gmap nat Accumulator).
Proof.
  apply idless_fragments_ignored.
  destruct pieces as [|[n0 a0] rest]; cbn [fragments_of]; constructor.
  - reflexivity.
  - apply Forall_fmap, Forall_true. intros piece. reflexivity.
Qed.

(** C4: streaming tool-call assembly is fragmentation-invariant.  For a
    tool call [(id, name, arguments)] delivered at a constant index, the
    id in its first fragment, every splitting of the name and of the
    arguments over the fragments, and every grouping of the fragments
    into chunks, yields the same call as delivering the whole call in a
    single chunk: for an id that is not empty, the call of the id, the
    whole name and the whole arguments parsed.  In particular the three
    fragments of the example assemble to the call [c1] of [search] with
    arguments [{q: cats}]. *)
Theorem C4_fragmentation_invariant :
  (forall (create whole : Request -> Outcome (Stream Chunk)) (model : string)
          (messages : list Message) (functions : FunctionsArg)
          (options : FormatOptions) (drawn : nat) (chunks : list Chunk)
          (idx : option nat) (id : string)
          (pieces : list (option string * option string)),
      pieces <> [] ->
      create (tooledStream_request JSON_stringify v4 model messages functions options drawn)
      = Returned (ended chunks) ->
      carried chunks = fragments_of idx id pieces ->
      whole (tooledStream_request JSON_stringify v4 model messages functions options drawn)
      = Returned (ended (whole_call_chunks idx id (joined (map fst pieces))
                           (joined (map snd pieces)))) ->
      function_call_of
        (fst (tooledStream JSON_parse JSON_stringify v4 create model messages
                functions options drawn))
      = function_call_of
          (fst (tooledStream JSON_parse JSON_stringify v4 whole model messages
                  functions options drawn))
      /\ (id <> EmptyString ->
          function_call_of
            (fst (tooledStream JSON_parse JSON_stringify v4 create model messages
                    functions options drawn))
          = Some {| fc_id := id;
                    fc_name := Some (joined (map fst pieces));
                    fc_arguments :=
                      safeJsonParse JSON_parse (joined (map snd pieces)) (JObj []) |}))
  /\ function_call_of
       (fst (tooledStream JsonText.json_parse JSON_stringify v4
               (fun _ => Returned (ended search_cats_chunks)) "model"
               [user_message "find cats"] (FnArray [search_function])
               default_options 0))
     = Some {| fc_id := "c1";
               fc_name := Some "search";
               fc_arguments := JObj [("q", JStr "cats")] |}.
Proof.
  split.
  - intros create whole model messages functions options drawn chunks idx id
      pieces Hne Hcreate Hcarried Hwhole.
    assert (Hleft :
      function_call_of
        (fst (tooledStream JSON_parse JSON_stringify v4 create model messages
                functions options drawn))
      = first_function_call JSON_parse
          (fold_left mergeAccumulator (fragments_of idx id pieces) ∅)).
    { unfold tooledStream. rewrite Hcreate.
      cbn [fst function_call_of stream_result sr_functionCall ended stream_chunks
           stream_failure].
      rewrite consume_byIndex, Hcarried. reflexivity. }
    assert (Hright :
      function_call_of
        (fst (tooledStream JSON_parse JSON_stringify v4 whole model messages
                functions options drawn))
      = first_function_call JSON_parse
          (fold_left mergeAccumulator
             (fragments_of idx id
                [(Some (joined (map fst pieces)), Some (joined (map snd pieces)))])
             ∅)).
    { unfold tooledStream. rewrite Hwhole.
      cbn [fst function_call_of stream_result sr_functionCall ended stream_chunks
           stream_failure].
      rewrite consume_byIndex. reflexivity. }
    rewrite Hleft, Hright.
    destruct (String.eqb_spec id EmptyString) as [-> | Hid].
    + rewrite !empty_id_fragments. split; [reflexivity | contradiction].
    + rewrite !fragments_assemble by (assumption || discriminate).
      rewrite !first_function_call_singleton.
      cbn [acc_id acc_name acc_arguments joined map fst snd foldr or_empty].
      rewrite !append_empty_r. split; [reflexivity | intros _; reflexivity].
  - vm_compute. reflexivity.
Qed.

End StreamingProperties.

(** ** Properties of the non-streaming driver and of the adapters *)

Section AdapterProperties.

Variable JSON_parse : string -> option JValue.
Variable JSON_stringify : JValue -> string.
Variable v4 : nat -> string.
Variable other_complete :
  Path -> list Message -> list FunctionDef -> Outcome CompleteResult.
Variable other_stream :
  Path -> list Message -> list FunctionDef -> Outcome StreamResult.
Variable concat : LcChunk -> LcChunk -> LcChunk.
Variable errorToHumanReadable : JsError -> string -> string -> Outcome JValue.

(** Once an adapter has dispatched, dispatching again takes the same
    path and leaves the adapter as it is: the probe's answer is cached. *)
Lemma dispatch_stable (env env' : Environment) (a : Adapter) (functions : list FunctionDef) :
  let a' := dispatch_adapter (dispatch env (preloadModel a) functions) in
  dispatch_path (dispatch env' (preloadModel a') functions)
  = dispatch_path (dispatch env (preloadModel a) functions)
  /\ dispatch_adapter (dispatch env' (preloadModel a') functions) = a'.
Proof.
  destruct a as [p m cache pre].
  destruct functions as [|f fs];
    destruct p; destruct cache as [cached|];
    cbn; try (split; reflexivity);
    unfold probe_lemonade, probe_capabilities, probe_env; cbn;
    try (split; reflexivity);
    destruct (truthy (env_includes env "lemonade")); cbn; split; reflexivity.
Qed.

Lemma interpret_malformed (getCostFn : JValue -> Z) (response : Response) :
  malformed_first_call JSON_parse response ->
  exists toolCall,
    interpret_response JSON_parse getCostFn response
    = Returned {| cr_textResponse := None;
                  cr_functionCall := None;
                  cr_retryWithError := Some (retry_message toolCall);
                  cr_cost := getCostFn (resp_usage response) |}.
Proof.
  intros (completion & others & toolCall & rest & Hch & Hcalls & Hparse).
  exists toolCall. unfold interpret_response, safeJsonParse.
  rewrite Hch, Hcalls, Hparse. reflexivity.
Qed.

(** Against a provider that answers every request with a malformed
    first tool call, [complete] sends one request per invocation and
    does not settle, however many invocations are followed. *)
Lemma complete_keeps_retrying (depth : nat) :
  forall (env : Environment) (create : nat -> Request -> Outcome Response)
         (sent : nat) (a : Adapter) (messages : list Message)
         (functions : list FunctionDef) (drawn : nat),
    dispatch_path (dispatch env (preloadModel a) functions) = TooledHelpers ->
    (forall n request,
        exists response,
          create n request = Returned response
          /\ malformed_first_call JSON_parse response) ->
    let run :=
      complete JSON_parse JSON_stringify v4 other_complete depth env create sent
        a messages functions drawn in
    run_outcome run = None /\ List.length (run_requests run) = depth.
Proof.
  induction depth as [|depth IH]; intros env create sent a messages functions
    drawn Hpath Hbad; cbn zeta.
  - split; reflexivity.
  - cbn [complete]. rewrite Hpath.
    unfold tooledComplete.
    destruct (Hbad sent
                (tooledComplete_request JSON_stringify v4
                   (model (dispatch_adapter (dispatch env (preloadModel a) functions)))
                   messages (FnArray functions)
                   (tooledOptions (dispatch_adapter (dispatch env (preloadModel a) functions)))
                   drawn))
      as (response & -> & Hmal).
    destruct (interpret_malformed getCost response Hmal) as (toolCall & ->).
    cbn [cr_retryWithError run_outcome run_requests fx_request fx_drawn].
    destruct (dispatch_stable env env a functions) as [Hsame _].
    cbn zeta in Hsame. rewrite Hpath in Hsame.
    edestruct (IH env create (S sent)
                 (dispatch_adapter (dispatch env (preloadModel a) functions)))
      as [Hout Hlen]; [exact Hsame | exact Hbad |].
    split; [exact Hout |].
    cbn [List.length]. f_equal. exact Hlen.
Qed.

(** One invocation of [complete] whose response has a malformed first
    tool call: the request is sent, and the run goes on as the run of
    [complete] on the history with the retry signal appended. *)
Lemma complete_retries (depth : nat) (env : Environment)
    (create : nat -> Request -> Outcome Response) (sent : nat)
    (a : Adapter) (messages : list Message) (functions : list FunctionDef)
    (drawn : nat) (completion : Completion) (others : list Completion)
    (usage : JValue) (toolCall : ToolCallObj) (rest : list ToolCallObj) :
  let a' := dispatch_adapter (dispatch env (preloadModel a) functions) in
  let request :=
    tooledComplete_request JSON_stringify v4 (model a') messages
      (FnArray functions) (tooledOptions a') drawn in
  dispatch_path (dispatch env (preloadModel a) functions) = TooledHelpers ->
  create sent request
  = Returned {| resp_choices := completion :: others; resp_usage := usage |} ->
  cm_tool_calls completion = Some (toolCall :: rest) ->
  JSON_parse (tc_arguments toolCall) = None ->
  let again :=
    complete JSON_parse JSON_stringify v4 other_complete depth env create (S sent)
      a' (messages ++ [retry_message toolCall]) functions
      (snd (formatMessagesForTools_from JSON_stringify v4 messages
              (tooledOptions a') drawn)) in
  complete JSON_parse JSON_stringify v4 other_complete (S depth) env create sent
    a messages functions drawn
  = {| run_outcome := run_outcome again;
       run_requests := request :: run_requests again;
       run_adapter := run_adapter again;
       run_drawn := run_drawn again |}.
Proof.
  cbn zeta. intros Hpath Hcreate Hcalls Hparse.
  cbn [complete]. rewrite Hpath.
  unfold tooledComplete. rewrite Hcreate.
  unfold interpret_response, safeJsonParse. cbn [resp_choices resp_usage].
  rewrite Hcalls, Hparse. reflexivity.
Qed.

(** Against a provider whose every response has the same malformed
    first tool call, the request sent after [k] earlier ones carries
    the history with [k] retry signals appended. *)
Lemma complete_resends_with_signals (toolCall : ToolCallObj) (depth : nat) :
  forall (env : Environment) (create : nat -> Request -> Outcome Response)
         (sent : nat) (a : Adapter) (messages : list Message)
         (functions : list FunctionDef) (drawn : nat),
    dispatch_path (dispatch env (preloadModel a) functions) = TooledHelpers ->
    JSON_parse (tc_arguments toolCall) = None ->
    (forall n request,
        exists completion others usage rest,
          create n request
          = Returned {| resp_choices := completion :: others; resp_usage := usage |}
          /\ cm_tool_calls completion = Some (toolCall :: rest)) ->
    let a' := dispatch_adapter (dispatch env (preloadModel a) functions) in
    forall (k : nat) (request : Request),
      run_requests
        (complete JSON_parse JSON_stringify v4 other_complete depth env create
           sent a messages functions drawn) !! k = Some request ->
      req_model request = model a'
      /\ exists d,
           req_messages request
           = formatMessagesForTools JSON_stringify v4
               (messages ++ replicate k (retry_message toolCall))
               (tooledOptions a') d.
Proof.
  induction depth as [|depth IH]; intros env create sent a messages functions
    drawn Hpath Hparse Hsame; cbn zeta; intros k request Hk.
  - cbn in Hk. discriminate.
  - destruct (Hsame sent
                (tooledComplete_request JSON_stringify v4
                   (model (dispatch_adapter (dispatch env (preloadModel a) functions)))
                   messages (FnArray functions)
                   (tooledOptions (dispatch_adapter (dispatch env (preloadModel a) functions)))
                   drawn))
      as (completion & others & usage & rest & Hcreate & Hcalls).
    rewrite (complete_retries depth env create sent a messages functions drawn
               completion others usage toolCall rest Hpath Hcreate Hcalls Hparse)
      in Hk.
    cbn [run_requests] in Hk.
    destruct k as [|k].
    + cbn in Hk. injection Hk as <-. split; [reflexivity |].
      exists drawn. cbn [replicate]. rewrite app_nil_r. reflexivity.
    + cbn [lookup list_lookup] in Hk.
      destruct (dispatch_stable env env a functions) as [Hsamepath Hadapter].
      cbn zeta in Hsamepath, Hadapter. rewrite Hpath in Hsamepath.
      apply IH in Hk; [| exact Hsamepath | exact Hparse | exact Hsame].
      cbn zeta in Hk. rewrite Hadapter in Hk.
      destruct Hk as [Hmodel (d & Hmessages)].
      split; [exact Hmodel |].
      exists d. rewrite Hmessages, <- app_assoc. reflexivity.
Qed.

(** C3 (as the code has it): a response whose first tool call has
    arguments that fail to parse yields a retry signal, a synthetic
    [function]-role message reporting the raw arguments, and neither a
    result nor an exception; after a retry signal [complete] sends
    nothing else before it re-invokes itself on the history with the
    signal appended, and it does so after every retry signal, with no
    bound: against a provider that keeps answering with a malformed
    first tool call it has sent as many requests as invocations were
    followed and has not settled, and when the malformed call is the
    same each time, the request sent after [k] earlier ones carries the
    history with [k] copies of the signal appended. *)
Theorem C3_retry_signal_reinvokes_without_bound :
  (forall (create : Request -> Outcome Response) (model : string)
          (messages : list Message) (functions : FunctionsArg)
          (getCostFn : JValue -> Z) (options : FormatOptions) (drawn : nat)
          (completion : Completion) (others : list Completion) (usage : JValue)
          (toolCall : ToolCallObj) (rest : list ToolCallObj),
      create (tooledComplete_request JSON_stringify v4 model messages functions options drawn)
      = Returned {| resp_choices := completion :: others; resp_usage := usage |} ->
      cm_tool_calls completion = Some (toolCall :: rest) ->
      JSON_parse (tc_arguments toolCall) = None ->
      fst (tooledComplete JSON_parse JSON_stringify v4 create model messages
             functions getCostFn options drawn)
      = Returned
          {| cr_textResponse := None;
             cr_functionCall := None;
             cr_retryWithError :=
               Some {| role := "function";
                       content :=
                         JStr ("Failed to parse tool call arguments as JSON. Raw arguments: "
                                 +:+ tc_arguments toolCall);
                       name := tc_name toolCall;
                       originalFunctionCall :=
                         Some {| ofc_id := Some (tc_id toolCall);
                                 ofc_name := tc_name toolCall;
                                 ofc_arguments := JStr (tc_arguments toolCall) |};
                       reasoning_content := None;
                       tool_calls := None;
                       tool_call_id := None |};
             cr_cost := getCostFn usage |})
  /\ (forall (depth : nat) (env : Environment)
             (create : nat -> Request -> Outcome Response) (sent : nat)
             (a : Adapter) (messages : list Message)
             (functions : list FunctionDef) (drawn : nat)
             (completion : Completion) (others : list Completion) (usage : JValue)
             (toolCall : ToolCallObj) (rest : list ToolCallObj),
        let a' := dispatch_adapter (dispatch env (preloadModel a) functions) in
        let request :=
          tooledComplete_request JSON_stringify v4 (model a') messages
            (FnArray functions) (tooledOptions a') drawn in
        let signal :=
          {| role := "function";
             content :=
               JStr ("Failed to parse tool call arguments as JSON. Raw arguments: "
                       +:+ tc_arguments toolCall);
             name := tc_name toolCall;
             originalFunctionCall :=
               Some {| ofc_id := Some (tc_id toolCall);
                       ofc_name := tc_name toolCall;
                       ofc_arguments := JStr (tc_arguments toolCall) |};
             reasoning_content := None;
             tool_calls := None;
             tool_call_id := None |} in
        dispatch_path (dispatch env (preloadModel a) functions) = TooledHelpers ->
        create sent request
        = Returned {| resp_choices := completion :: others; resp_usage := usage |} ->
        cm_tool_calls completion = Some (toolCall :: rest) ->
        JSON_parse (tc_arguments toolCall) = None ->
        let again :=
          complete JSON_parse JSON_stringify v4 other_complete depth env create
            (S sent) a' (messages ++ [signal]) functions
            (snd (formatMessagesForTools_from JSON_stringify v4 messages
                    (tooledOptions a') drawn)) in
        complete JSON_parse JSON_stringify v4 other_complete (S depth) env create
          sent a messages functions drawn
        = {| run_outcome := run_outcome again;
             run_requests := request :: run_requests again;
             run_adapter := run_adapter again;
             run_drawn := run_drawn again |})
  /\ (forall (depth : nat) (env : Environment)
             (create : nat -> Request -> Outcome Response) (sent : nat)
             (a : Adapter) (messages : list Message)
             (functions : list FunctionDef) (drawn : nat),
        dispatch_path (dispatch env (preloadModel a) functions) = TooledHelpers ->
        (forall n request,
            exists response,
              create n request = Returned response
              /\ malformed_first_call JSON_parse response) ->
        run_outcome
          (complete JSON_parse JSON_stringify v4 other_complete depth env create
             sent a messages functions drawn) = None
        /\ List.length
             (run_requests
                (complete JSON_parse JSON_stringify v4 other_complete depth env
                   create sent a messages functions drawn)) = depth)
  /\ (forall (depth : nat) (env : Environment)
             (create : nat -> Request -> Outcome Response) (sent : nat)
             (a : Adapter) (messages : list Message)
             (functions : list FunctionDef) (drawn : nat) (toolCall : ToolCallObj),
        let a' := dispatch_adapter (dispatch env (preloadModel a) functions) in
        let signal :=
          {| role := "function";
             content :=
               JStr ("Failed to parse tool call arguments as JSON. Raw arguments: "
                       +:+ tc_arguments toolCall);
             name := tc_name toolCall;
             originalFunctionCall :=
               Some {| ofc_id := Some (tc_id toolCall);
                       ofc_name := tc_name toolCall;
                       ofc_arguments := JStr (tc_arguments toolCall) |};
             reasoning_content := None;
             tool_calls := None;
             tool_call_id := None |} in
        dispatch_path (dispatch env (preloadModel a) functions) = TooledHelpers ->
        JSON_parse (tc_arguments toolCall) = None ->
        (forall n request,
            exists completion others usage rest,
              create n request
              = Returned {| resp_choices := completion :: others; resp_usage := usage |}
              /\ cm_tool_calls completion = Some (toolCall :: rest)) ->
        forall (k : nat) (request : Request),
          run_requests
            (complete JSON_parse JSON_stringify v4 other_complete depth env create
               sent a messages functions drawn) !! k = Some request ->
          req_model request = model a'
          /\ exists d,
               req_messages request
               = formatMessagesForTools JSON_stringify v4
                   (messages ++ replicate k signal) (tooledOptions a') d).
Proof.
  split; [| split; [| split]].
  - intros create model messages functions getCostFn options drawn completion
      others usage toolCall rest Hcreate Hcalls Hparse.
    unfold tooledComplete. rewrite Hcreate.
    unfold interpret_response, safeJsonParse. cbn [fst resp_choices resp_usage].
    rewrite Hcalls, Hparse. reflexivity.
  - intros depth env create sent a messages functions drawn completion others
      usage toolCall rest. cbn zeta. intros Hpath Hcreate Hcalls Hparse.
    exact (complete_retries depth env create sent a messages functions drawn
             completion others usage toolCall rest Hpath Hcreate Hcalls Hparse).
  - intros depth env create sent a messages functions drawn Hpath Hbad.
    exact (complete_keeps_retrying depth env create sent a messages functions
             drawn Hpath Hbad).
  - intros depth env create sent a messages functions drawn toolCall. cbn zeta.
    intros Hpath Hparse Hsame k request Hk.
    exact (complete_resends_with_signals toolCall depth env create sent a messages
             functions drawn Hpath Hparse Hsame k request Hk).
Qed.

(** C10 (as the code has it): when the response has at least one tool
    call and the arguments of the first one parse as JSON to a value
    other than [null], [tooledComplete] returns [textResponse = null]
    with the first tool call's id, name and parsed arguments, whatever
    text the response also carries; and no result of [tooledComplete]
    has both a text and a tool call. *)
Theorem C10_first_call_returned_without_text :
  (forall (create : Request -> Outcome Response) (model : string)
          (messages : list Message) (functions : FunctionsArg)
          (getCostFn : JValue -> Z) (options : FormatOptions) (drawn : nat)
          (completion : Completion) (others : list Completion) (usage : JValue)
          (toolCall : ToolCallObj) (rest : list ToolCallObj) (parsed : JValue),
      create (tooledComplete_request JSON_stringify v4 model messages functions options drawn)
      = Returned {| resp_choices := completion :: others; resp_usage := usage |} ->
      cm_tool_calls completion = Some (toolCall :: rest) ->
      JSON_parse (tc_arguments toolCall) = Some parsed ->
      parsed <> JNull ->
      fst (tooledComplete JSON_parse JSON_stringify v4 create model messages
             functions getCostFn options drawn)
      = Returned {| cr_textResponse := None;
                    cr_functionCall :=
                      Some {| fc_id := tc_id toolCall;
                              fc_name := tc_name toolCall;
                              fc_arguments := parsed |};
                    cr_retryWithError := None;
                    cr_cost := getCostFn usage |})
  /\ (forall (create : Request -> Outcome Response) (model : string)
             (messages : list Message) (functions : FunctionsArg)
             (getCostFn : JValue -> Z) (options : FormatOptions) (drawn : nat)
             (r : CompleteResult),
        fst (tooledComplete JSON_parse JSON_stringify v4 create model messages
               functions getCostFn options drawn) = Returned r ->
        cr_textResponse r = None \/ cr_functionCall r = None).
Proof.
  split.
  - intros create model messages functions getCostFn options drawn completion
      others usage toolCall rest parsed Hcreate Hcalls Hparse Hnonnull.
    unfold tooledComplete. rewrite Hcreate.
    unfold interpret_response, safeJsonParse. cbn [fst resp_choices resp_usage].
    rewrite Hcalls, Hparse.
    destruct parsed; try reflexivity. contradiction.
  - intros create model messages functions getCostFn options drawn r.
    unfold tooledComplete.
    destruct (create _) as [response | e]; cbn [fst]; [| discriminate].
    unfold interpret_response.
    destruct (resp_choices response) as [|completion others]; [discriminate |].
    destruct (cm_tool_calls completion) as [[|toolCall rest]|].
    + intros [= <-]. right. reflexivity.
    + destruct (is_null _); intros [= <-]; left; reflexivity.
    + intros [= <-]. right. reflexivity.
Qed.

(** C8 (as the code has it): in an adapter whose native path is the
    shared helpers (every adapter but Ollama and Bedrock), an error
    raised during a native-path [stream] or [complete], by the request
    or by the stream while it is read, is rethrown unchanged when it is
    an authentication error, is thrown as a [RetryError] with the same
    message when it is a rate-limit, an internal-server or another API
    error, and is rethrown unchanged otherwise; the request that failed
    is the only one sent.  The Ollama adapter's own native path has no
    [catch]: every error is thrown unchanged.  The Bedrock adapter's
    native path hands every error to [errorToHumanReadable] and throws
    what that throws, resolving to [undefined] when it returns. *)
Theorem C8_errors_classified_and_never_retried
    (env : Environment) (a : Adapter) (messages : list Message)
    (functions : list FunctionDef) (drawn : nat) (error : JsError) :
  let a' := dispatch_adapter (dispatch env (preloadModel a) functions) in
  let classified :=
    match err_class error with
    | AuthenticationError => error
    | RateLimitError | InternalServerError | OtherAPIError =>
        {| err_class := RetryError; err_message := err_message error |}
    | RetryError | OtherError => error
    end in
  let streamed :=
    tooledStream_request JSON_stringify v4 (model a') messages (FnArray functions)
      (tooledOptions a') drawn in
  let requested :=
    tooledComplete_request JSON_stringify v4 (model a') messages (FnArray functions)
      (tooledOptions a') drawn in
  (is_native (dispatch_path (dispatch env (preloadModel a) functions)) = true ->
   provider a <> Ollama ->
   provider a <> AWSBedrock ->
   (forall create : Request -> Outcome (Stream Chunk),
       create streamed = Thrown error
       \/ (exists chunks,
             create streamed
             = Returned {| stream_chunks := chunks; stream_failure := Some error |}) ->
       srun_outcome
         (stream JSON_parse JSON_stringify v4 other_stream env create a messages
            functions drawn) = Thrown classified
       /\ srun_requests
            (stream JSON_parse JSON_stringify v4 other_stream env create a messages
               functions drawn) = [streamed])
   /\ (forall (depth sent : nat) (create : nat -> Request -> Outcome Response),
         create sent requested = Thrown error ->
         run_outcome
           (complete JSON_parse JSON_stringify v4 other_complete (S depth) env
              create sent a messages functions drawn)
         = Some (Thrown classified)
         /\ run_requests
              (complete JSON_parse JSON_stringify v4 other_complete (S depth) env
                 create sent a messages functions drawn) = [requested])
   /\ (forall create : Request -> Outcome (Stream Chunk),
         fst (tooledStream JSON_parse JSON_stringify v4 create (model a') messages
                (FnArray functions) (tooledOptions a') drawn) = Thrown error ->
         srun_outcome
           (stream JSON_parse JSON_stringify v4 other_stream env create a messages
              functions drawn) = Thrown classified)
   /\ (forall (depth sent : nat) (create : nat -> Request -> Outcome Response),
         fst (tooledComplete JSON_parse JSON_stringify v4 (create sent) (model a')
                messages (FnArray functions) getCost (tooledOptions a') drawn)
         = Thrown error ->
         run_outcome
           (complete JSON_parse JSON_stringify v4 other_complete (S depth) env
              create sent a messages functions drawn)
         = Some (Thrown classified)))
  /\ (forall chat : list OllamaChatMessage -> list Tool -> Outcome (Stream NativeChunk),
        let answer :=
          chat (formatMessagesForOllamaTools JSON_parse JSON_stringify messages)
            (formatFunctionsToTools (FnArray functions)) in
        answer = Thrown error
        \/ (exists chunks,
              answer
              = Returned {| stream_chunks := chunks; stream_failure := Some error |}) ->
        fst (ollama_stream_native JSON_parse JSON_stringify v4 chat messages
               functions drawn) = Thrown error)
  /\ (forall chat : list OllamaChatMessage -> list Tool -> Outcome (option NativeMessage),
        chat (formatMessagesForOllamaTools JSON_parse JSON_stringify messages)
          (formatFunctionsToTools (FnArray functions)) = Thrown error ->
        ollama_complete_native JSON_parse JSON_stringify v4 chat messages functions
          drawn = Thrown error)
  /\ (forall (client_stream :
                list LangchainMessage -> list Tool -> Outcome (Stream LcChunk))
             (bedrock_model : string),
        let answer :=
          client_stream
            (fst (convertToLangchainPrototypesWithTools JSON_parse JSON_stringify v4
                    messages drawn))
            (formatFunctionsToLangchainTools (FnArray functions)) in
        answer = Thrown error
        \/ (exists chunks,
              answer
              = Returned {| stream_chunks := chunks; stream_failure := Some error |}) ->
        fst (bedrock_stream_native JSON_parse JSON_stringify v4 concat
               errorToHumanReadable client_stream bedrock_model messages functions
               drawn)
        = match errorToHumanReadable error "stream" bedrock_model with
          | Thrown thrown => Thrown thrown
          | Returned _ => Returned None
          end)
  /\ (forall (client_invoke : list LangchainMessage -> list Tool -> Outcome LcChunk)
             (bedrock_model : string),
        client_invoke
          (fst (convertToLangchainPrototypesWithTools JSON_parse JSON_stringify v4
                  messages drawn))
          (formatFunctionsToLangchainTools (FnArray functions)) = Thrown error ->
        bedrock_complete_native JSON_parse JSON_stringify v4 errorToHumanReadable
          client_invoke bedrock_model messages functions drawn
        = match errorToHumanReadable error "complete" bedrock_model with
          | Thrown thrown => Thrown thrown
          | Returned _ => Returned None
          end).
Proof.
  cbn zeta.
  assert (Hclass :
    rethrown error
    = match err_class error with
      | AuthenticationError => error
      | RateLimitError | InternalServerError | OtherAPIError =>
          {| err_class := RetryError; err_message := err_message error |}
      | RetryError | OtherError => error
      end).
  { unfold rethrown, instanceof_APIError. destruct (err_class error); reflexivity. }
  split; [| split; [| split; [| split]]].
  - intros Hnative Hollama Hbedrock.
    assert (Hpath :
      dispatch_path (dispatch env (preloadModel a) functions) = TooledHelpers).
    { revert Hnative. unfold dispatch.
      assert (Hprovider : provider (preloadModel a) = provider a).
      { destruct a as [p m cache pre]. destruct p; reflexivity. }
      rewrite Hprovider.
      destruct (provider a); try contradiction; try reflexivity;
        destruct (useNative env (preloadModel a) functions) as [[[|] a0] q];
        cbn; congruence. }
    split; [| split; [| split]].
    + intros create Hfails. unfold stream. rewrite Hpath.
      unfold tooledStream.
      destruct Hfails as [-> | (chunks & ->)];
        cbn [stream_failure srun_outcome srun_requests fx_request];
        rewrite Hclass; split; reflexivity.
    + intros depth sent create Hthrown. cbn [complete]. rewrite Hpath.
      unfold tooledComplete. rewrite Hthrown.
      cbn [run_outcome run_requests fx_request]. rewrite Hclass.
      split; reflexivity.
    + intros create Hthrown. unfold stream. rewrite Hpath.
      destruct (tooledStream JSON_parse JSON_stringify v4 create _ _ _ _ _)
        as [result fx].
      cbn [fst] in Hthrown. subst result. cbn [srun_outcome].
      rewrite Hclass. reflexivity.
    + intros depth sent create Hthrown. cbn [complete]. rewrite Hpath.
      destruct (tooledComplete JSON_parse JSON_stringify v4 (create sent) _ _ _ _ _ _)
        as [result fx].
      cbn [fst] in Hthrown. subst result. cbn [run_outcome].
      rewrite Hclass. reflexivity.
  - intros chat. cbn zeta. intros Hfails. unfold ollama_stream_native.
    destruct Hfails as [-> | (chunks & ->)]; reflexivity.
  - intros chat Hthrown. unfold ollama_complete_native. rewrite Hthrown. reflexivity.
  - intros client_stream bedrock_model. cbn zeta. intros Hfails.
    unfold bedrock_stream_native.
    destruct (convertToLangchainPrototypesWithTools JSON_parse JSON_stringify v4
                messages drawn) as [converted drawn1].
    cbn [fst] in Hfails.
    destruct Hfails as [-> | (chunks & ->)]; reflexivity.
  - intros client_invoke bedrock_model Hthrown.
    unfold bedrock_complete_native.
    destruct (convertToLangchainPrototypesWithTools JSON_parse JSON_stringify v4
                messages drawn) as [converted drawn1].
    cbn [fst] in Hthrown. rewrite Hthrown. reflexivity.
Qed.

End AdapterProperties.

(** ** Properties of the capability probe and of the dispatch *)

Lemma probe_answers_probe_values (env : Environment) (a : Adapter) (run : ProbeRun) :
  cache_from_probe a ->
  supportsNativeToolCalling env a = Some run ->
  probe_value (probe_answer run) /\ cache_from_probe (probe_adapter run).
Proof.
  unfold cache_from_probe, supportsNativeToolCalling, probe_value.
  destruct a as [p m cache pre]; cbn.
  destruct p; intros Hcache [= <-];
    unfold probe_lemonade, probe_capabilities, probe_env, env_includes; cbn;
    destruct cache as [cached|]; cbn; try (split; [exact Hcache | exact Hcache]);
    try (split; [tauto | exact Hcache]).
  all: try (destruct (PROVIDER_SUPPORTS_NATIVE_TOOL_CALLING env) as [flag|]; cbn;
            try destruct (includes flag _); cbn).
  all: try (destruct (is_true (capabilities_tools env))).
  all: cbn; split; tauto.
Qed.

(** C7 (as the code has it): the probe never answers the string
    [unknown]; its first answer is cached for the adapter's lifetime,
    every later call returning it without any query, whatever the
    environment has become; and each adapter resolves in its own way.
    Lemonade resolves from the environment flag naming it first, and
    otherwise from one query of the model's capabilities, [false]
    unless they report [tools] as [true]; LM Studio, Docker Model
    Runner and Ollama resolve from that query alone; OpenRouter,
    LocalAI, generic OpenAI and Bedrock resolve from the flag alone,
    without a query: when the variable is set, [true] exactly when it
    includes the adapter's own name; DeepSeek answers [true]. *)
Theorem C7_probe_answer_cached
    (env : Environment) (a : Adapter) (run : ProbeRun)
    (Hrun : supportsNativeToolCalling env a = Some run) :
  let from_capabilities :=
    probe_queries run = 1
    /\ (capabilities_tools env = JBool true -> probe_answer run = JBool true)
    /\ (capabilities_tools env <> JBool true -> probe_answer run = JBool false) in
  let from_flag (label : string) :=
    probe_queries run = 0
    /\ (forall flag,
          PROVIDER_SUPPORTS_NATIVE_TOOL_CALLING env = Some flag ->
          probe_answer run = JBool (includes flag label)) in
  (forall env',
      supportsNativeToolCalling env' (probe_adapter run)
      = Some {| probe_answer := probe_answer run;
                probe_adapter := probe_adapter run;
                probe_queries := 0 |})
  /\ (_supportsToolCalling a = None -> probe_answer run <> JStr "unknown")
  /\ (provider a = Lemonade -> _supportsToolCalling a = None ->
      (forall flag,
          PROVIDER_SUPPORTS_NATIVE_TOOL_CALLING env = Some flag ->
          includes flag "lemonade" = true ->
          probe_answer run = JBool true /\ probe_queries run = 0)
      /\ ((forall flag,
              PROVIDER_SUPPORTS_NATIVE_TOOL_CALLING env = Some flag ->
              includes flag "lemonade" = false) ->
          from_capabilities))
  /\ (provider a = LMStudio \/ provider a = DockerModelRunner \/ provider a = Ollama ->
      _supportsToolCalling a = None -> from_capabilities)
  /\ (_supportsToolCalling a = None ->
      (provider a = OpenRouter -> from_flag "openrouter")
      /\ (provider a = LocalAi -> from_flag "localai")
      /\ (provider a = GenericOpenAi -> from_flag "generic-openai")
      /\ (provider a = AWSBedrock -> from_flag "bedrock"))
  /\ (provider a = DeepSeek ->
      probe_answer run = JBool true /\ probe_queries run = 0).
Proof.
  cbn zeta.
  assert (Hcap : forall answer : JValue,
    answer = JBool (is_true (capabilities_tools env)) ->
    (capabilities_tools env = JBool true -> answer = JBool true)
    /\ (capabilities_tools env <> JBool true -> answer = JBool false)).
  { intros answer ->. split.
    - intros ->. reflexivity.
    - intros Hne. destruct (capabilities_tools env) as [| |[|]| | | |];
        try reflexivity. contradiction. }
  split; [| split; [| split; [| split; [| split]]]].
  - intros env'. revert Hrun.
    unfold supportsNativeToolCalling.
    destruct a as [p m cache pre]; cbn.
    destruct p; intros [= <-];
      unfold probe_lemonade, probe_capabilities, probe_env; cbn;
      destruct cache as [cached|]; cbn; try reflexivity.
    destruct (truthy (env_includes env "lemonade")); reflexivity.
  - intros Hnone.
    assert (Hvalue : probe_value (probe_answer run)).
    { eapply probe_answers_probe_values; [| exact Hrun].
      unfold cache_from_probe. rewrite Hnone. exact I. }
    destruct Hvalue as [-> | [-> | ->]]; discriminate.
  - intros Hp Hnone. revert Hrun. unfold supportsNativeToolCalling.
    rewrite Hp. intros [= <-]. unfold probe_lemonade, env_includes. rewrite Hnone.
    split.
    + intros flag -> Hin. cbn [truthy]. rewrite Hin. split; reflexivity.
    + intros Hout.
      destruct (PROVIDER_SUPPORTS_NATIVE_TOOL_CALLING env) as [flag|].
      * cbn [truthy]. rewrite (Hout flag eq_refl). cbn [probe_queries probe_answer].
        split; [reflexivity |]. apply Hcap. reflexivity.
      * cbn [truthy probe_queries probe_answer].
        split; [reflexivity |]. apply Hcap. reflexivity.
  - intros Hp Hnone. revert Hrun. unfold supportsNativeToolCalling.
    destruct Hp as [-> | [-> | ->]]; intros [= <-];
      unfold probe_capabilities; rewrite Hnone; cbn [probe_queries probe_answer];
      (split; [reflexivity |]); apply Hcap; reflexivity.
  - intros Hnone.
    (split; [| split; [| split]]);
      intros Hp; revert Hrun; unfold supportsNativeToolCalling;
      rewrite Hp; intros [= <-]; unfold probe_env, env_includes; rewrite Hnone;
      cbn [probe_queries probe_answer];
      (split; [reflexivity | intros flag ->; reflexivity]).
  - intros Hp. revert Hrun. unfold supportsNativeToolCalling.
    rewrite Hp. intros [= <-]. split; reflexivity.
Qed.

(** C6 (as the code has it): for every adapter but the Azure one, a
    native tool-call path is taken if and only if the function list is
    not empty and the capability probe answers [true]; a tool-free
    request takes the adapter's emulated path without running the
    probe.  The Azure adapter has no probe and no emulated path: it
    always runs the shared helpers. *)
Theorem C6_native_iff_functions_and_probe
    (env : Environment) (a : Adapter) (functions : list FunctionDef) :
  (provider a <> AzureOpenAi ->
   cache_from_probe a ->
   (is_native (dispatch_path (dispatch env a functions)) = true
    <-> functions <> []
        /\ exists run,
             supportsNativeToolCalling env a = Some run
             /\ probe_answer run = JBool true)
   /\ (functions = [] ->
       dispatch_path (dispatch env a functions) = fallback_path (provider a)
       /\ is_native (dispatch_path (dispatch env a functions)) = false
       /\ dispatch_queries (dispatch env a functions) = 0
       /\ dispatch_adapter (dispatch env a functions) = a))
  /\ (provider a = AzureOpenAi ->
      dispatch_path (dispatch env a functions) = TooledHelpers).
Proof.
  split.
  - intros Hnot_azure Hcache. split.
    + assert (Hshape :
        dispatch_path (dispatch env a functions)
        = if fst (fst (useNative env a functions))
          then native_path (provider a) else fallback_path (provider a)).
      { unfold dispatch. destruct (provider a) eqn:Hp;
          try (destruct (useNative env a functions) as [[nat' a'] q]; reflexivity).
        contradiction. }
      rewrite Hshape. unfold useNative.
      destruct functions as [|f fs]; cbn [List.length Nat.ltb Nat.leb fst].
      * split.
        -- destruct (provider a); discriminate.
        -- intros [Hne _]. contradiction.
      * destruct (supportsNativeToolCalling env a) as [run|] eqn:Hrun.
        -- destruct (probe_answers_probe_values env a run Hcache Hrun) as [Hv _].
           cbn [fst].
           split.
           ++ intros Hnative. split; [discriminate |].
              exists run. split; [reflexivity |].
              destruct Hv as [Hv | [Hv | Hv]]; [exact Hv | |];
                rewrite Hv in Hnative; cbn in Hnative;
                destruct (provider a); discriminate.
           ++ intros [_ (run' & [= <-] & Htrue)]. rewrite Htrue. cbn.
              destruct (provider a); reflexivity.
        -- cbn [fst]. split.
           ++ destruct (provider a); discriminate.
           ++ intros [_ (run' & Hcontra & _)]. discriminate.
    + intros ->. unfold dispatch, useNative. cbn.
      destruct (provider a); try contradiction; cbn; repeat split; reflexivity.
  - intros Hazure. unfold dispatch. rewrite Hazure. reflexivity.
Qed.

(** ** Properties of the history reconciliation *)

Section FormatProperties.

Variable JSON_stringify : JValue -> string.
Variable v4 : nat -> string.

(** Every turn of the loop appends to the formatted history, at least
    one message, and what it appends depends on the history only
    through the test on its last message. *)
Lemma formatMessage_appends (inject : bool) (formatted : list Message)
    (drawn : nat) (message : Message) :
  exists pushed,
    pushed <> []
    /\ formatMessage JSON_stringify v4 inject (formatted, drawn) message
       = (formatted ++ pushed, snd (formatMessage JSON_stringify v4 inject ([], drawn) message))
    /\ (needs_assistant_call (last formatted) = true ->
        fst (formatMessage JSON_stringify v4 inject ([], drawn) message) = pushed).
Proof.
  unfold formatMessage.
  destruct (String.eqb (role message) "function").
  - destruct (truthy_call_id message) as [[id ofc]|].
    + eexists. split; [| split; [reflexivity |]].
      * destruct (needs_assistant_call (last formatted)); discriminate.
      * intros ->. reflexivity.
    + eexists. split; [| split; [reflexivity |]]; [discriminate |].
      intros _. reflexivity.
  - destruct (inject && String.eqb (role message) "assistant"
              && negb (bool_decide (is_Some (reasoning_content message)))).
    + eexists. split; [| split; [reflexivity |]]; [discriminate |].
      intros _. reflexivity.
    + eexists. split; [| split; [reflexivity |]]; [discriminate |].
      intros _. reflexivity.
Qed.

Lemma last_app_nonempty (l1 l2 : list Message) :
  l2 <> [] -> last (l1 ++ l2) = last l2.
Proof.
  intros Hne. destruct l2 as [|x l2 _] using rev_ind; [contradiction |].
  rewrite app_assoc, !last_snoc. reflexivity.
Qed.

(** The loop run on top of a non-empty tail of formatted messages does
    not look below that tail. *)
Lemma fold_format_shift (inject : bool) (post : list Message) :
  forall (below tail : list Message) (drawn : nat),
    tail <> [] ->
    fold_left (formatMessage JSON_stringify v4 inject) post (below ++ tail, drawn)
    = (below ++ fst (fold_left (formatMessage JSON_stringify v4 inject) post (tail, drawn)),
       snd (fold_left (formatMessage JSON_stringify v4 inject) post (tail, drawn))).
Proof.
  induction post as [|m post IH]; intros below tail drawn Hne; cbn [fold_left].
  - reflexivity.
  - destruct (formatMessage_appends inject tail drawn m)
      as (pushed & Hpushed & Htail & _).
    destruct (formatMessage_appends inject (below ++ tail) drawn m)
      as (pushed' & _ & Hall & _).
    assert (Hsame : pushed' = pushed).
    { revert Hall Htail. unfold formatMessage.
      rewrite (last_app_nonempty below tail Hne).
      destruct (String.eqb (role m) "function");
        [destruct (truthy_call_id m) as [[id ofc]|] |
         destruct (inject && String.eqb (role m) "assistant"
                   && negb (bool_decide (is_Some (reasoning_content m))))];
        intros [= H1] [= H2];
        apply app_inv_head in H1; apply app_inv_head in H2; congruence. }
    subst pushed'. rewrite Hall, Htail.
    rewrite <- app_assoc. apply IH.
    destruct tail; [contradiction | discriminate].
Qed.

(** After a message that needs no look at its predecessor, the rest of
    the history is formatted as if it stood alone. *)
Lemma fold_format_restart (inject : bool) (post : list Message)
    (formatted : list Message) (drawn : nat) :
  needs_assistant_call (last formatted) = true ->
  fold_left (formatMessage JSON_stringify v4 inject) post (formatted, drawn)
  = (formatted ++ fst (fold_left (formatMessage JSON_stringify v4 inject) post ([], drawn)),
     snd (fold_left (formatMessage JSON_stringify v4 inject) post ([], drawn))).
Proof.
  intros Hprev. destruct post as [|m post]; cbn [fold_left].
  - cbn. rewrite app_nil_r. reflexivity.
  - destruct (formatMessage_appends inject formatted drawn m)
      as (pushed & Hpushed & Hstep & Halone).
    specialize (Halone Hprev).
    rewrite Hstep.
    rewrite (surjective_pairing (formatMessage JSON_stringify v4 inject ([], drawn) m)).
    rewrite Halone.
    rewrite (fold_format_shift inject post formatted pushed _ Hpushed).
    reflexivity.
Qed.

Lemma formatMessagesForTools_from_app (pre post : list Message)
    (options : FormatOptions) (drawn : nat) :
  formatMessagesForTools_from JSON_stringify v4 (pre ++ post) options drawn
  = fold_left (formatMessage JSON_stringify v4 (injectReasoningContent options)) post
      (formatMessagesForTools_from JSON_stringify v4 pre options drawn).
Proof. unfold formatMessagesForTools_from. apply fold_left_app. Qed.

(** C2 (as the code has it): a [function]-role message whose
    [originalFunctionCall] has a non-empty id is expanded in place,
    between the formatted messages before it and those after it, into
    one [tool] message referencing that id, preceded by one assistant
    message whose single tool call has that id, unless the formatted
    message just before it is an assistant message with [tool_calls],
    in which case the [tool] message stands alone; a non-function
    message is passed through unchanged, except that under
    [injectReasoningContent] an assistant message without
    [reasoning_content] receives an empty one; and formatting a longer
    history only appends to the formatting of a shorter one. *)
Theorem C2_function_messages_expand_in_place
    (options : FormatOptions) (drawn : nat) (pre : list Message) (m : Message) :
  let before := formatMessagesForTools JSON_stringify v4 pre options drawn in
  (forall (post : list Message) (id : string) (ofc : OriginalFunctionCall),
      role m = "function" ->
      originalFunctionCall m = Some ofc ->
      ofc_id ofc = Some id ->
      id <> EmptyString ->
      let call_message :=
        {| role := "assistant"; content := JNull; name := None;
           originalFunctionCall := None;
           reasoning_content :=
             if injectReasoningContent options then Some EmptyString else None;
           tool_calls :=
             Some [ {| mtc_id := id; mtc_type := "function";
                       mtc_name := ofc_name ofc;
                       mtc_arguments :=
                         match ofc_arguments ofc with
                         | JStr text => JStr text
                         | JUndefined => JUndefined
                         | value => JStr (JSON_stringify value)
                         end |} ];
           tool_call_id := None |} in
      let result_message :=
        {| role := "tool";
           content :=
             match content m with
             | JStr text => JStr text
             | JUndefined => JUndefined
             | value => JStr (JSON_stringify value)
             end;
           name := None; originalFunctionCall := None;
           reasoning_content := None; tool_calls := None;
           tool_call_id := Some id |} in
      let after :=
        formatMessagesForTools JSON_stringify v4 post options
          (snd (formatMessagesForTools_from JSON_stringify v4 pre options drawn)) in
      (ends_with_tool_calls before ->
       formatMessagesForTools JSON_stringify v4 (pre ++ m :: post) options drawn
       = before ++ [result_message] ++ after)
      /\ (~ ends_with_tool_calls before ->
          formatMessagesForTools JSON_stringify v4 (pre ++ m :: post) options drawn
          = before ++ [call_message; result_message] ++ after))
  /\ (role m <> "function" ->
      formatMessagesForTools JSON_stringify v4 (pre ++ [m]) options drawn
      = before
        ++ [if injectReasoningContent options
               && String.eqb (role m) "assistant"
               && negb (bool_decide (is_Some (reasoning_content m)))
            then with_empty_reasoning m else m])
  /\ (forall post : list Message,
        exists appended,
          formatMessagesForTools JSON_stringify v4 (pre ++ post) options drawn
          = before ++ appended).
Proof.
  cbn zeta. split; [| split].
  - intros post id ofc Hrole Hofc Hid Hne.
    assert (Htruthy : truthy_call_id m = Some (id, ofc)).
    { unfold truthy_call_id. rewrite Hofc, Hid. cbn [truthy_str].
      destruct (String.eqb_spec id EmptyString) as [Heq | _];
        [contradiction | reflexivity]. }
    assert (Hall :
      formatMessagesForTools JSON_stringify v4 (pre ++ m :: post) options drawn
      = formatMessagesForTools JSON_stringify v4 pre options drawn
        ++ (if needs_assistant_call
                 (last (formatMessagesForTools JSON_stringify v4 pre options drawn))
            then [assistant_call (injectReasoningContent options) id (ofc_name ofc)
                    (string_or_stringify JSON_stringify (ofc_arguments ofc))]
            else [])
        ++ [tool_result JSON_stringify id (content m)]
        ++ formatMessagesForTools JSON_stringify v4 post options
             (snd (formatMessagesForTools_from JSON_stringify v4 pre options drawn))).
    { unfold formatMessagesForTools.
      rewrite formatMessagesForTools_from_app. cbn [fold_left].
      destruct (formatMessagesForTools_from JSON_stringify v4 pre options drawn)
        as [formatted drawn'] eqn:Hpre.
      cbn [fst snd].
      unfold formatMessage at 2. rewrite Hrole, Htruthy.
      change (String.eqb "function" "function") with true. cbv iota.
      rewrite fold_format_restart.
      + cbn [fst]. unfold formatMessagesForTools_from.
        rewrite <- !app_assoc. reflexivity.
      + rewrite app_assoc, last_snoc. reflexivity. }
    rewrite Hall. unfold tool_result, assistant_call, string_or_stringify.
    split.
    + intros (previous & calls & Hlast & Hprev & Hcalls).
      unfold needs_assistant_call. rewrite Hlast, Hprev, Hcalls.
      change (String.eqb "assistant" "assistant") with true. cbn [negb orb app].
      destruct (content m); reflexivity.
    + intros Hnot.
      assert (Hneeds :
        needs_assistant_call
          (last (formatMessagesForTools JSON_stringify v4 pre options drawn)) = true).
      { unfold needs_assistant_call.
        destruct (last (formatMessagesForTools JSON_stringify v4 pre options drawn))
          as [previous|] eqn:Hlast; [| reflexivity].
        destruct (String.eqb_spec (role previous) "assistant") as [Hprev | _];
          [| reflexivity].
        destruct (tool_calls previous) as [calls|] eqn:Hcalls; [| reflexivity].
        exfalso. apply Hnot. exists previous, calls. auto. }
      rewrite Hneeds. cbn [app].
      destruct (content m); destruct (ofc_arguments ofc); reflexivity.
  - intros Hrole.
    unfold formatMessagesForTools.
    rewrite formatMessagesForTools_from_app. cbn [fold_left].
    destruct (formatMessagesForTools_from JSON_stringify v4 pre options drawn)
      as [formatted drawn'].
    cbn [fst]. unfold formatMessage.
    destruct (String.eqb_spec (role m) "function") as [Heq | _]; [contradiction |].
    destruct (injectReasoningContent options && String.eqb (role m) "assistant"
              && negb (bool_decide (is_Some (reasoning_content m)))); reflexivity.
  - intros post. unfold formatMessagesForTools.
    rewrite formatMessagesForTools_from_app.
    destruct (formatMessagesForTools_from JSON_stringify v4 pre options drawn)
      as [formatted drawn'].
    cbn [fst]. clear. revert formatted drawn'.
    induction post as [|x post IH]; intros formatted drawn'; cbn [fold_left].
    + exists []. cbn. rewrite app_nil_r. reflexivity.
    + destruct (formatMessage_appends (injectReasoningContent options)
                  formatted drawn' x) as (pushed & _ & -> & _).
      destruct (IH (formatted ++ pushed)
                  (snd (formatMessage JSON_stringify v4 (injectReasoningContent options) ([], drawn') x)))
        as (appended & ->).
      exists (pushed ++ appended). rewrite app_assoc. reflexivity.
Qed.

End FormatProperties.

(** ** Properties of the emulated path of the Ollama adapter *)

Section EmulationProperties.

Variable JSON_parse : string -> option JValue.
Variable JSON_stringify : JValue -> string.
Variable v4 : nat -> string.
Variable buildToolCallMessages : list Message -> list FunctionDef -> list Message.
Variable cleanMsgs : list Message -> list Message.
Variable validFuncCall : JValue -> list FunctionDef -> bool * string.
Variable isMCPTool : JValue -> list FunctionDef -> bool.
Variable chat : nat -> list Message -> Outcome (list OllamaChunk).
Variable now : nat -> Z.
Variable cooldownInMs : bool -> Z.
Variable lapsed : DuplicateCheck.

(** The accumulated text does not depend on the identifier of the
    events nor on the events reported so far. *)
Lemma callChunk_text (u u' : string) (stream : list OllamaChunk) :
  forall st st' : ThinkState,
    ts_textResponse st = ts_textResponse st' ->
    ts_reasoningText st = ts_reasoningText st' ->
    ts_textResponse (fold_left (callChunk u) stream st)
    = ts_textResponse (fold_left (callChunk u') stream st').
Proof.
  induction stream as [|chunk stream IH]; intros st st' Htext Hreason;
    cbn [fold_left]; [exact Htext |].
  apply IH; unfold callChunk;
    destruct (oc_message chunk) as [message|]; try assumption;
    rewrite Hreason, Htext;
    destruct (truthy_str (om_thinking message));
    destruct (is_empty (ts_reasoningText st'));
    destruct (is_empty (om_content message)); cbn; congruence.
Qed.



End EmulationProperties.

(** ** The concrete JSON reader and writer on sample texts *)

Example json_parse_cats :
  JsonText.json_parse ("{" +:+ quoted "q" +:+ ":" +:+ quoted "cats" +:+ "}")
  = Some (JObj [("q", JStr "cats")]).
Proof. vm_compute. reflexivity. Qed.

Example json_parse_nested :
  JsonText.json_parse ("{" +:+ quoted "a" +:+ ": [1, -2, {}], " +:+ quoted "b" +:+ ": null}")
  = Some (JObj [("a", JArr [JNum 1; JNum (-2); JObj []]); ("b", JNull)]).
Proof. vm_compute. reflexivity. Qed.

Example json_parse_truncated :
  JsonText.json_parse ("{" +:+ quoted "q" +:+ ":") = None.
Proof. vm_compute. reflexivity. Qed.

Example json_stringify_cats :
  JsonText.json_stringify (JObj [("q", JStr "cats"); ("n", JNum 12)])
  = "{" +:+ quoted "q" +:+ ":" +:+ quoted "cats" +:+ "," +:+ quoted "n" +:+ ":12}".
Proof. vm_compute. reflexivity. Qed.

(** ** The model run on concrete inputs *)

Lemma C5_witness :
  formatFunctionsToTools (FnArray []) = []
  /\ (forall create model messages options drawn,
        req_tools
          (fx_request
             (snd (tooledStream JsonText.json_parse JsonText.json_stringify uuid
                     create model messages (FnArray []) options drawn)))
        = None)
  /\ (forall create model messages getCostFn options drawn,
        req_tools
          (fx_request
             (snd (tooledComplete JsonText.json_parse JsonText.json_stringify uuid
                     create model messages (FnArray []) getCostFn options drawn)))
        = None).
Proof.
  apply (C5_empty_definitions_omit_tools_field JsonText.json_parse
           JsonText.json_stringify uuid (FnArray [])).
  reflexivity.
Defined.

Lemma C1_witness :
  exists i acc,
    st_toolCallsByIndex (consume (uuid 0) malformed_call_chunks) !! i = Some acc
    /\ (forall j,
          is_Some (st_toolCallsByIndex (consume (uuid 0) malformed_call_chunks) !! j) ->
          i <= j)
    /\ fst (tooledStream JsonText.json_parse JsonText.json_stringify uuid
              (fun _ => Returned (ended malformed_call_chunks)) "model"
              [user_message "find cats"] (FnArray [search_function])
              default_options 0)
       = Returned
           {| sr_textResponse := st_text (consume (uuid 0) malformed_call_chunks);
              sr_functionCall :=
                Some {| fc_id := acc_id acc;
                        fc_name := Some (acc_name acc);
                        fc_arguments :=
                          match JsonText.json_parse (acc_arguments acc) with
                          | Some parsed => parsed
                          | None => JObj []
                          end |} |}.
Proof.
  apply (C1_lowest_index_call_with_fallback_arguments JsonText.json_parse
           JsonText.json_stringify uuid
           (fun _ => Returned (ended malformed_call_chunks)) "model"
           [user_message "find cats"] (FnArray [search_function])
           default_options 0 malformed_call_chunks).
  - reflexivity.
  - intros Hempty.
    apply (f_equal (fun byIndex : gmap nat Accumulator => byIndex !! 0)) in Hempty.
    vm_compute in Hempty. discriminate.
Defined.

(** C1, as stated, fails: the arguments of the only tool call are not
    JSON, and the result still has a tool call, with empty arguments. *)
Lemma C1_counterexample :
  JsonText.json_parse "q=cats" = None
  /\ fst (tooledStream JsonText.json_parse JsonText.json_stringify uuid
            (fun _ => Returned (ended malformed_call_chunks)) "model"
            [user_message "find cats"] (FnArray [search_function])
            default_options 0)
     = Returned
         {| sr_textResponse := EmptyString;
            sr_functionCall :=
              Some {| fc_id := "c1"; fc_name := Some "search";
                      fc_arguments := JObj [] |} |}
  /\ function_call_of
       (fst (tooledStream JsonText.json_parse JsonText.json_stringify uuid
               (fun _ => Returned (ended malformed_call_chunks)) "model"
               [user_message "find cats"] (FnArray [search_function])
               default_options 0))
     <> None.
Proof.
  split; [vm_compute; reflexivity |].
  split; [vm_compute; reflexivity |].
  vm_compute. discriminate.
Qed.

Lemma C4_witness :
  function_call_of
    (fst (tooledStream JsonText.json_parse JsonText.json_stringify uuid
            (fun _ => Returned (ended search_cats_chunks)) "model"
            [user_message "find cats"] (FnArray [search_function])
            default_options 0))
  = function_call_of
      (fst (tooledStream JsonText.json_parse JsonText.json_stringify uuid
              (fun _ =>
                 Returned
                   (ended
                      (whole_call_chunks (Some 0) "c1" "search"
                         ("{" +:+ quoted "q" +:+ ":" +:+ quoted "cats" +:+ "}"))))
              "model" [user_message "find cats"] (FnArray [search_function])
              default_options 0)).
Proof.
  refine (proj1 (proj1 (C4_fragmentation_invariant JsonText.json_parse
                          JsonText.json_stringify uuid)
                   (fun _ => Returned (ended search_cats_chunks))
                   (fun _ =>
                      Returned
                        (ended
                           (whole_call_chunks (Some 0) "c1" "search"
                              ("{" +:+ quoted "q" +:+ ":" +:+ quoted "cats" +:+ "}"))))
                   "model" [user_message "find cats"] (FnArray [search_function])
                   default_options 0 search_cats_chunks (Some 0) "c1"
                   [(Some "search", None);
                    (None, Some ("{" +:+ quoted "q" +:+ ":"));
                    (None, Some (quoted "cats" +:+ "}"))]
                   _ _ _ _)).
  - discriminate.
  - reflexivity.
  - reflexivity.
  - reflexivity.
Defined.

Lemma C3_witness :
  run_outcome
    (complete JsonText.json_parse JsonText.json_stringify uuid no_other_complete 3
       bare_environment always_malformed 0 (new_adapter AzureOpenAi "gpt")
       [user_message "find cats"] [search_function] 0) = None
  /\ List.length
       (run_requests
          (complete JsonText.json_parse JsonText.json_stringify uuid
             no_other_complete 3 bare_environment always_malformed 0
             (new_adapter AzureOpenAi "gpt") [user_message "find cats"]
             [search_function] 0)) = 3.
Proof.
  apply (proj1 (proj2 (proj2 (C3_retry_signal_reinvokes_without_bound
                                JsonText.json_parse JsonText.json_stringify uuid
                                no_other_complete)))).
  - reflexivity.
  - intros n request. eexists. split; [reflexivity |].
    unfold malformed_first_call, response_with_calls.
    eexists _, _, _, _.
    split; [reflexivity |]. split; [reflexivity |]. vm_compute. reflexivity.
Defined.

(** C3, as stated, fails: after the first request and a first
    re-invocation for a malformed payload, the same payload makes
    [complete] invoke itself again, and again. *)
Lemma C3_counterexample :
  (forall n request,
      always_malformed n request
      = Returned (response_with_calls "text" [call_obj "c1" "search" "q=cats"]))
  /\ JsonText.json_parse "q=cats" = None
  /\ List.length
       (run_requests
          (complete JsonText.json_parse JsonText.json_stringify uuid
             no_other_complete 4 bare_environment always_malformed 0
             (new_adapter AzureOpenAi "gpt") [user_message "find cats"]
             [search_function] 0)) = 4
  /\ run_outcome
       (complete JsonText.json_parse JsonText.json_stringify uuid
          no_other_complete 4 bare_environment always_malformed 0
          (new_adapter AzureOpenAi "gpt") [user_message "find cats"]
          [search_function] 0) = None.
Proof.
  split; [reflexivity |].
  split; [vm_compute; reflexivity |].
  split; vm_compute; reflexivity.
Qed.

Lemma C10_witness :
  fst (tooledComplete JsonText.json_parse JsonText.json_stringify uuid
         (fun _ =>
            Returned
              (response_with_calls "Let me search."
                 [call_obj "c1" "search"
                    ("{" +:+ quoted "q" +:+ ":" +:+ quoted "cats" +:+ "}")]))
         "model" [user_message "find cats"] (FnArray [search_function])
         getCost default_options 0)
  = Returned {| cr_textResponse := None;
                cr_functionCall :=
                  Some {| fc_id := "c1"; fc_name := Some "search";
                          fc_arguments := JObj [("q", JStr "cats")] |};
                cr_retryWithError := None;
                cr_cost := getCost JNull |}.
Proof.
  apply (proj1 (C10_first_call_returned_without_text JsonText.json_parse
                  JsonText.json_stringify uuid)
           _ "model" [user_message "find cats"] (FnArray [search_function])
           getCost default_options 0
           {| cm_content := Some "Let me search.";
              cm_tool_calls :=
                Some [call_obj "c1" "search"
                        ("{" +:+ quoted "q" +:+ ":" +:+ quoted "cats" +:+ "}")] |}
           [] JNull
           (call_obj "c1" "search"
              ("{" +:+ quoted "q" +:+ ":" +:+ quoted "cats" +:+ "}"))
           [] (JObj [("q", JStr "cats")])).
  - reflexivity.
  - reflexivity.
  - vm_compute. reflexivity.
  - discriminate.
Defined.

(** C10, as stated, fails twice: a response with a tool call whose
    arguments parse, but not as its first one, gives no tool call; and
    so does a response whose first tool call has the arguments [null],
    which parse as JSON. *)
Lemma C10_counterexample :
  (JsonText.json_parse "q=cats" = None
   /\ JsonText.json_parse "{}" = Some (JObj [])
   /\ fst (tooledComplete JsonText.json_parse JsonText.json_stringify uuid
             (fun _ =>
                Returned
                  (response_with_calls "text"
                     [call_obj "c1" "search" "q=cats";
                      call_obj "c2" "lookup" "{}"]))
             "model" [user_message "find cats"] (FnArray [search_function])
             getCost default_options 0)
      = Returned {| cr_textResponse := None;
                    cr_functionCall := None;
                    cr_retryWithError :=
                      Some (retry_message (call_obj "c1" "search" "q=cats"));
                    cr_cost := 0 |})
  /\ (JsonText.json_parse "null" = Some JNull
      /\ fst (tooledComplete JsonText.json_parse JsonText.json_stringify uuid
                (fun _ =>
                   Returned (response_with_calls "text" [call_obj "c1" "search" "null"]))
                "model" [user_message "find cats"] (FnArray [search_function])
                getCost default_options 0)
         = Returned {| cr_textResponse := None;
                       cr_functionCall := None;
                       cr_retryWithError :=
                         Some (retry_message (call_obj "c1" "search" "null"));
                       cr_cost := 0 |}).
Proof.
  split; [split; [| split] | split]; vm_compute; reflexivity.
Qed.

Lemma C8_witness :
  srun_outcome
    (stream JsonText.json_parse JsonText.json_stringify uuid no_other_stream
       lemonade_enabled
       (fun _ =>
          Returned {| stream_chunks := [text_chunk "Let me"];
                      stream_failure := Some slow_down |})
       (new_adapter Lemonade "llama") [user_message "find cats"]
       [search_function] 0)
  = Thrown {| err_class := RetryError; err_message := "slow down" |}
  /\ srun_requests
       (stream JsonText.json_parse JsonText.json_stringify uuid no_other_stream
          lemonade_enabled
          (fun _ =>
             Returned {| stream_chunks := [text_chunk "Let me"];
                         stream_failure := Some slow_down |})
          (new_adapter Lemonade "llama") [user_message "find cats"]
          [search_function] 0)
     = [tooledStream_request JsonText.json_stringify uuid "llama"
          [user_message "find cats"] (FnArray [search_function]) default_options 0].
Proof.
  apply (proj1 (proj1 (C8_errors_classified_and_never_retried JsonText.json_parse
                         JsonText.json_stringify uuid no_other_complete
                         no_other_stream keep_latest readable_error
                         lemonade_enabled (new_adapter Lemonade "llama")
                         [user_message "find cats"] [search_function] 0 slow_down)
                  eq_refl ltac:(discriminate) ltac:(discriminate))).
  right. eexists. reflexivity.
Defined.

(** C8, as stated, fails: the Ollama adapter takes its native path, and
    a rate-limit error raised there, by [stream] or by [complete], is
    thrown as it is and not as a [RetryError]. *)
Lemma C8_counterexample :
  is_native
    (dispatch_path
       (dispatch capable_environment (preloadModel (new_adapter Ollama "llama3"))
          [search_function]))
  = true
  /\ fst (ollama_stream_native JsonText.json_parse JsonText.json_stringify uuid
            (fun _ _ => Thrown slow_down) [user_message "find cats"]
            [search_function] 0)
     = Thrown slow_down
  /\ ollama_complete_native JsonText.json_parse JsonText.json_stringify uuid
       (fun _ _ => Thrown slow_down) [user_message "find cats"] [search_function] 0
     = Thrown slow_down
  /\ srun_outcome
       (stream JsonText.json_parse JsonText.json_stringify uuid
          (ollama_stream_paths (fun _ _ => Thrown slow_down) 0)
          capable_environment (fun _ => Returned (ended []))
          (new_adapter Ollama "llama3") [user_message "find cats"]
          [search_function] 0)
     = Thrown slow_down
  /\ run_outcome
       (complete JsonText.json_parse JsonText.json_stringify uuid
          (ollama_complete_paths (fun _ _ => Thrown slow_down) 0)
          1 capable_environment (fun _ _ => Returned (response_with_calls "ok" []))
          0 (new_adapter Ollama "llama3") [user_message "find cats"]
          [search_function] 0)
     = Some (Thrown slow_down)
  /\ err_class slow_down = RateLimitError
  /\ slow_down <> {| err_class := RetryError; err_message := "slow down" |}.
Proof.
  split; [reflexivity |]. split; [reflexivity |]. split; [reflexivity |].
  split; [vm_compute; reflexivity |]. split; [vm_compute; reflexivity |].
  split; [reflexivity | discriminate].
Qed.

Lemma C6_witness :
  is_native
    (dispatch_path
       (dispatch lemonade_enabled (new_adapter Lemonade "llama") [search_function]))
  = true
  <-> [search_function] <> []
      /\ exists run,
           supportsNativeToolCalling lemonade_enabled (new_adapter Lemonade "llama")
           = Some run
           /\ probe_answer run = JBool true.
Proof.
  apply (proj1 (C6_native_iff_functions_and_probe lemonade_enabled
                  (new_adapter Lemonade "llama") [search_function])).
  - discriminate.
  - exact I.
Defined.

(** C6, as stated, fails: the Azure adapter runs the native driver for
    a request without functions, and sends it upstream. *)
Lemma C6_counterexample :
  dispatch_path (dispatch bare_environment (new_adapter AzureOpenAi "gpt") [])
  = TooledHelpers
  /\ is_native
       (dispatch_path (dispatch bare_environment (new_adapter AzureOpenAi "gpt") []))
     = true
  /\ List.length
       (srun_requests
          (stream JsonText.json_parse JsonText.json_stringify uuid no_other_stream
             bare_environment (fun _ => Returned (ended []))
             (new_adapter AzureOpenAi "gpt") [user_message "hi"] [] 0)) = 1.
Proof.
  split; [reflexivity |]. split; [reflexivity |]. vm_compute. reflexivity.
Qed.

Lemma C7_witness :
  supportsNativeToolCalling bare_environment
    (probe_adapter (probe_lemonade lemonade_enabled (new_adapter Lemonade "llama")))
  = Some {| probe_answer := JBool true;
            probe_adapter :=
              probe_adapter
                (probe_lemonade lemonade_enabled (new_adapter Lemonade "llama"));
            probe_queries := 0 |}.
Proof.
  apply (proj1 (C7_probe_answer_cached lemonade_enabled
                  (new_adapter Lemonade "llama")
                  (probe_lemonade lemonade_enabled (new_adapter Lemonade "llama"))
                  eq_refl) bare_environment).
Defined.

(** C7, as stated, fails.  The resolution order is not followed:
    OpenRouter's probe sends no metadata query, so with a flag that
    does not name it and capabilities that report tool support it
    answers [false]; and no answer is [unknown]: where the
    capabilities report [unknown], Lemonade's probe answers [false],
    like every fresh probe whatever it observes. *)
Lemma C7_counterexample :
  supportsNativeToolCalling
    {| PROVIDER_SUPPORTS_NATIVE_TOOL_CALLING := Some "lemonade,localai";
       capabilities_tools := JBool true |}
    (new_adapter OpenRouter "openrouter/auto")
  = Some {| probe_answer := JBool false;
            probe_adapter :=
              {| provider := OpenRouter; model := "openrouter/auto";
                 _supportsToolCalling := Some (JBool false); preloaded := false |};
            probe_queries := 0 |}
  /\ (probe_answer <$>
        supportsNativeToolCalling
          {| PROVIDER_SUPPORTS_NATIVE_TOOL_CALLING := None;
             capabilities_tools := JStr "unknown" |}
          (new_adapter Lemonade "llama"))
     = Some (JBool false)
  /\ (forall env p m run,
        supportsNativeToolCalling env (new_adapter p m) = Some run ->
        probe_answer run <> JStr "unknown").
Proof.
  split; [vm_compute; reflexivity |]. split; [reflexivity |].
  intros env p m run Hrun.
  destruct p; revert Hrun; unfold supportsNativeToolCalling, new_adapter;
    cbn [provider]; try discriminate;
    unfold probe_lemonade, probe_capabilities, probe_env, env_includes;
    cbn [_supportsToolCalling];
    intros [= <-]; cbn [probe_answer];
    try discriminate;
    destruct (PROVIDER_SUPPORTS_NATIVE_TOOL_CALLING env) as [flag|];
    cbn [truthy]; try discriminate;
    destruct (includes flag _); cbn [probe_answer]; discriminate.
Qed.

Lemma C2_witness :
  formatMessagesForTools JsonText.json_stringify uuid
    ([user_message "find cats"]
       ++ function_message "c1" "search" "3 cats" :: [user_message "thanks"])
    default_options 0
  = [user_message "find cats"]
    ++ [ {| role := "assistant"; content := JNull; name := None;
            originalFunctionCall := None; reasoning_content := None;
            tool_calls :=
              Some [ {| mtc_id := "c1"; mtc_type := "function";
                        mtc_name := Some "search"; mtc_arguments := JStr "{}" |} ];
            tool_call_id := None |};
         {| role := "tool"; content := JStr "3 cats"; name := None;
            originalFunctionCall := None; reasoning_content := None;
            tool_calls := None; tool_call_id := Some "c1" |} ]
    ++ [user_message "thanks"].
Proof.
  apply (proj2 (proj1 (C2_function_messages_expand_in_place JsonText.json_stringify
                         uuid default_options 0 [user_message "find cats"]
                         (function_message "c1" "search" "3 cats"))
                  [user_message "thanks"] "c1"
                  {| ofc_id := Some "c1"; ofc_name := Some "search";
                     ofc_arguments := JObj [] |}
                  eq_refl eq_refl eq_refl ltac:(discriminate))).
  intros (previous & calls & Hlast & _ & Hcalls).
  vm_compute in Hlast. injection Hlast as <-. discriminate Hcalls.
Defined.

(** C2, as stated, fails: after an assistant message that already
    carries tool calls, the function message of the call [c1] is
    expanded into its [tool] message alone, and no assistant message
    carries the call [c1]; and under [injectReasoningContent] an
    assistant message is not passed through unchanged. *)
Lemma C2_counterexample :
  formatMessagesForTools JsonText.json_stringify uuid
    [assistant_with_call "c0" "lookup"; function_message "c1" "search" "3 cats"]
    default_options 0
  = [assistant_with_call "c0" "lookup";
     {| role := "tool"; content := JStr "3 cats"; name := None;
        originalFunctionCall := None; reasoning_content := None;
        tool_calls := None; tool_call_id := Some "c1" |}]
  /\ existsb (carries_call "c1")
       (formatMessagesForTools JsonText.json_stringify uuid
          [assistant_with_call "c0" "lookup"; function_message "c1" "search" "3 cats"]
          default_options 0)
     = false
  /\ formatMessagesForTools JsonText.json_stringify uuid
       [assistant_message "hello"] {| injectReasoningContent := true |} 0
     = [with_empty_reasoning (assistant_message "hello")]
  /\ with_empty_reasoning (assistant_message "hello") <> assistant_message "hello".
Proof.
  split; [vm_compute; reflexivity |].
  split; [vm_compute; reflexivity |].
  split; [vm_compute; reflexivity |].
  discriminate.
Qed.


(** Three turns of one session with a model that answers every prompt
    with the same call, a second apart: the call is accepted, then
    rejected as a duplicate, the turn ending with a text, then accepted
    again. *)
Example emulated_session_three_turns :
  let turn :=
    stream_emulated JsonText.json_parse JsonText.json_stringify uuid plain_prompt
      (fun messages => messages) every_call_valid no_mcp_tool repeating_chat
      steady_clock half_minute no_duplicate in
  let accepted :=
    Returned {| er_textResponse := None;
                er_functionCall := Some (JStr "search", JObj [("q", JStr "cats")]);
                er_cost := 0 |} in
  let '(first, _, s1) := turn new_session [user_message "find cats"] [search_function] in
  let '(second, _, s2) := turn s1 [user_message "find cats"] [search_function] in
  let '(third, _, _) := turn s2 [user_message "find cats"] [search_function] in
  first = accepted
  /\ second = Returned {| er_textResponse := Some search_call_text;
                          er_functionCall := None;
                          er_cost := 0 |}
  /\ third = accepted.
Proof. vm_compute. repeat split. Qed.

(** ** Further properties of the shared helpers *)

Section HelperExtras.

Variable JSON_parse : string -> option JValue.
Variable JSON_stringify : JValue -> string.
Variable v4 : nat -> string.

(** The property [P] holds of every message [formatMessagesForTools]
    returns as soon as it holds of the messages it synthesizes and is
    kept by its pass-through. *)
Lemma formatted_Forall (P : Message -> Prop) (inject : bool) :
  (forall id fname args, P (assistant_call inject id fname args)) ->
  (forall id c, P (tool_result JSON_stringify id c)) ->
  (forall m, role m <> "function" ->
             P (if inject && String.eqb (role m) "assistant"
                   && negb (bool_decide (is_Some (reasoning_content m)))
                then with_empty_reasoning m else m)) ->
  forall messages formatted drawn,
    Forall P formatted ->
    Forall P (fst (fold_left (formatMessage JSON_stringify v4 inject) messages
                     (formatted, drawn))).
Proof.
  intros Hcall Hresult Hpass.
  induction messages as [|m messages IH]; intros formatted drawn Hacc;
    cbn [fold_left]; [exact Hacc |].
  unfold formatMessage at 2.
  destruct (String.eqb_spec (role m) "function") as [Hrole | Hrole].
  - destruct (truthy_call_id m) as [[id ofc]|].
    + apply IH. rewrite !Forall_app. split; [exact Hacc |]. split.
      * destruct (needs_assistant_call (last formatted)); repeat constructor.
        apply Hcall.
      * repeat constructor. apply Hresult.
    + apply IH. rewrite Forall_app. split; [exact Hacc |].
      repeat constructor; [apply Hcall | apply Hresult].
  - specialize (Hpass m Hrole).
    destruct (inject && String.eqb (role m) "assistant"
              && negb (bool_decide (is_Some (reasoning_content m)))).
    + apply IH. rewrite Forall_app. split; [exact Hacc |].
      repeat constructor. exact Hpass.
    + apply IH. rewrite Forall_app. split; [exact Hacc |].
      repeat constructor. exact Hpass.
Qed.

(** A history without [function]-role messages, whose assistant
    messages all have a [reasoning_content] when it is asked for, is
    returned as it is, and draws no identifier. *)
Lemma format_settled (inject : bool) (messages : list Message) :
  Forall (fun m => role m <> "function"
                   /\ (inject = true -> role m = "assistant" ->
                       is_Some (reasoning_content m))) messages ->
  forall formatted drawn,
    fold_left (formatMessage JSON_stringify v4 inject) messages (formatted, drawn)
    = (formatted ++ messages, drawn).
Proof.
  induction 1 as [|m messages [Hrole Hreason] _ IH]; intros formatted drawn;
    cbn [fold_left].
  - rewrite app_nil_r. reflexivity.
  - unfold formatMessage at 2.
    destruct (String.eqb_spec (role m) "function") as [Heq | _]; [contradiction |].
    assert (Hskip : inject && String.eqb (role m) "assistant"
                    && negb (bool_decide (is_Some (reasoning_content m))) = false).
    { destruct inject; [| reflexivity].
      destruct (String.eqb_spec (role m) "assistant") as [Ha | _]; [| reflexivity].
      cbn. rewrite bool_decide_eq_true_2; [reflexivity | auto]. }
    rewrite Hskip, IH, <- app_assoc. reflexivity.
Qed.

(** Every message of a formatted history is settled: it is no
    [function]-role message, and when a [reasoning_content] is asked
    for, every assistant message has one. *)
Lemma formatted_settled (messages : list Message) (options : FormatOptions)
    (drawn : nat) :
  Forall (fun m => role m <> "function"
                   /\ (injectReasoningContent options = true ->
                       role m = "assistant" -> is_Some (reasoning_content m)))
    (formatMessagesForTools JSON_stringify v4 messages options drawn).
Proof.
  unfold formatMessagesForTools, formatMessagesForTools_from.
  apply formatted_Forall; [| | | constructor].
  - intros id fname args. split; [discriminate |].
    intros Hinject _. cbn. rewrite Hinject. eauto.
  - intros id c. split; [discriminate |]. intros _. discriminate.
  - intros m Hrole.
    destruct (injectReasoningContent options) eqn:Hinject; cbn.
    + destruct (String.eqb_spec (role m) "assistant") as [Ha | Hna]; cbn.
      * destruct (bool_decide_reflect (is_Some (reasoning_content m)))
          as [Hsome | Hnone]; cbn.
        -- split; [exact Hrole | intros _ _; exact Hsome].
        -- split; [exact Hrole | intros _ _; cbn; eauto].
      * split; [exact Hrole | intros _ Ha; contradiction].
    + split; [exact Hrole | discriminate].
Qed.

(** X2: no [function]-role message is left in a formatted history, and
    formatting is idempotent: a formatted history is formatted to
    itself, whatever the state of the identifier supply, and without
    drawing from it. *)
Theorem X2_formatting_is_idempotent
    (messages : list Message) (options : FormatOptions) (drawn drawn' : nat) :
  Forall (fun m => role m <> "function")
    (formatMessagesForTools JSON_stringify v4 messages options drawn)
  /\ formatMessagesForTools_from JSON_stringify v4
       (formatMessagesForTools JSON_stringify v4 messages options drawn)
       options drawn'
     = (formatMessagesForTools JSON_stringify v4 messages options drawn, drawn').
Proof.
  pose proof (formatted_settled messages options drawn) as Hsettled.
  split.
  - eapply Forall_impl; [exact Hsettled |]. intros m [Hrole _]. exact Hrole.
  - unfold formatMessagesForTools_from at 1.
    rewrite (format_settled _ _ Hsettled). reflexivity.
Qed.

Lemma formatMessage_drawn (inject : bool) (formatted : list Message) (drawn : nat)
    (m : Message) :
  snd (formatMessage JSON_stringify v4 inject (formatted, drawn) m)
  = drawn + (if needs_fresh_id m then 1 else 0).
Proof.
  unfold formatMessage, needs_fresh_id, truthy_call_id.
  destruct (String.eqb (role m) "function"); cbn [andb].
  - destruct (originalFunctionCall m) as [ofc|]; [| cbn; lia].
    destruct (ofc_id ofc) as [id|]; [| cbn; lia].
    destruct (truthy_str (Some id)); cbn; lia.
  - destruct (inject && String.eqb (role m) "assistant"
              && negb (bool_decide (is_Some (reasoning_content m)))); cbn; lia.
Qed.

Lemma format_drawn (inject : bool) (messages : list Message) :
  forall formatted drawn,
    snd (fold_left (formatMessage JSON_stringify v4 inject) messages (formatted, drawn))
    = drawn + List.length (List.filter needs_fresh_id messages).
Proof.
  induction messages as [|m messages IH]; intros formatted drawn; cbn [fold_left].
  - cbn. lia.
  - rewrite (surjective_pairing (formatMessage JSON_stringify v4 inject (formatted, drawn) m)).
    rewrite IH, formatMessage_drawn. cbn [List.filter].
    destruct (needs_fresh_id m); cbn [List.length]; lia.
Qed.

(** X3: a [function]-role message without a usable call id (no
    [originalFunctionCall], or one whose id is absent or empty) is
    expanded in place into an assistant message with a single tool call
    and a [tool] message answering it, which share one fresh id,
    [call_] followed by the next identifier of the supply; the call has
    the message's name and the arguments [{}]; the supply has by then
    handed out one identifier for each such message before it, and in
    the end one for each such message of the history. *)
Theorem X3_fresh_id_shared_by_the_pair
    (options : FormatOptions) (drawn : nat) (pre post : list Message) (m : Message) :
  needs_fresh_id m = true ->
  let n := drawn + List.length (List.filter needs_fresh_id pre) in
  let fresh := "call_" +:+ v4 n in
  formatMessagesForTools JSON_stringify v4 (pre ++ m :: post) options drawn
  = formatMessagesForTools JSON_stringify v4 pre options drawn
    ++ [ {| role := "assistant"; content := JNull; name := None;
            originalFunctionCall := None;
            reasoning_content :=
              if injectReasoningContent options then Some EmptyString else None;
            tool_calls :=
              Some [ {| mtc_id := fresh; mtc_type := "function";
                        mtc_name := name m; mtc_arguments := JStr "{}" |} ];
            tool_call_id := None |};
         {| role := "tool";
            content :=
              match content m with
              | JStr text => JStr text
              | JUndefined => JUndefined
              | value => JStr (JSON_stringify value)
              end;
            name := None; originalFunctionCall := None;
            reasoning_content := None; tool_calls := None;
            tool_call_id := Some fresh |} ]
    ++ formatMessagesForTools JSON_stringify v4 post options (S n)
  /\ snd (formatMessagesForTools_from JSON_stringify v4 (pre ++ m :: post) options drawn)
     = drawn + List.length (List.filter needs_fresh_id (pre ++ m :: post)).
Proof.
  intros Hfresh. cbn zeta.
  assert (Hrole : role m = "function").
  { unfold needs_fresh_id in Hfresh. apply andb_prop in Hfresh as [Hrole _].
    apply String.eqb_eq. exact Hrole. }
  assert (Hid : truthy_call_id m = None).
  { unfold needs_fresh_id in Hfresh. apply andb_prop in Hfresh as [_ Hid].
    unfold truthy_call_id.
    destruct (originalFunctionCall m) as [ofc|]; [| reflexivity].
    destruct (ofc_id ofc) as [id|]; [| reflexivity].
    destruct (truthy_str (Some id)); [discriminate | reflexivity]. }
  split.
  - unfold formatMessagesForTools.
    rewrite formatMessagesForTools_from_app. cbn [fold_left].
    pose proof (format_drawn (injectReasoningContent options) pre [] drawn) as Hn.
    fold (formatMessagesForTools_from JSON_stringify v4 pre options drawn) in Hn.
    destruct (formatMessagesForTools_from JSON_stringify v4 pre options drawn)
      as [formatted drawn1].
    cbn [fst snd] in *. subst drawn1.
    unfold formatMessage at 2. rewrite Hrole, Hid.
    change (String.eqb "function" "function") with true. cbv iota.
    rewrite fold_format_restart.
    + cbn [fst]. unfold formatMessagesForTools_from.
      rewrite <- !app_assoc. unfold assistant_call, tool_result, string_or_stringify.
      destruct (content m); reflexivity.
    + change (formatted ++ [?a; ?b]) with (formatted ++ [a] ++ [b]).
      rewrite !app_assoc, last_snoc. reflexivity.
  - unfold formatMessagesForTools_from. apply format_drawn.
Qed.

Lemma joined_app (xs ys : list (option string)) :
  joined (xs ++ ys) = joined xs +:+ joined ys.
Proof.
  unfold joined. induction xs as [|x xs IH]; cbn [app foldr]; [reflexivity |].
  rewrite IH, append_assoc. reflexivity.
Qed.

Lemma mergeToolCall_text (u : string) (frags : list ToolCallDelta) (st : StreamState) :
  st_text (fold_left (mergeToolCall u) frags st) = st_text st.
Proof.
  revert st. induction frags as [|f frags IH]; intros st; cbn [fold_left];
    [reflexivity |].
  rewrite IH. reflexivity.
Qed.

(** The text events among those a run of merges reports are those it
    started with. *)
Lemma mergeToolCall_text_events (u : string) (frags : list ToolCallDelta)
    (st : StreamState) :
  List.filter is_text_event (st_events (fold_left (mergeToolCall u) frags st))
  = List.filter is_text_event (st_events st).
Proof.
  revert st. induction frags as [|f frags IH]; intros st; cbn [fold_left];
    [reflexivity |].
  rewrite IH. unfold mergeToolCall. cbn [st_events].
  destruct (mergeAccumulator (st_toolCallsByIndex st) f !! default 0 (d_index f));
    [| reflexivity].
  rewrite List.filter_app. cbn. rewrite app_nil_r. reflexivity.
Qed.

Lemma processChunk_text (u : string) (chunks : list Chunk) :
  forall st,
    st_text (fold_left (processChunk u) chunks st)
    = st_text st +:+ joined (map first_content chunks)
    /\ joined (map (fun e => Some (ev_content e))
                 (List.filter is_text_event
                    (st_events (fold_left (processChunk u) chunks st))))
       = joined (map (fun e => Some (ev_content e))
                   (List.filter is_text_event (st_events st)))
         +:+ joined (map first_content chunks).
Proof.
  induction chunks as [|c chunks IH]; intros st; cbn [fold_left map joined foldr].
  - rewrite !append_empty_r. split; reflexivity.
  - destruct (IH (processChunk u st c)) as [-> ->].
    fold (joined (map first_content chunks)).
    rewrite <- !append_assoc.
    unfold processChunk, first_content.
    destruct (chunk_choices c) as [|choice rest].
    + cbn. rewrite !append_empty_r. split; reflexivity.
    + assert (Hstep : forall st1,
        st_text (match choice ≫= delta_tool_calls with
                 | Some toolCalls => fold_left (mergeToolCall u) toolCalls st1
                 | None => st1
                 end) = st_text st1
        /\ List.filter is_text_event
             (st_events (match choice ≫= delta_tool_calls with
                         | Some toolCalls => fold_left (mergeToolCall u) toolCalls st1
                         | None => st1
                         end))
           = List.filter is_text_event (st_events st1)).
      { intros st1. destruct (choice ≫= delta_tool_calls) as [toolCalls|].
        - rewrite mergeToolCall_text, mergeToolCall_text_events. split; reflexivity.
        - split; reflexivity. }
      destruct (Hstep (if truthy_str (choice ≫= delta_content)
                       then {| st_text := st_text st +:+ or_empty (choice ≫= delta_content);
                               st_toolCallsByIndex := st_toolCallsByIndex st;
                               st_events :=
                                 st_events st
                                 ++ [ {| ev_type := "textResponseChunk";
                                         ev_uuid := u;
                                         ev_content := or_empty (choice ≫= delta_content) |} ] |}
                       else st)) as [-> ->].
      destruct (choice ≫= delta_content) as [text|]; cbn [truthy_str or_empty].
      * destruct (String.eqb_spec text EmptyString) as [-> | Hne]; cbn [negb].
        -- rewrite !append_empty_r. split; reflexivity.
        -- cbn [st_text st_events]. rewrite List.filter_app, map_app, joined_app.
           cbn. rewrite !append_empty_r. split; reflexivity.
      * rewrite !append_empty_r. split; reflexivity.
Qed.

(** X4: the text [tooledStream] returns is the concatenation, in
    arrival order, of the text pieces of the chunks' first choices,
    whatever tool-call fragments come with them; and it is exactly what
    the text events reported to the handler add up to. *)
Theorem X4_streamed_text_is_the_reported_text
    (create : Request -> Outcome (Stream Chunk)) (model : string)
    (messages : list Message) (functions : FunctionsArg)
    (options : FormatOptions) (drawn : nat) (chunks : list Chunk) :
  create (tooledStream_request JSON_stringify v4 model messages functions options drawn)
  = Returned (ended chunks) ->
  exists r,
    fst (tooledStream JSON_parse JSON_stringify v4 create model messages
           functions options drawn) = Returned r
    /\ sr_textResponse r = joined (map first_content chunks)
    /\ joined (map (fun e => Some (ev_content e))
                 (List.filter is_text_event
                    (fx_events
                       (snd (tooledStream JSON_parse JSON_stringify v4 create model
                               messages functions options drawn)))))
       = sr_textResponse r.
Proof.
  intros Hcreate. unfold tooledStream. rewrite Hcreate.
  cbn [ended stream_chunks stream_failure].
  eexists. split; [reflexivity |].
  cbn [snd fx_events stream_result sr_textResponse]. unfold consume.
  destruct (processChunk_text (v4 drawn) chunks initial_stream_state) as [-> ->].
  cbn. split; reflexivity.
Qed.

Lemma merge_lookup_other (m : gmap nat Accumulator) (f : ToolCallDelta) (i : nat) :
  default 0 (d_index f) <> i -> mergeAccumulator m f !! i = m !! i.
Proof.
  intros Hne. unfold mergeAccumulator.
  destruct (truthy_str (d_id f)).
  - apply lookup_insert_ne. exact Hne.
  - destruct (m !! default 0 (d_index f)); [| reflexivity].
    apply lookup_insert_ne. exact Hne.
Qed.

Lemma merge_lookup_same (m1 m2 : gmap nat Accumulator) (f : ToolCallDelta) (i : nat) :
  m1 !! i = m2 !! i ->
  mergeAccumulator m1 f !! i = mergeAccumulator m2 f !! i.
Proof.
  intros Heq.
  destruct (decide (default 0 (d_index f) = i)) as [Hidx | Hidx].
  - unfold mergeAccumulator. rewrite Hidx, Heq.
    destruct (truthy_str (d_id f)).
    + rewrite !lookup_insert_eq. reflexivity.
    + destruct (m2 !! i) as [acc|] eqn:Hacc.
      * rewrite !lookup_insert_eq. reflexivity.
      * rewrite Heq, Hacc. reflexivity.
  - rewrite !merge_lookup_other by exact Hidx. exact Heq.
Qed.

(** The accumulator of an index depends on the fragments of that index
    only. *)
Lemma fold_merge_at_index (i : nat) (frags : list ToolCallDelta) :
  forall m1 m2 : gmap nat Accumulator,
    m1 !! i = m2 !! i ->
    fold_left mergeAccumulator frags m1 !! i
    = fold_left mergeAccumulator (List.filter (at_index i) frags) m2 !! i.
Proof.
  induction frags as [|f frags IH]; intros m1 m2 Heq; cbn [fold_left List.filter].
  - exact Heq.
  - unfold at_index at 1.
    destruct (Nat.eqb_spec (default 0 (d_index f)) i) as [Hidx | Hidx].
    + cbn [fold_left]. apply IH, merge_lookup_same, Heq.
    + apply IH. rewrite merge_lookup_other by exact Hidx. exact Heq.
Qed.

Lemma fold_merge_congr (i : nat) (frags : list ToolCallDelta)
    (m1 m2 : gmap nat Accumulator) :
  m1 !! i = m2 !! i ->
  fold_left mergeAccumulator frags m1 !! i
  = fold_left mergeAccumulator frags m2 !! i.
Proof.
  intros Heq.
  rewrite (fold_merge_at_index i frags m1 m2 Heq).
  symmetry. apply fold_merge_at_index. reflexivity.
Qed.

(** No fragment removes an accumulator. *)
Lemma fold_merge_keeps (i : nat) (frags : list ToolCallDelta) :
  forall m : gmap nat Accumulator,
    is_Some (m !! i) -> is_Some (fold_left mergeAccumulator frags m !! i).
Proof.
  induction frags as [|f frags IH]; intros m Hsome; cbn [fold_left];
    [exact Hsome |].
  apply IH.
  destruct (decide (default 0 (d_index f) = i)) as [Hidx | Hidx].
  - unfold mergeAccumulator. rewrite Hidx.
    destruct (truthy_str (d_id f)); [rewrite lookup_insert_eq; eauto |].
    destruct Hsome as [acc Hacc]. rewrite Hacc, lookup_insert_eq. eauto.
  - rewrite merge_lookup_other by exact Hidx. exact Hsome.
Qed.

Lemma fold_merge_started (i : nat) (frags : list ToolCallDelta) :
  forall m : gmap nat Accumulator,
    Exists (fun f => truthy_str (d_id f) = true /\ default 0 (d_index f) = i) frags ->
    is_Some (fold_left mergeAccumulator frags m !! i).
Proof.
  induction frags as [|f frags IH]; intros m Hex; [inversion Hex |].
  cbn [fold_left].
  apply Exists_cons in Hex as [[Hid Hidx] | Hex]; [| apply IH, Hex].
  apply fold_merge_keeps. unfold mergeAccumulator.
  rewrite Hid, Hidx, lookup_insert_eq. eauto.
Qed.

Lemma first_function_call_at_zero (m : gmap nat Accumulator) (acc : Accumulator) :
  m !! 0 = Some acc ->
  first_function_call JSON_parse m
  = Some {| fc_id := acc_id acc;
            fc_name := Some (acc_name acc);
            fc_arguments := safeJsonParse JSON_parse (acc_arguments acc) (JObj []) |}.
Proof.
  intros Hacc.
  assert (Hne : m <> ∅).
  { intros ->. rewrite lookup_empty in Hacc. discriminate. }
  destruct (lowest_index_spec JSON_parse v4 m Hne) as (i & acc' & Hlow & Hacc' & Hmin).
  assert (i = 0) as -> by (specialize (Hmin 0 ltac:(eauto)); lia).
  unfold first_function_call. rewrite Hlow, Hacc. reflexivity.
Qed.

(** X5: parallel tool calls beyond the first are discarded.  When a
    fragment of index 0 carries an id, the call [tooledStream] returns
    is assembled from the fragments of index 0 alone: two streams with
    the same fragments at index 0 give the same call, whatever they
    carry at other indices and however the fragments are interleaved. *)
Theorem X5_only_the_first_index_counts
    (create create' : Request -> Outcome (Stream Chunk)) (model : string)
    (messages : list Message) (functions : FunctionsArg)
    (options : FormatOptions) (drawn : nat) (chunks chunks' : list Chunk) :
  create (tooledStream_request JSON_stringify v4 model messages functions options drawn)
  = Returned (ended chunks) ->
  create' (tooledStream_request JSON_stringify v4 model messages functions options drawn)
  = Returned (ended chunks') ->
  List.filter (at_index 0) (carried chunks) = List.filter (at_index 0) (carried chunks') ->
  Exists (fun f => truthy_str (d_id f) = true /\ default 0 (d_index f) = 0)
    (carried chunks) ->
  function_call_of
    (fst (tooledStream JSON_parse JSON_stringify v4 create model messages
            functions options drawn))
  = function_call_of
      (fst (tooledStream JSON_parse JSON_stringify v4 create' model messages
              functions options drawn))
  /\ function_call_of
       (fst (tooledStream JSON_parse JSON_stringify v4 create model messages
               functions options drawn)) <> None.
Proof.
  intros Hcreate Hcreate' Hsame Hstart.
  unfold tooledStream. rewrite Hcreate, Hcreate'.
  cbn [ended stream_chunks stream_failure].
  cbn [fst function_call_of stream_result sr_functionCall ended stream_chunks
           stream_failure].
  rewrite !consume_byIndex.
  destruct (fold_merge_started 0 (carried chunks) ∅ Hstart) as [acc Hacc].
  assert (Hacc' : fold_left mergeAccumulator (carried chunks') ∅ !! 0 = Some acc).
  { rewrite (fold_merge_at_index 0 (carried chunks') ∅ ∅ eq_refl), <- Hsame.
    rewrite <- (fold_merge_at_index 0 (carried chunks) ∅ ∅ eq_refl). exact Hacc. }
  rewrite (first_function_call_at_zero _ acc Hacc).
  rewrite (first_function_call_at_zero _ acc Hacc').
  split; [reflexivity | discriminate].
Qed.

(** X6: a fragment that carries an id starts its index afresh.  What
    the stream delivered at that index before it is forgotten: the
    accumulator of the index ends as if the stream had begun with that
    fragment. *)
Theorem X6_an_id_restarts_its_index
    (u : string) (chunks : list Chunk) (pre post : list ToolCallDelta)
    (f : ToolCallDelta) :
  carried chunks = pre ++ f :: post ->
  truthy_str (d_id f) = true ->
  st_toolCallsByIndex (consume u chunks) !! default 0 (d_index f)
  = fold_left mergeAccumulator (f :: post) ∅ !! default 0 (d_index f).
Proof.
  intros Hcarried Hid.
  rewrite consume_byIndex, Hcarried, fold_left_app. cbn [fold_left].
  apply fold_merge_congr.
  unfold mergeAccumulator. rewrite Hid, !lookup_insert_eq. reflexivity.
Qed.

(** X7: a stream none of whose tool-call fragments carries an id
    assembles no call: [tooledStream] returns the text alone. *)
Theorem X7_no_id_no_call
    (create : Request -> Outcome (Stream Chunk)) (model : string)
    (messages : list Message) (functions : FunctionsArg)
    (options : FormatOptions) (drawn : nat) (chunks : list Chunk) :
  create (tooledStream_request JSON_stringify v4 model messages functions options drawn)
  = Returned (ended chunks) ->
  Forall (fun f => truthy_str (d_id f) = false) (carried chunks) ->
  fst (tooledStream JSON_parse JSON_stringify v4 create model messages
         functions options drawn)
  = Returned {| sr_textResponse := joined (map first_content chunks);
                sr_functionCall := None |}.
Proof.
  intros Hcreate Hidless. unfold tooledStream. rewrite Hcreate.
  cbn [ended stream_chunks stream_failure].
  cbn [fst]. unfold stream_result.
  rewrite consume_byIndex, (idless_fragments_ignored _ Hidless).
  unfold consume.
  destruct (processChunk_text (v4 drawn) chunks initial_stream_state) as [-> _].
  reflexivity.
Qed.

End HelperExtras.

(** ** Further properties of the adapters *)

Section AdapterExtras.

Variable JSON_parse : string -> option JValue.
Variable JSON_stringify : JValue -> string.
Variable v4 : nat -> string.
Variable other_complete :
  Path -> list Message -> list FunctionDef -> Outcome CompleteResult.

(** X8: when the provider answers [k] requests in a row with a
    malformed first tool call and the next one with a response that
    gives no retry signal, [complete] returns what [tooledComplete]
    makes of that response, after exactly [k + 1] requests. *)
Theorem X8_complete_settles_after_the_last_retry (k : nat) :
  forall (depth : nat) (env : Environment)
         (create : nat -> Request -> Outcome Response) (sent : nat)
         (a : Adapter) (messages : list Message) (functions : list FunctionDef)
         (drawn : nat) (good : Response) (r : CompleteResult),
    dispatch_path (dispatch env (preloadModel a) functions) = TooledHelpers ->
    (forall j request,
        j < k ->
        exists response,
          create (sent + j) request = Returned response
          /\ malformed_first_call JSON_parse response) ->
    (forall request, create (sent + k) request = Returned good) ->
    interpret_response JSON_parse getCost good = Returned r ->
    cr_retryWithError r = None ->
    k < depth ->
    run_outcome
      (complete JSON_parse JSON_stringify v4 other_complete depth env create sent
         a messages functions drawn) = Some (Returned r)
    /\ List.length
         (run_requests
            (complete JSON_parse JSON_stringify v4 other_complete depth env
               create sent a messages functions drawn)) = S k.
Proof.
  induction k as [|k IH]; intros depth env create sent a messages functions
    drawn good r Hpath Hbad Hgood Hresult Hsettled Hdepth;
    destruct depth as [|depth]; try lia.
  - cbn [complete]. rewrite Hpath. unfold tooledComplete.
    rewrite Nat.add_0_r in Hgood. rewrite Hgood, Hresult, Hsettled.
    split; reflexivity.
  - cbn [complete]. rewrite Hpath. unfold tooledComplete.
    destruct (Hbad 0
                (tooledComplete_request JSON_stringify v4
                   (model (dispatch_adapter (dispatch env (preloadModel a) functions)))
                   messages (FnArray functions)
                   (tooledOptions (dispatch_adapter (dispatch env (preloadModel a) functions)))
                   drawn) ltac:(lia))
      as (response & Hresponse & Hmal).
    rewrite Nat.add_0_r in Hresponse. rewrite Hresponse.
    destruct (interpret_malformed JSON_parse getCost response Hmal) as (toolCall & ->).
    cbn [cr_retryWithError run_outcome run_requests fx_request fx_drawn].
    destruct (dispatch_stable env env a functions) as [Hsame _].
    cbn zeta in Hsame. rewrite Hpath in Hsame.
    edestruct (IH depth env create (S sent)
                 (dispatch_adapter (dispatch env (preloadModel a) functions)))
      as [Hout Hlen].
    + exact Hsame.
    + intros j request Hj.
      replace (S sent + j) with (sent + S j) by lia. apply Hbad. lia.
    + intros request. replace (S sent + k) with (sent + S k) by lia. apply Hgood.
    + exact Hresult.
    + exact Hsettled.
    + lia.
    + split; [exact Hout |]. cbn [List.length]. f_equal. exact Hlen.
Qed.

End AdapterExtras.

Lemma dispatch_queries_cached (env : Environment) (a : Adapter)
    (functions : list FunctionDef) :
  is_Some (_supportsToolCalling a) ->
  dispatch_queries (dispatch env (preloadModel a) functions) = 0
  /\ is_Some (_supportsToolCalling
                (dispatch_adapter (dispatch env (preloadModel a) functions))).
Proof.
  destruct a as [p m cache pre]. cbn. intros [cached ->].
  destruct functions as [|f fs]; destruct p; cbn; split; eauto.
Qed.

Lemma dispatch_queries_bound (env : Environment) (a : Adapter)
    (functions : list FunctionDef) :
  dispatch_queries (dispatch env (preloadModel a) functions) <= 1
  /\ (dispatch_queries (dispatch env (preloadModel a) functions) = 1 ->
      is_Some (_supportsToolCalling
                 (dispatch_adapter (dispatch env (preloadModel a) functions)))).
Proof.
  destruct a as [p m cache pre].
  destruct functions as [|f fs]; destruct p; destruct cache as [cached|]; cbn;
    unfold probe_lemonade, probe_capabilities, probe_env; cbn;
    try (split; [lia | intros Hone; try discriminate Hone; eauto]).
  all: destruct (truthy (env_includes env "lemonade")); cbn;
    (split; [lia | intros Hone; try discriminate Hone; eauto]).
Qed.

Lemma dispatch_all_cached (calls : list (Environment * list FunctionDef)) :
  forall a, is_Some (_supportsToolCalling a) -> fst (dispatch_all calls a) = 0.
Proof.
  induction calls as [|[env functions] calls IH]; intros a Hcached;
    cbn [dispatch_all]; [reflexivity |].
  destruct (dispatch_queries_cached env a functions Hcached) as [Hzero Hstill].
  specialize (IH _ Hstill).
  destruct (dispatch_all calls _) as [queries a']. cbn [fst] in *. lia.
Qed.

(** X9: over its whole lifetime an adapter sends at most one
    capability query, however many calls of [stream] and [complete] it
    serves, with whatever functions and in whatever environment. *)
Theorem X9_at_most_one_capability_query
    (calls : list (Environment * list FunctionDef)) (a : Adapter) :
  fst (dispatch_all calls a) <= 1.
Proof.
  revert a. induction calls as [|[env functions] calls IH]; intros a;
    cbn [dispatch_all]; [cbn; lia |].
  destruct (dispatch_queries_bound env a functions) as [Hbound Hcached].
  specialize (IH (dispatch_adapter (dispatch env (preloadModel a) functions))).
  pose proof (dispatch_all_cached calls
                (dispatch_adapter (dispatch env (preloadModel a) functions))) as Hrest.
  destruct (dispatch_all calls _) as [queries a']. cbn [fst] in *.
  destruct (decide (dispatch_queries (dispatch env (preloadModel a) functions) = 1))
    as [Hone | Hnot].
  - rewrite (Hrest (Hcached Hone)). lia.
  - lia.
Qed.

(** X10: what leaves the [catch] block of an adapter keeps the message
    of the error caught, is never a rate-limit, internal-server or
    other API error, and passes through a second such block unchanged,
    so that a nested invocation's error is not wrapped twice. *)
Theorem X10_catch_block_is_idempotent (error : JsError) :
  err_message (rethrown error) = err_message error
  /\ err_class (rethrown error) <> RateLimitError
  /\ err_class (rethrown error) <> InternalServerError
  /\ err_class (rethrown error) <> OtherAPIError
  /\ rethrown (rethrown error) = rethrown error.
Proof.
  destruct error as [cls msg]. unfold rethrown, instanceof_APIError.
  destruct cls; cbn; repeat split; discriminate.
Qed.

(** ** Properties of the Ollama adapter's native tool calling *)

Section OllamaNativeExtras.

Variable JSON_parse : string -> option JValue.
Variable JSON_stringify : JValue -> string.
Variable v4 : nat -> string.



Lemma nativeChunk_quiet (u : string) (stream : list NativeChunk) :
  Forall (fun chunk => carries_no_call chunk = true) stream ->
  forall st,
    ns_toolCalls (fold_left (nativeChunk JSON_stringify u) stream st) = ns_toolCalls st.
Proof.
  induction 1 as [|chunk stream Hquiet _ IH]; intros st; cbn [fold_left];
    [reflexivity |].
  rewrite IH. unfold nativeChunk. unfold carries_no_call in Hquiet.
  destruct (nc_message chunk) as [message|]; [| reflexivity].
  cbn in Hquiet.
  destruct (nm_tool_calls message) as [[|first others]|]; try discriminate;
    destruct (truthy_str (nm_content message)); reflexivity.
Qed.

Lemma nativeChunk_text (u : string) (stream : list NativeChunk) :
  forall st,
    ns_textResponse (fold_left (nativeChunk JSON_stringify u) stream st)
    = ns_textResponse st +:+ joined (map native_content stream).
Proof.
  induction stream as [|chunk stream IH]; intros st; cbn [fold_left map].
  - cbn. rewrite append_empty_r. reflexivity.
  - rewrite IH. unfold joined at 2. cbn [foldr]. fold (joined (map native_content stream)).
    rewrite <- append_assoc. f_equal.
    unfold nativeChunk, native_content.
    destruct (nc_message chunk) as [message|]; cbn [mbind option_bind or_empty].
    + assert (Htext :
        ns_textResponse
          (if truthy_str (nm_content message)
           then {| ns_textResponse := ns_textResponse st +:+ or_empty (nm_content message);
                   ns_toolCalls := ns_toolCalls st;
                   ns_events :=
                     ns_events st
                     ++ [ {| ev_type := "textResponseChunk"; ev_uuid := u;
                             ev_content := or_empty (nm_content message) |} ] |}
           else st)
        = ns_textResponse st +:+ or_empty (nm_content message)).
      { destruct (nm_content message) as [text|]; cbn [truthy_str or_empty].
        - destruct (String.eqb_spec text EmptyString) as [-> | _]; cbn [negb];
            [rewrite append_empty_r |]; reflexivity.
        - rewrite append_empty_r. reflexivity. }
      destruct (nm_tool_calls message) as [[|first others]|]; exact Htext.
    + rewrite append_empty_r. reflexivity.
Qed.

(** X12: on the Ollama adapter's native streaming path the tool calls
    of the last chunk that carries any replace those of earlier chunks:
    the first call of that chunk is returned, under a fresh [ollama_]
    id, together with the whole streamed text. *)
Theorem X12_last_chunk_with_calls_wins
    (chat : list OllamaChatMessage -> list Tool -> Outcome (Stream NativeChunk))
    (messages : list Message) (functions : list FunctionDef) (drawn : nat)
    (before after : list NativeChunk) (text : option string)
    (toolCall : OllamaToolCall) (others : list OllamaToolCall) :
  let chunk :=
    {| nc_message :=
         Some {| nm_content := text; nm_tool_calls := Some (toolCall :: others) |} |} in
  chat (formatMessagesForOllamaTools JSON_parse JSON_stringify messages)
       (formatFunctionsToTools (FnArray functions))
  = Returned (ended (before ++ chunk :: after)) ->
  Forall (fun c => carries_no_call c = true) after ->
  fst (ollama_stream_native JSON_parse JSON_stringify v4 chat messages functions drawn)
  = Returned
      {| sr_textResponse := joined (map native_content (before ++ chunk :: after));
         sr_functionCall :=
           Some {| fc_id := "ollama_" +:+ v4 (S drawn);
                   fc_name := Some (otc_name toolCall);
                   fc_arguments :=
                     match otc_arguments toolCall with
                     | JStr text =>
                         match JSON_parse text with
                         | Some parsed => parsed
                         | None => JObj []
                         end
                     | given => if truthy given then given else JObj []
                     end |} |}.
Proof.
  cbn zeta. intros Hchat Hquiet.
  unfold ollama_stream_native. rewrite Hchat.
  cbn [ended stream_chunks stream_failure].
  rewrite nativeChunk_text.
  rewrite fold_left_app. cbn [fold_left].
  rewrite (nativeChunk_quiet _ _ Hquiet).
  unfold nativeChunk at 1. cbn [nc_message nm_tool_calls ns_toolCalls fst].
  unfold native_arguments, safeJsonParse, or_empty_object.
  destruct (otc_arguments toolCall); reflexivity.
Qed.

End OllamaNativeExtras.

(** ** Further properties of the Ollama adapter's emulated path *)

Section EmulationExtras.

Variable JSON_parse : string -> option JValue.
Variable JSON_stringify : JValue -> string.
Variable v4 : nat -> string.
Variable buildToolCallMessages : list Message -> list FunctionDef -> list Message.
Variable cleanMsgs : list Message -> list Message.
Variable validFuncCall : JValue -> list FunctionDef -> bool * string.
Variable isMCPTool : JValue -> list FunctionDef -> bool.
Variable chat : nat -> list Message -> Outcome (list OllamaChunk).
Variable now : nat -> Z.
Variable cooldownInMs : bool -> Z.
Variable lapsed : DuplicateCheck.

(** X13: with functions to offer, the emulated [stream] throws, without
    any chat request and without touching the session, when the last
    [user] or [assistant] message of the history is not a [user]
    message, and also when the history has no such message. *)
Theorem X13_emulated_stream_needs_a_final_user_message
    (s : Session) (messages : list Message) (functions : list FunctionDef) :
  functions <> [] ->
  match last (filter (fun msg => is_user_or_assistant msg = true) messages) with
  | Some final => role final <> "user"
  | None => True
  end ->
  exists error,
    stream_emulated JSON_parse JSON_stringify v4 buildToolCallMessages cleanMsgs
      validFuncCall isMCPTool chat now cooldownInMs lapsed s messages functions
    = (Thrown error, [], s)
    /\ err_class error = OtherError.
Proof.
  intros Hfunctions Hlast.
  unfold stream_emulated.
  destruct functions as [|f fs]; [contradiction |]. cbn [List.length Nat.ltb Nat.leb].
  unfold streamingFunctionCall.
  destruct (last (filter (fun msg => is_user_or_assistant msg = true) messages))
    as [final|].
  - destruct (String.eqb_spec (role final) "user") as [Heq | _]; [contradiction |].
    cbn [negb]. eexists. split; reflexivity.
  - eexists. split; reflexivity.
Qed.

(** X14: when the model's reply to the tool prompt is a text that is
    not empty and does not parse as JSON, the emulated [stream] returns
    that very text, after a single chat request, reports it to the
    handler as the full text response, and leaves the runs empty. *)
Theorem X14_plain_reply_is_returned_verbatim
    (s : Session) (messages : list Message) (functions : list FunctionDef)
    (final : Message) (reply : list OllamaChunk) :
  functions <> [] ->
  last (filter (fun msg => is_user_or_assistant msg = true) messages) = Some final ->
  role final = "user" ->
  chat (chats s)
    (buildToolCallMessages
       (filter (fun msg => is_user_or_assistant msg = true) messages) functions)
  = Returned reply ->
  JSON_parse (reply_text reply) = None ->
  reply_text reply <> EmptyString ->
  exists events s',
    stream_emulated JSON_parse JSON_stringify v4 buildToolCallMessages cleanMsgs
      validFuncCall isMCPTool chat now cooldownInMs lapsed s messages functions
    = (Returned {| er_textResponse := Some (reply_text reply);
                   er_functionCall := None;
                   er_cost := 0 |},
       events, s')
    /\ chats s' = S (chats s)
    /\ runs (deduplicator s') = ∅
    /\ last events
       = Some {| ev_type := "fullTextResponse";
                 ev_uuid := v4 (S (S (S (drawn_ids s))));
                 ev_content := reply_text reply |}.
Proof.
  intros Hfunctions Hlast Huser Hchat Hparse Hnonempty.
  assert (Htext : forall u st0,
    ts_textResponse st0 = EmptyString -> ts_reasoningText st0 = EmptyString ->
    ts_textResponse (fold_left (callChunk u) reply st0) = reply_text reply).
  { intros u st0 H1 H2. unfold reply_text. apply callChunk_text; assumption. }
  unfold stream_emulated.
  destruct functions as [|f fs]; [contradiction |]. cbn [List.length Nat.ltb Nat.leb].
  unfold streamingFunctionCall. rewrite Hlast, Huser.
  change (negb (String.eqb "user" "user")) with false. cbv iota.
  rewrite Hchat. cbv zeta.
  rewrite Htext by reflexivity.
  unfold safeJsonParse. rewrite Hparse. cbn [is_null fa_toolCall fa_text truthy_str].
  destruct (String.eqb_spec (reply_text reply) EmptyString) as [Hempty | _];
    [contradiction |].
  cbn [negb or_empty]. unfold finish_turn.
  assert (Hlen : is_empty (reply_text reply) = false).
  { unfold is_empty. destruct (reply_text reply); [contradiction | reflexivity]. }
  rewrite Hlen.
  eexists _, _. split; [reflexivity |].
  split; [reflexivity |]. split; [reflexivity |].
  cbn [draw drawn_ids].
  match goal with
  | |- last (?l ++ [?a; ?b; ?c]) = _ =>
      change (l ++ [a; b; c]) with (l ++ [a; b] ++ [c]);
      rewrite app_assoc, last_snoc
  end.
  reflexivity.
Qed.

Lemma last_nonempty_default (l : list string) (x d d' : string) :
  List.last (x :: l) d = List.last (x :: l) d'.
Proof.
  revert x. induction l as [|y l IH]; intros x; [reflexivity |].
  change (List.last (y :: l) d = List.last (y :: l) d'). apply IH.
Qed.

Lemma plain_contents (u : string) (contents : list string) :
  Forall (fun text => text <> EmptyString) contents ->
  forall st,
    ps_reasoningText st = EmptyString ->
    let st' := fold_left (plainChunk u) (map content_chunk contents) st in
    ps_content st' = ps_content st +:+ joined (map Some contents)
    /\ ps_reasoningText st' = EmptyString
    /\ ps_token st' = List.last contents (ps_token st).
Proof.
  induction 1 as [|text contents Htext _ IH]; intros st Hreason; cbn zeta.
  - cbn. rewrite append_empty_r. repeat split. exact Hreason.
  - cbn [map fold_left].
    assert (Hstep :
      plainChunk u st (content_chunk text)
      = {| ps_content := ps_content st +:+ text;
           ps_reasoningText := EmptyString;
           ps_token := text;
           ps_events :=
             ps_events st
             ++ [ {| ev_type := "textResponseChunk"; ev_uuid := u;
                     ev_content := text |} ] |}).
    { unfold plainChunk, content_chunk. cbn [oc_message om_content om_thinking truthy_str].
      rewrite Hreason.
      assert (Hlen : is_empty text = false).
      { unfold is_empty. destruct text; [contradiction | reflexivity]. }
      rewrite Hlen. reflexivity. }
    rewrite Hstep.
    match goal with
    | |- context [fold_left _ _ ?st1] =>
        destruct (IH st1 eq_refl) as (Hc & Hr & Ht)
    end.
    cbn zeta in Hc, Hr, Ht.
    rewrite Hc, Hr, Ht. cbn [ps_content ps_token].
    unfold joined. cbn [map foldr or_empty]. fold (joined (map Some contents)).
    rewrite append_assoc. repeat split.
    destruct contents as [|y contents]; [reflexivity |].
    change (List.last (text :: y :: contents) (ps_token st))
      with (List.last (y :: contents) (ps_token st)).
    apply last_nonempty_default.
Qed.

(** X15: the plain completion of the emulated path adds the current
    token to the text for every chunk that has a [message], also for a
    chunk with an empty content and no thinking, which has no token of
    its own: after pieces of text that are not empty, such a closing
    chunk makes the last piece appear twice in the returned text. *)
Theorem X15_closing_chunk_repeats_the_last_token
    (s : Session) (messages : list Message) (contents : list string) (final : string) :
  Forall (fun text => text <> EmptyString) (contents ++ [final]) ->
  chat (chats s) (cleanMsgs messages)
  = Returned (map content_chunk (contents ++ [final]) ++ [content_chunk EmptyString]) ->
  exists events s',
    stream_emulated JSON_parse JSON_stringify v4 buildToolCallMessages cleanMsgs
      validFuncCall isMCPTool chat now cooldownInMs lapsed s messages []
    = (Returned {| er_textResponse :=
                     Some (joined (map Some (contents ++ [final])) +:+ final);
                   er_functionCall := None;
                   er_cost := 0 |},
       events, s').
Proof.
  intros Hnonempty Hchat.
  unfold stream_emulated. cbn [List.length Nat.ltb Nat.leb].
  unfold finish_turn. cbn [is_empty String.length Nat.eqb].
  rewrite Hchat, fold_left_app.
  match goal with
  | |- context [fold_left (plainChunk ?u) (map content_chunk _) ?st0] =>
      destruct (plain_contents u _ Hnonempty st0 eq_refl) as (Hc & Hr & Ht)
  end.
  cbn zeta in Hc, Hr, Ht. cbn [fold_left].
  unfold plainChunk at 1.
  cbn [content_chunk oc_message om_content om_thinking truthy_str is_empty
       String.length Nat.eqb negb ps_content].
  rewrite Hc, Ht, List.last_last. cbn [ps_content].
  eexists _, _. reflexivity.
Qed.

End EmulationExtras.

(** ** Properties of the Bedrock adapter's conversions *)

Section BedrockExtras.

Variable JSON_parse : string -> option JValue.
Variable JSON_stringify : JValue -> string.
Variable v4 : nat -> string.

(** While the last converted message is not an [AIMessage] with tool
    calls, a turn of the loop appends what it would push on an empty
    list, and leaves such a last message again. *)
Lemma convertChatWithTools_step (converted : list LangchainMessage) (drawn : nat)
    (chat : Message) :
  needs_ai_call (last converted) = true ->
  exists pushed,
    convertChatWithTools JSON_parse JSON_stringify v4 (converted, drawn) chat
    = (converted ++ pushed,
       snd (convertChatWithTools JSON_parse JSON_stringify v4 ([], drawn) chat))
    /\ fst (convertChatWithTools JSON_parse JSON_stringify v4 ([], drawn) chat) = pushed
    /\ needs_ai_call (last (converted ++ pushed)) = true
    /\ needs_ai_call (last pushed) = true.
Proof.
  intros Hprev. unfold convertChatWithTools.
  destruct (String.eqb (role chat) "function").
  - destruct (truthy_call_id chat) as [[id ofc]|].
    + rewrite Hprev. cbn [last needs_ai_call]. eexists.
      split; [reflexivity |]. split; [reflexivity |].
      split; [| reflexivity].
      rewrite app_assoc, last_snoc. reflexivity.
    + eexists. split; [reflexivity |]. split; [reflexivity |].
      split; [| reflexivity].
      match goal with
      | |- context [converted ++ [?a; ?b]] =>
          change (converted ++ [a; b]) with (converted ++ [a] ++ [b])
      end.
      rewrite app_assoc, last_snoc. reflexivity.
  - destruct (String.eqb (role chat) "system");
      [| destruct (String.eqb (role chat) "user");
         [| destruct (String.eqb (role chat) "assistant")]].
    + eexists. split; [reflexivity |]. split; [reflexivity |].
      rewrite last_snoc. split; reflexivity.
    + eexists. split; [reflexivity |]. split; [reflexivity |].
      rewrite last_snoc. split; reflexivity.
    + eexists. split; [reflexivity |]. split; [reflexivity |].
      rewrite last_snoc. split; reflexivity.
    + exists []. rewrite app_nil_r. split; [reflexivity |]. split; [reflexivity |].
      split; [exact Hprev | reflexivity].
Qed.

Lemma convert_fold_shift (chats : list Message) :
  forall (converted : list LangchainMessage) (drawn : nat),
    needs_ai_call (last converted) = true ->
    fold_left (convertChatWithTools JSON_parse JSON_stringify v4) chats
      (converted, drawn)
    = (converted
         ++ fst (fold_left (convertChatWithTools JSON_parse JSON_stringify v4) chats
                   ([], drawn)),
       snd (fold_left (convertChatWithTools JSON_parse JSON_stringify v4) chats
              ([], drawn)))
    /\ needs_ai_call
         (last (fst (fold_left (convertChatWithTools JSON_parse JSON_stringify v4)
                       chats (converted, drawn)))) = true.
Proof.
  induction chats as [|chat chats IH]; intros converted drawn Hprev; cbn [fold_left].
  - cbn. rewrite app_nil_r. split; [reflexivity | exact Hprev].
  - destruct (convertChatWithTools_step converted drawn chat Hprev)
      as (pushed & Hstep & Halone & Hlast & Hpushed).
    destruct (convertChatWithTools JSON_parse JSON_stringify v4 ([], drawn) chat)
      as [alone drawn'] eqn:Hpair.
    cbn [fst snd] in Hstep, Halone. subst alone. rewrite Hstep.
    destruct (IH (converted ++ pushed) drawn' Hlast) as [Hall Hkeep].
    destruct (IH pushed drawn' Hpushed) as [Hpart _].
    split.
    + rewrite Hall, Hpart. cbn [fst snd]. rewrite app_assoc. reflexivity.
    + exact Hkeep.
Qed.

(** X16: in the Bedrock conversion a [function]-role message whose
    original call has an id always becomes the pair of an [AIMessage]
    carrying that call and a [ToolMessage] answering it, in place,
    whatever the history before it: the test on the preceding message
    never holds the [AIMessage] back. *)
Theorem X16_bedrock_always_pairs_call_and_result
    (pre post : list Message) (m : Message) (drawn : nat)
    (id : string) (ofc : OriginalFunctionCall) :
  role m = "function" ->
  truthy_call_id m = Some (id, ofc) ->
  fst (convertToLangchainPrototypesWithTools JSON_parse JSON_stringify v4
         (pre ++ m :: post) drawn)
  = fst (convertToLangchainPrototypesWithTools JSON_parse JSON_stringify v4 pre drawn)
    ++ [AIMessage (JStr EmptyString)
          [ {| lc_name := ofc_name ofc;
               lc_args :=
                 match ofc_arguments ofc with
                 | JStr text => safeJsonParse JSON_parse text (JObj [])
                 | args => args
                 end;
               lc_id := id |} ];
        ToolMessage (string_or_stringify JSON_stringify (content m)) id]
    ++ fst (convertToLangchainPrototypesWithTools JSON_parse JSON_stringify v4 post
              (snd (convertToLangchainPrototypesWithTools JSON_parse JSON_stringify
                      v4 pre drawn))).
Proof.
  intros Hrole Hid. unfold convertToLangchainPrototypesWithTools.
  rewrite fold_left_app. cbn [fold_left].
  destruct (convert_fold_shift pre [] drawn eq_refl) as [_ Hprev].
  destruct (fold_left (convertChatWithTools JSON_parse JSON_stringify v4) pre ([], drawn))
    as [converted drawn1].
  cbn [fst snd] in *.
  unfold convertChatWithTools at 2. rewrite Hrole, Hid, Hprev.
  change (String.eqb "function" "function") with true. cbv iota.
  destruct (convert_fold_shift post
              (converted
                 ++ [AIMessage (JStr EmptyString)
                       [ {| lc_name := ofc_name ofc;
                            lc_args :=
                              match ofc_arguments ofc with
                              | JStr text => safeJsonParse JSON_parse text (JObj [])
                              | args => args
                              end;
                            lc_id := id |} ]]
                 ++ [ToolMessage (string_or_stringify JSON_stringify (content m)) id])
              drawn1) as [-> _].
  - rewrite app_assoc, last_snoc. reflexivity.
  - cbn [fst]. rewrite <- !app_assoc. reflexivity.
Qed.



End BedrockExtras.

(** ** What the adapters send upstream *)

Section RequestExtras.

Variable JSON_parse : string -> option JValue.
Variable JSON_stringify : JValue -> string.
Variable v4 : nat -> string.
Variable other_complete :
  Path -> list Message -> list FunctionDef -> Outcome CompleteResult.
Variable other_stream :
  Path -> list Message -> list FunctionDef -> Outcome StreamResult.

(** Dispatching changes neither the provider nor the model of an
    adapter. *)
Lemma dispatch_keeps_identity (env : Environment) (a : Adapter)
    (functions : list FunctionDef) :
  provider (dispatch_adapter (dispatch env (preloadModel a) functions)) = provider a
  /\ model (dispatch_adapter (dispatch env (preloadModel a) functions)) = model a.
Proof.
  destruct a as [p m cache pre].
  destruct functions as [|f fs]; destruct p; destruct cache as [cached|]; cbn;
    unfold probe_lemonade, probe_capabilities, probe_env; cbn;
    try (split; reflexivity).
  all: destruct (truthy (env_includes env "lemonade")); cbn; split; reflexivity.
Qed.

Lemma tooledOptions_identity (a a' : Adapter) :
  provider a' = provider a -> model a' = model a ->
  tooledOptions a' = tooledOptions a.
Proof. intros Hp Hm. unfold tooledOptions. rewrite Hp, Hm. reflexivity. Qed.

(** What holds of every request the non-streaming driver can build for
    an adapter holds of every request a run of [complete] sends. *)
Lemma complete_requests_Forall (P : Request -> Prop) (mdl : string)
    (opts : FormatOptions) (functions : list FunctionDef) (env : Environment)
    (create : nat -> Request -> Outcome Response) :
  (forall messages drawn,
      P (tooledComplete_request JSON_stringify v4 mdl messages (FnArray functions)
           opts drawn)) ->
  forall depth sent a messages drawn,
    model a = mdl -> tooledOptions a = opts ->
    Forall P
      (run_requests
         (complete JSON_parse JSON_stringify v4 other_complete depth env create
            sent a messages functions drawn)).
Proof.
  intros HP. induction depth as [|depth IH]; intros sent a messages drawn Hm Ho;
    cbn [complete]; [constructor |].
  destruct (dispatch_keeps_identity env a functions) as [Hprov Hmodel].
  pose proof (tooledOptions_identity a _ Hprov Hmodel) as Hopts.
  destruct (dispatch_path (dispatch env (preloadModel a) functions));
    try (cbn; constructor).
  unfold tooledComplete.
  rewrite Hmodel, Hopts, Hm, Ho.
  destruct (create sent _) as [response | e]; cbn [run_requests fx_request].
  - destruct (interpret_response JSON_parse getCost response) as [r | e];
      cbn [run_requests fx_request]; [| repeat constructor; apply HP].
    destruct (cr_retryWithError r) as [retry|]; cbn [run_requests fx_request fx_drawn];
      [| repeat constructor; apply HP].
    constructor; [apply HP |].
    apply IH; [rewrite Hmodel; exact Hm | rewrite Hopts; exact Ho].
  - repeat constructor. apply HP.
Qed.

(** X18: every request an adapter sends through the shared helpers, the
    retries of [complete] included, names the adapter's model, carries
    no [function]-role message, and has either no [tools] key or a
    tool list that is not empty; and [complete] sends at most as many
    requests as invocations were followed. *)
Theorem X18_requests_are_well_formed
    (depth : nat) (env : Environment) (create : nat -> Request -> Outcome Response)
    (createS : Request -> Outcome (Stream Chunk))
    (sent : nat) (a : Adapter) (messages : list Message)
    (functions : list FunctionDef) (drawn : nat) :
  let well_formed request :=
    req_model request = model a
    /\ Forall (fun m => role m <> "function") (req_messages request)
    /\ req_tools request <> Some [] in
  Forall well_formed
    (run_requests
       (complete JSON_parse JSON_stringify v4 other_complete depth env create sent
          a messages functions drawn))
  /\ Forall well_formed
       (srun_requests
          (stream JSON_parse JSON_stringify v4 other_stream env createS a messages
             functions drawn))
  /\ List.length
       (run_requests
          (complete JSON_parse JSON_stringify v4 other_complete depth env create
             sent a messages functions drawn)) <= depth.
Proof.
  cbn zeta.
  assert (Hbuilt : forall stream msgs opts d,
    req_model (build_request (model a) stream
                 (formatMessagesForTools JSON_stringify v4 msgs opts d)
                 (formatFunctionsToTools (FnArray functions))) = model a
    /\ Forall (fun m => role m <> "function")
         (req_messages
            (build_request (model a) stream
               (formatMessagesForTools JSON_stringify v4 msgs opts d)
               (formatFunctionsToTools (FnArray functions))))
    /\ req_tools (build_request (model a) stream
                    (formatMessagesForTools JSON_stringify v4 msgs opts d)
                    (formatFunctionsToTools (FnArray functions))) <> Some []).
  { intros stream msgs opts d. split; [reflexivity |]. split.
    - cbn [req_messages build_request].
      eapply Forall_impl; [apply formatted_settled |]. intros m [Hrole _]. exact Hrole.
    - destruct functions; cbn; discriminate. }
  split; [| split].
  - apply (complete_requests_Forall _ (model a) (tooledOptions a)); try reflexivity.
    intros msgs d. apply Hbuilt.
  - unfold stream.
    destruct (dispatch_keeps_identity env a functions) as [_ Hmodel].
    destruct (dispatch_path (dispatch env (preloadModel a) functions));
      try (cbn; constructor).
    unfold tooledStream. rewrite Hmodel.
    destruct (createS _); cbn [srun_requests fx_request];
      repeat constructor; apply Hbuilt.
  - clear Hbuilt. revert sent a messages drawn.
    induction depth as [|depth IH]; intros sent a messages drawn; cbn [complete];
      [cbn; lia |].
    destruct (dispatch_path (dispatch env (preloadModel a) functions));
      try (cbn; lia).
    unfold tooledComplete.
    destruct (create sent _) as [response | e]; cbn [run_requests List.length];
      [| lia].
    destruct (interpret_response JSON_parse getCost response) as [r | e];
      cbn [run_requests List.length]; [| lia].
    destruct (cr_retryWithError r) as [retry|]; cbn [run_requests List.length];
      [| lia].
    specialize (IH (S sent) (dispatch_adapter (dispatch env (preloadModel a) functions))
                  (messages ++ [retry])
                  (snd (formatMessagesForTools_from JSON_stringify v4 messages
                          (tooledOptions
                             (dispatch_adapter (dispatch env (preloadModel a) functions)))
                          drawn))).
    cbn [fx_drawn]. lia.
Qed.

(** X19: the DeepSeek adapter on its thinking model, called with
    functions, takes the path of the shared helpers, on which [stream]
    sends one request and [complete] at least one; and every assistant
    message of every request sent there, the retries of [complete]
    included, has a [reasoning_content]. *)
Theorem X19_deepseek_reasoner_assistants_carry_reasoning
    (depth : nat) (env : Environment) (create : nat -> Request -> Outcome Response)
    (createS : Request -> Outcome (Stream Chunk))
    (sent : nat) (a : Adapter) (messages : list Message)
    (functions : list FunctionDef) (drawn : nat) :
  provider a = DeepSeek ->
  model a = "deepseek-reasoner" ->
  functions <> [] ->
  let reasoned request :=
    Forall (fun m => role m = "assistant" -> is_Some (reasoning_content m))
      (req_messages request) in
  (exists request,
      srun_requests
        (stream JSON_parse JSON_stringify v4 other_stream env createS a messages
           functions drawn) = [request]
      /\ req_model request = "deepseek-reasoner"
      /\ reasoned request)
  /\ (exists first later,
        run_requests
          (complete JSON_parse JSON_stringify v4 other_complete (S depth) env create
             sent a messages functions drawn) = first :: later
        /\ req_model first = "deepseek-reasoner"
        /\ Forall reasoned (first :: later)).
Proof.
  intros Hprovider Hmodel Hfunctions. cbn zeta.
  assert (Hopts : tooledOptions a = {| injectReasoningContent := true |}).
  { unfold tooledOptions. rewrite Hprovider, Hmodel. reflexivity. }
  assert (Hpath :
    dispatch_path (dispatch env (preloadModel a) functions) = TooledHelpers).
  { destruct a as [p m cache pre]. cbn in Hprovider. subst p.
    destruct functions; [contradiction | reflexivity]. }
  assert (Hbuilt : forall stream mdl msgs d,
    Forall (fun m => role m = "assistant" -> is_Some (reasoning_content m))
      (req_messages
         (build_request mdl stream
            (formatMessagesForTools JSON_stringify v4 msgs
               {| injectReasoningContent := true |} d)
            (formatFunctionsToTools (FnArray functions))))).
  { intros stream mdl msgs d. cbn [req_messages build_request].
    eapply Forall_impl; [apply formatted_settled |].
    intros m [_ Hreason]. apply Hreason. reflexivity. }
  destruct (dispatch_keeps_identity env a functions) as [Hprov' Hmodel'].
  pose proof (tooledOptions_identity a _ Hprov' Hmodel') as Hopts'.
  split.
  - unfold stream. rewrite Hpath.
    unfold tooledStream. rewrite Hopts', Hopts, Hmodel', Hmodel.
    destruct (createS _); cbn [srun_requests fx_request];
      (eexists; split; [reflexivity |]; split; [reflexivity | apply Hbuilt]).
  - pose proof (complete_requests_Forall
                  (fun request =>
                     Forall (fun m => role m = "assistant" ->
                                      is_Some (reasoning_content m))
                       (req_messages request))
                  (model a) {| injectReasoningContent := true |} functions env
                  create (fun msgs d => Hbuilt false (model a) msgs d)
                  (S depth) sent a messages drawn eq_refl Hopts) as Hall.
    revert Hall. cbn [complete]. rewrite Hpath.
    unfold tooledComplete. rewrite Hopts', Hopts, Hmodel', Hmodel.
    destruct (create sent _) as [response | e]; cbn [run_requests fx_request].
    + destruct (interpret_response JSON_parse getCost response) as [r | e];
        cbn [run_requests fx_request];
        [| intros Hall; eexists _, _; split; [reflexivity |];
           split; [reflexivity | exact Hall]].
      destruct (cr_retryWithError r) as [retry|]; cbn [run_requests fx_request];
        intros Hall; eexists _, _; (split; [reflexivity |]);
        (split; [reflexivity | exact Hall]).
    + intros Hall. eexists _, _. split; [reflexivity |].
      split; [reflexivity | exact Hall].
Qed.

(** Without a message that needs a fresh id, formatting does not
    depend on the identifier supply and leaves it as it is. *)
Lemma format_without_fresh_ids (inject : bool) (messages : list Message) :
  List.filter needs_fresh_id messages = [] ->
  forall formatted drawn drawn',
    fold_left (formatMessage JSON_stringify v4 inject) messages (formatted, drawn)
    = (fst (fold_left (formatMessage JSON_stringify v4 inject) messages
              (formatted, drawn')),
       drawn).
Proof.
  induction messages as [|m messages IH]; intros Hnone formatted drawn drawn';
    cbn [fold_left]; [reflexivity |].
  cbn [List.filter] in Hnone.
  destruct (needs_fresh_id m) eqn:Hfresh; [discriminate |].
  assert (Hstep : forall d,
    formatMessage JSON_stringify v4 inject (formatted, d) m
    = (fst (formatMessage JSON_stringify v4 inject (formatted, 0) m), d)).
  { intros d. revert Hfresh. unfold needs_fresh_id, formatMessage, truthy_call_id.
    destruct (String.eqb (role m) "function"); cbn [andb].
    - destruct (originalFunctionCall m) as [ofc|]; [| discriminate].
      destruct (ofc_id ofc) as [id|]; [| discriminate].
      destruct (truthy_str (Some id)); [reflexivity | discriminate].
    - intros _.
      destruct (inject && String.eqb (role m) "assistant"
                && negb (bool_decide (is_Some (reasoning_content m)))); reflexivity. }
  rewrite (Hstep drawn), (Hstep drawn'). apply IH. exact Hnone.
Qed.

(** X20: the retry signal reaches the model as a tool result.  When
    the first response of [complete] has a malformed first tool call
    with an id, and no message of the history needs a fresh id, the
    second request repeats the messages of the first and ends with the
    tool-result message of that call, whose content reports the raw
    arguments, preceded by the assistant message of the call unless the
    history sent already ended with an assistant message with tool
    calls. *)
Theorem X20_retry_signal_is_sent_as_a_tool_result
    (depth : nat) (env : Environment) (create : nat -> Request -> Outcome Response)
    (sent : nat) (a : Adapter) (messages : list Message)
    (functions : list FunctionDef) (drawn : nat)
    (completion : Completion) (others : list Completion) (usage : JValue)
    (toolCall : ToolCallObj) (rest : list ToolCallObj) :
  let a' := dispatch_adapter (dispatch env (preloadModel a) functions) in
  dispatch_path (dispatch env (preloadModel a) functions) = TooledHelpers ->
  List.filter needs_fresh_id messages = [] ->
  create sent
    (tooledComplete_request JSON_stringify v4 (model a') messages
       (FnArray functions) (tooledOptions a') drawn)
  = Returned {| resp_choices := completion :: others; resp_usage := usage |} ->
  cm_tool_calls completion = Some (toolCall :: rest) ->
  JSON_parse (tc_arguments toolCall) = None ->
  tc_id toolCall <> EmptyString ->
  let call_message :=
    {| role := "assistant"; content := JNull; name := None;
       originalFunctionCall := None;
       reasoning_content :=
         if injectReasoningContent (tooledOptions a') then Some EmptyString else None;
       tool_calls :=
         Some [ {| mtc_id := tc_id toolCall; mtc_type := "function";
                   mtc_name := tc_name toolCall;
                   mtc_arguments := JStr (tc_arguments toolCall) |} ];
       tool_call_id := None |} in
  let result_message :=
    {| role := "tool";
       content :=
         JStr ("Failed to parse tool call arguments as JSON. Raw arguments: "
                 +:+ tc_arguments toolCall);
       name := None; originalFunctionCall := None;
       reasoning_content := None; tool_calls := None;
       tool_call_id := Some (tc_id toolCall) |} in
  exists first second later,
    run_requests
      (complete JSON_parse JSON_stringify v4 other_complete (S (S depth)) env
         create sent a messages functions drawn)
    = first :: second :: later
    /\ req_messages first
       = formatMessagesForTools JSON_stringify v4 messages (tooledOptions a') drawn
    /\ (ends_with_tool_calls (req_messages first) ->
        req_messages second = req_messages first ++ [result_message])
    /\ (~ ends_with_tool_calls (req_messages first) ->
        req_messages second = req_messages first ++ [call_message; result_message]).
Proof.
  cbn zeta. intros Hpath Hnone Hcreate Hcalls Hparse Hid.
  destruct (dispatch_stable env env a functions) as [Hsame Hadapter].
  cbn zeta in Hsame, Hadapter. rewrite Hpath in Hsame.
  remember (dispatch_adapter (dispatch env (preloadModel a) functions)) as a' eqn:Ha'.
  assert (Hfirst :
    complete JSON_parse JSON_stringify v4 other_complete (S (S depth)) env create
      sent a messages functions drawn
    = let again :=
        complete JSON_parse JSON_stringify v4 other_complete (S depth) env create
          (S sent) a' (messages ++ [retry_message toolCall]) functions
          (snd (formatMessagesForTools_from JSON_stringify v4 messages
                  (tooledOptions a') drawn)) in
      {| run_outcome := run_outcome again;
         run_requests :=
           tooledComplete_request JSON_stringify v4 (model a') messages
             (FnArray functions) (tooledOptions a') drawn
           :: run_requests again;
         run_adapter := run_adapter again;
         run_drawn := run_drawn again |}).
  { change (complete JSON_parse JSON_stringify v4 other_complete (S (S depth)) env
              create sent a messages functions drawn)
      with (let d := dispatch env (preloadModel a) functions in
            let a0 := dispatch_adapter d in
            match dispatch_path d with
            | TooledHelpers =>
                let '(result, fx) :=
                  tooledComplete JSON_parse JSON_stringify v4 (create sent)
                    (model a0) messages (FnArray functions) getCost
                    (tooledOptions a0) drawn in
                match result with
                | Thrown error =>
                    {| run_outcome := Some (Thrown (rethrown error));
                       run_requests := [fx_request fx];
                       run_adapter := a0; run_drawn := fx_drawn fx |}
                | Returned r =>
                    match cr_retryWithError r with
                    | Some retryWithError =>
                        let again :=
                          complete JSON_parse JSON_stringify v4 other_complete
                            (S depth) env create (S sent) a0
                            (messages ++ [retryWithError]) functions (fx_drawn fx) in
                        {| run_outcome := run_outcome again;
                           run_requests := fx_request fx :: run_requests again;
                           run_adapter := run_adapter again;
                           run_drawn := run_drawn again |}
                    | None =>
                        {| run_outcome := Some (Returned r);
                           run_requests := [fx_request fx];
                           run_adapter := a0; run_drawn := fx_drawn fx |}
                    end
                end
            | other =>
                {| run_outcome := Some (other_complete other messages functions);
                   run_requests := [];
                   run_adapter := a0; run_drawn := drawn |}
            end).
    cbv zeta. rewrite Hpath, <- Ha'.
    unfold tooledComplete. rewrite Hcreate.
    unfold interpret_response, safeJsonParse. cbn [resp_choices resp_usage].
    rewrite Hcalls, Hparse. reflexivity. }
  rewrite Hfirst. cbv zeta. cbn [run_requests].
  assert (Hdrawn :
    snd (formatMessagesForTools_from JSON_stringify v4 messages (tooledOptions a') drawn)
    = drawn).
  { unfold formatMessagesForTools_from.
    rewrite (format_without_fresh_ids _ _ Hnone [] drawn drawn). reflexivity. }
  rewrite Hdrawn.
  assert (Hsecond : exists later,
    run_requests
      (complete JSON_parse JSON_stringify v4 other_complete (S depth) env create
         (S sent) a' (messages ++ [retry_message toolCall]) functions drawn)
    = tooledComplete_request JSON_stringify v4 (model a')
        (messages ++ [retry_message toolCall]) (FnArray functions)
        (tooledOptions a') drawn
      :: later).
  { cbn [complete]. rewrite Hsame, Hadapter. unfold tooledComplete.
    destruct (create (S sent) _) as [response | e];
      [| eexists; reflexivity].
    destruct (interpret_response JSON_parse getCost response) as [r | e];
      [| eexists; reflexivity].
    destruct (cr_retryWithError r); eexists; reflexivity. }
  destruct Hsecond as [later ->].
  eexists _, _, later. split; [reflexivity |].
  split; [reflexivity |].
  unfold tooledComplete_request. cbn [req_messages build_request].
  assert (Hsent :
    formatMessagesForTools JSON_stringify v4 (messages ++ [retry_message toolCall])
      (tooledOptions a') drawn
    = formatMessagesForTools JSON_stringify v4 messages (tooledOptions a') drawn
      ++ (if needs_assistant_call
               (last (formatMessagesForTools JSON_stringify v4 messages
                        (tooledOptions a') drawn))
          then [assistant_call (injectReasoningContent (tooledOptions a'))
                  (tc_id toolCall) (tc_name toolCall) (JStr (tc_arguments toolCall))]
          else [])
      ++ [tool_result JSON_stringify (tc_id toolCall)
            (JStr ("Failed to parse tool call arguments as JSON. Raw arguments: "
                     +:+ tc_arguments toolCall))]).
  { unfold formatMessagesForTools.
    rewrite formatMessagesForTools_from_app. cbn [fold_left].
    destruct (formatMessagesForTools_from JSON_stringify v4 messages (tooledOptions a') drawn)
      as [formatted drawn1].
    cbn [fst].
    unfold formatMessage, truthy_call_id, retry_message.
    cbn [role originalFunctionCall ofc_id ofc_name ofc_arguments content truthy_str
         string_or_stringify].
    change (String.eqb "function" "function") with true. cbv iota.
    destruct (String.eqb_spec (tc_id toolCall) EmptyString) as [Heq | _];
      [contradiction |].
    cbn [negb fst]. reflexivity. }
  rewrite Hsent. unfold assistant_call, tool_result, string_or_stringify.
  split.
  - intros (previous & calls & Hlast & Hprev & Hhas).
    unfold needs_assistant_call. rewrite Hlast, Hprev, Hhas.
    change (String.eqb "assistant" "assistant") with true. reflexivity.
  - intros Hnot.
    assert (Hneeds :
      needs_assistant_call
        (last (formatMessagesForTools JSON_stringify v4 messages (tooledOptions a') drawn))
      = true).
    { unfold needs_assistant_call.
      destruct (last (formatMessagesForTools JSON_stringify v4 messages
                        (tooledOptions a') drawn))
        as [previous|] eqn:Hlast; [| reflexivity].
      destruct (String.eqb_spec (role previous) "assistant") as [Hprev | _];
        [| reflexivity].
      destruct (tool_calls previous) as [calls|] eqn:Hhas; [| reflexivity].
      exfalso. apply Hnot. exists previous, calls. auto. }
    rewrite Hneeds. reflexivity.
Qed.

End RequestExtras.

(** ** The further properties on concrete inputs *)

Lemma X3_witness :
  formatMessagesForTools JsonText.json_stringify uuid
    ([user_message "find cats"] ++ emulated_function_message "search" "3 cats" :: [])
    default_options 0
  = [user_message "find cats"]
    ++ [ {| role := "assistant"; content := JNull; name := None;
            originalFunctionCall := None; reasoning_content := None;
            tool_calls :=
              Some [ {| mtc_id := "call_" +:+ uuid 0; mtc_type := "function";
                        mtc_name := Some "search"; mtc_arguments := JStr "{}" |} ];
            tool_call_id := None |};
         {| role := "tool"; content := JStr "3 cats"; name := None;
            originalFunctionCall := None; reasoning_content := None;
            tool_calls := None; tool_call_id := Some ("call_" +:+ uuid 0) |} ]
    ++ [].
Proof.
  apply (proj1 (X3_fresh_id_shared_by_the_pair JsonText.json_stringify uuid
                  default_options 0 [user_message "find cats"] []
                  (emulated_function_message "search" "3 cats") eq_refl)).
Defined.

Lemma X4_witness :
  exists r,
    fst (tooledStream JsonText.json_parse JsonText.json_stringify uuid
           (fun _ => Returned (ended idless_call_chunks)) "model"
           [user_message "find cats"] (FnArray [search_function]) default_options 0)
    = Returned r
    /\ sr_textResponse r = joined (map first_content idless_call_chunks)
    /\ joined (map (fun e => Some (ev_content e))
                 (List.filter is_text_event
                    (fx_events
                       (snd (tooledStream JsonText.json_parse JsonText.json_stringify
                               uuid (fun _ => Returned (ended idless_call_chunks)) "model"
                               [user_message "find cats"] (FnArray [search_function])
                               default_options 0)))))
       = sr_textResponse r.
Proof.
  apply (X4_streamed_text_is_the_reported_text JsonText.json_parse
           JsonText.json_stringify uuid (fun _ => Returned (ended idless_call_chunks))
           "model" [user_message "find cats"] (FnArray [search_function])
           default_options 0 idless_call_chunks).
  reflexivity.
Defined.

Lemma X5_witness :
  function_call_of
    (fst (tooledStream JsonText.json_parse JsonText.json_stringify uuid
            (fun _ => Returned (ended parallel_call_chunks)) "model"
            [user_message "find cats"] (FnArray [search_function]) default_options 0))
  = function_call_of
      (fst (tooledStream JsonText.json_parse JsonText.json_stringify uuid
              (fun _ => Returned (ended single_call_chunks)) "model"
              [user_message "find cats"] (FnArray [search_function])
              default_options 0))
  /\ function_call_of
       (fst (tooledStream JsonText.json_parse JsonText.json_stringify uuid
               (fun _ => Returned (ended parallel_call_chunks)) "model"
               [user_message "find cats"] (FnArray [search_function])
               default_options 0)) <> None.
Proof.
  apply (X5_only_the_first_index_counts JsonText.json_parse JsonText.json_stringify
           uuid (fun _ => Returned (ended parallel_call_chunks))
           (fun _ => Returned (ended single_call_chunks)) "model"
           [user_message "find cats"] (FnArray [search_function]) default_options 0
           parallel_call_chunks single_call_chunks).
  - reflexivity.
  - reflexivity.
  - reflexivity.
  - apply Exists_cons_hd. split; reflexivity.
Defined.

Lemma X6_witness :
  st_toolCallsByIndex (consume "u" restarted_call_chunks) !! 0
  = fold_left mergeAccumulator
      [ {| d_index := Some 0; d_id := Some "c2";
           d_name := Some "lookup"; d_arguments := None |};
        {| d_index := Some 0; d_id := None;
           d_name := None; d_arguments := Some "{}" |} ] ∅ !! 0.
Proof.
  apply (X6_an_id_restarts_its_index "u" restarted_call_chunks
           [ {| d_index := Some 0; d_id := Some "c1";
                d_name := Some "search"; d_arguments := Some "{" |} ]
           [ {| d_index := Some 0; d_id := None;
                d_name := None; d_arguments := Some "{}" |} ]
           {| d_index := Some 0; d_id := Some "c2";
              d_name := Some "lookup"; d_arguments := None |}).
  - reflexivity.
  - reflexivity.
Defined.

Lemma X7_witness :
  fst (tooledStream JsonText.json_parse JsonText.json_stringify uuid
         (fun _ => Returned (ended idless_call_chunks)) "model"
         [user_message "find cats"] (FnArray [search_function]) default_options 0)
  = Returned {| sr_textResponse := joined (map first_content idless_call_chunks);
                sr_functionCall := None |}.
Proof.
  apply (X7_no_id_no_call JsonText.json_parse JsonText.json_stringify uuid
           (fun _ => Returned (ended idless_call_chunks)) "model"
           [user_message "find cats"] (FnArray [search_function]) default_options 0
           idless_call_chunks).
  - reflexivity.
  - repeat constructor.
Defined.

Lemma X8_witness :
  run_outcome
    (complete JsonText.json_parse JsonText.json_stringify uuid no_other_complete 5
       bare_environment malformed_twice 0 (new_adapter AzureOpenAi "gpt")
       [user_message "find cats"] [search_function] 0)
  = Some (Returned {| cr_textResponse := Some "3 cats"; cr_functionCall := None;
                      cr_retryWithError := None; cr_cost := 0 |})
  /\ List.length
       (run_requests
          (complete JsonText.json_parse JsonText.json_stringify uuid
             no_other_complete 5 bare_environment malformed_twice 0
             (new_adapter AzureOpenAi "gpt") [user_message "find cats"]
             [search_function] 0)) = 3.
Proof.
  apply (X8_complete_settles_after_the_last_retry JsonText.json_parse
           JsonText.json_stringify uuid no_other_complete 2 5 bare_environment
           malformed_twice 0 (new_adapter AzureOpenAi "gpt")
           [user_message "find cats"] [search_function] 0
           {| resp_choices := [ {| cm_content := Some "3 cats"; cm_tool_calls := None |} ];
              resp_usage := JNull |}).
  - reflexivity.
  - intros j request Hj.
    exists (response_with_calls "text" [call_obj "c1" "search" "q=cats"]).
    split.
    + destruct j as [|[|j]]; [reflexivity | reflexivity | lia].
    + unfold malformed_first_call, response_with_calls.
      eexists _, _, _, _.
      split; [reflexivity |]. split; [reflexivity |]. vm_compute. reflexivity.
  - intros request. reflexivity.
  - reflexivity.
  - reflexivity.
  - lia.
Defined.

Lemma X12_witness :
  fst (ollama_stream_native JsonText.json_parse JsonText.json_stringify uuid
         (fun _ _ => Returned (ended native_two_calls)) [user_message "find cats"]
         [search_function] 0)
  = Returned
      {| sr_textResponse := joined (map native_content native_two_calls);
         sr_functionCall :=
           Some {| fc_id := "ollama_" +:+ uuid 1;
                   fc_name := Some "lookup";
                   fc_arguments := JObj [] |} |}.
Proof.
  apply (X12_last_chunk_with_calls_wins JsonText.json_parse JsonText.json_stringify
           uuid (fun _ _ => Returned (ended native_two_calls))
           [user_message "find cats"]
           [search_function] 0
           [ native_text "Let me search.";
             native_calls [ {| otc_name := "search"; otc_arguments := JObj [] |} ] ]
           [ native_text " Done." ] None
           {| otc_name := "lookup"; otc_arguments := JStr "q=cats" |} []).
  - reflexivity.
  - repeat constructor.
Defined.

Lemma X13_witness :
  exists error,
    stream_emulated JsonText.json_parse JsonText.json_stringify uuid plain_prompt
      (fun messages => messages) every_call_valid no_mcp_tool repeating_chat steady_clock half_minute no_duplicate
      new_session [user_message "find cats"; assistant_message "On it."]
      [search_function]
    = (Thrown error, [], new_session)
    /\ err_class error = OtherError.
Proof.
  apply (X13_emulated_stream_needs_a_final_user_message JsonText.json_parse
           JsonText.json_stringify uuid plain_prompt (fun messages => messages)
           every_call_valid no_mcp_tool repeating_chat steady_clock half_minute no_duplicate new_session
           [user_message "find cats"; assistant_message "On it."] [search_function]).
  - discriminate.
  - cbn. discriminate.
Defined.

Lemma X14_witness :
  exists events s',
    stream_emulated JsonText.json_parse JsonText.json_stringify uuid plain_prompt
      (fun messages => messages) every_call_valid no_mcp_tool prose_chat steady_clock half_minute no_duplicate
      new_session [user_message "tell me about cats"] [search_function]
    = (Returned {| er_textResponse := Some (reply_text (text_stream "Cats are great."));
                   er_functionCall := None;
                   er_cost := 0 |},
       events, s')
    /\ chats s' = 1
    /\ runs (deduplicator s') = ∅
    /\ last events
       = Some {| ev_type := "fullTextResponse";
                 ev_uuid := uuid 3;
                 ev_content := reply_text (text_stream "Cats are great.") |}.
Proof.
  apply (X14_plain_reply_is_returned_verbatim JsonText.json_parse
           JsonText.json_stringify uuid plain_prompt (fun messages => messages)
           every_call_valid no_mcp_tool prose_chat steady_clock half_minute no_duplicate new_session
           [user_message "tell me about cats"] [search_function]
           (user_message "tell me about cats") (text_stream "Cats are great.")).
  - discriminate.
  - reflexivity.
  - reflexivity.
  - reflexivity.
  - vm_compute. reflexivity.
  - vm_compute. discriminate.
Defined.

Lemma X15_witness :
  exists events s',
    stream_emulated JsonText.json_parse JsonText.json_stringify uuid plain_prompt
      (fun messages => messages) every_call_valid no_mcp_tool closing_chat steady_clock half_minute no_duplicate
      new_session [user_message "say hello"] []
    = (Returned {| er_textResponse := Some "Hellolo";
                   er_functionCall := None;
                   er_cost := 0 |},
       events, s').
Proof.
  apply (X15_closing_chunk_repeats_the_last_token JsonText.json_parse
           JsonText.json_stringify uuid plain_prompt (fun messages => messages)
           every_call_valid no_mcp_tool closing_chat steady_clock half_minute no_duplicate new_session
           [user_message "say hello"] ["Hel"] "lo").
  - repeat constructor; discriminate.
  - reflexivity.
Defined.

Lemma X16_witness :
  fst (convertToLangchainPrototypesWithTools JsonText.json_parse
         JsonText.json_stringify uuid
         ([user_message "find cats"; assistant_message "On it."]
            ++ function_message "c1" "search" "3 cats" :: [])
         0)
  = [HumanMessage (JStr "find cats");
     AIMessage (JStr "On it.") [];
     AIMessage (JStr EmptyString)
       [ {| lc_name := Some "search"; lc_args := JObj []; lc_id := "c1" |} ];
     ToolMessage (JStr "3 cats") "c1"].
Proof.
  apply (X16_bedrock_always_pairs_call_and_result JsonText.json_parse
           JsonText.json_stringify uuid
           [user_message "find cats"; assistant_message "On it."] []
           (function_message "c1" "search" "3 cats") 0 "c1"
           {| ofc_id := Some "c1"; ofc_name := Some "search"; ofc_arguments := JObj [] |}).
  - reflexivity.
  - reflexivity.
Defined.


Lemma X19_witness :
  exists request,
    srun_requests
      (stream JsonText.json_parse JsonText.json_stringify uuid no_other_stream
         bare_environment (fun _ => Returned (ended [])) deepseek_reasoner
         [user_message "find cats"; assistant_message "On it."]
         [search_function] 0) = [request]
    /\ req_model request = "deepseek-reasoner"
    /\ Forall (fun m => role m = "assistant" -> is_Some (reasoning_content m))
         (req_messages request).
Proof.
  apply (proj1 (X19_deepseek_reasoner_assistants_carry_reasoning JsonText.json_parse
                  JsonText.json_stringify uuid no_other_complete no_other_stream 3
                  bare_environment always_malformed (fun _ => Returned (ended [])) 0
                  deepseek_reasoner
                  [user_message "find cats"; assistant_message "On it."]
                  [search_function] 0 eq_refl eq_refl ltac:(discriminate))).
Defined.

Lemma X20_witness :
  exists first second later,
    run_requests
      (complete JsonText.json_parse JsonText.json_stringify uuid no_other_complete 2
         bare_environment always_malformed 0 (new_adapter AzureOpenAi "gpt")
         [user_message "find cats"] [search_function] 0)
    = first :: second :: later
    /\ req_messages first
       = formatMessagesForTools JsonText.json_stringify uuid
           [user_message "find cats"] default_options 0
    /\ (ends_with_tool_calls (req_messages first) ->
        req_messages second
        = req_messages first
          ++ [ {| role := "tool";
                  content :=
                    JStr ("Failed to parse tool call arguments as JSON. Raw arguments: "
                            +:+ "q=cats");
                  name := None; originalFunctionCall := None;
                  reasoning_content := None; tool_calls := None;
                  tool_call_id := Some "c1" |} ])
    /\ (~ ends_with_tool_calls (req_messages first) ->
        req_messages second
        = req_messages first
          ++ [ {| role := "assistant"; content := JNull; name := None;
                  originalFunctionCall := None; reasoning_content := None;
                  tool_calls :=
                    Some [ {| mtc_id := "c1"; mtc_type := "function";
                              mtc_name := Some "search";
                              mtc_arguments := JStr "q=cats" |} ];
                  tool_call_id := None |};
               {| role := "tool";
                  content :=
                    JStr ("Failed to parse tool call arguments as JSON. Raw arguments: "
                            +:+ "q=cats");
                  name := None; originalFunctionCall := None;
                  reasoning_content := None; tool_calls := None;
                  tool_call_id := Some "c1" |} ]).
Proof.
  apply (X20_retry_signal_is_sent_as_a_tool_result JsonText.json_parse
           JsonText.json_stringify uuid no_other_complete 0 bare_environment
           always_malformed 0 (new_adapter AzureOpenAi "gpt")
           [user_message "find cats"] [search_function] 0
           {| cm_content := Some "text";
              cm_tool_calls := Some [call_obj "c1" "search" "q=cats"] |}
           [] JNull (call_obj "c1" "search" "q=cats") []).
  - reflexivity.
  - reflexivity.
  - reflexivity.
  - reflexivity.
  - vm_compute. reflexivity.
  - discriminate.
Defined.
